(** * Numeric-literal conversion commands of [convert.py]

    A shallow embedding of the eight text commands of the plugin
    (BinToDec, BinToHex, DecToBin, DecToHex, HexToBin, HexToDec, ExpToDec,
    DecToExp) together with the parts of the Python runtime and of the
    editor host they call into, followed by the properties established
    about them. *)

From Stdlib Require Import ZArith Lia List Bool Ascii String.
From Stdlib Require Import Floats.SpecFloat.
Import ListNotations.

Local Open Scope string_scope.
Local Open Scope Z_scope.

(** ** Python text primitives *)

Module Py.

Definition code (c : ascii) : Z := Z.of_nat (nat_of_ascii c).

Definition in_range (lo hi : Z) (c : ascii) : bool :=
  (lo <=? code c) && (code c <=? hi).

(** [str.isspace] restricted to the ASCII range. *)
Definition is_space (c : ascii) : bool :=
  in_range 9 13 c || in_range 28 32 c.

Definition is_digit (c : ascii) : bool := in_range 48 57 c.

(** Word characters of [re] in the ASCII range: letters, digits and the
    underscore.  Characters above 127 are counted as other characters. *)
Definition is_word (c : ascii) : bool :=
  is_digit c || in_range 97 122 c || in_range 65 90 c || (code c =? 95).

Fixpoint lstrip_by (p : ascii -> bool) (s : string) : string :=
  match s with
  | String c s' => if p c then lstrip_by p s' else s
  | EmptyString => EmptyString
  end.

Fixpoint rstrip_by (p : ascii -> bool) (s : string) : string :=
  match s with
  | EmptyString => EmptyString
  | String c s' =>
      match rstrip_by p s' with
      | EmptyString => if p c then EmptyString else String c EmptyString
      | t => String c t
      end
  end.

(** [s.strip()] *)
Definition strip (s : string) : string := rstrip_by is_space (lstrip_by is_space s).

(** [s.rstrip(c)] for a one-character argument. *)
Definition rstrip (c : ascii) (s : string) : string := rstrip_by (Ascii.eqb c) s.

(** [c in s] for a one-character string [c]. *)
Fixpoint char_in (c : ascii) (s : string) : bool :=
  match s with
  | EmptyString => false
  | String d s' => Ascii.eqb c d || char_in c s'
  end.

(** *** Integers: [int(s, base)], [str(n)] and the integer presentation
    types of [format]. *)

Definition digit_value (c : ascii) : option Z :=
  if is_digit c then Some (code c - 48)
  else if in_range 97 122 c then Some (code c - 87)
  else if in_range 65 90 c then Some (code c - 55)
  else None.

Fixpoint parse_digits (base : Z) (s : string) (acc : Z) : option Z :=
  match s with
  | EmptyString => Some acc
  | String c s' =>
      match digit_value c with
      | Some d => if d <? base then parse_digits base s' (acc * base + d) else None
      | None => None
      end
  end.

Definition is_letter (l : ascii) (c : ascii) : bool :=
  Ascii.eqb c l || (code c =? code l - 32).

(** A leading sign, and what follows it. *)
Definition split_sign (s : string) : bool * string :=
  match s with
  | String c t =>
      if Ascii.eqb c "-" then (true, t)
      else if Ascii.eqb c "+" then (false, t)
      else (false, s)
  | EmptyString => (false, s)
  end.

(** The letter of the base prefix that [int] accepts for [base]. *)
Definition prefix_letter (base : Z) (x : ascii) : bool :=
  ((base =? 16) && is_letter "x" x) || ((base =? 2) && is_letter "b" x)
  || ((base =? 8) && is_letter "o" x).

Definition strip_base_prefix (base : Z) (s : string) : string :=
  match s with
  | String z (String x s') =>
      if Ascii.eqb z "0" && prefix_letter base x then s' else s
  | _ => s
  end.

(** [int(s, base)]; [None] stands for the raised [ValueError].  Digit
    separators ([_]), digits outside the ASCII range and the limit on the
    number of decimal digits are not part of the embedding. *)
Definition int (s : string) (base : Z) : option Z :=
  let '(neg, s2) := split_sign (strip s) in
  match strip_base_prefix base s2 with
  | EmptyString => None
  | s3 => option_map (fun n => if neg then - n else n) (parse_digits base s3 0)
  end.

Definition digit_char (upper : bool) (d : Z) : ascii :=
  ascii_of_nat (Z.to_nat (if d <? 10 then 48 + d else if upper then 55 + d else 87 + d)).

Fixpoint digits_of (fuel : nat) (upper : bool) (base n : Z) (acc : string) : string :=
  match fuel with
  | O => acc
  | S fuel' =>
      let acc' := String (digit_char upper (n mod base)) acc in
      if n / base =? 0 then acc' else digits_of fuel' upper base (n / base) acc'
  end.

(** Digits of a natural number [n] in [base], most significant first. *)
Definition render (upper : bool) (base n : Z) : string :=
  digits_of (S (Z.to_nat (Z.log2 n))) upper base n EmptyString.

(** Sign, then prefix, then magnitude: the layout of [format(n, '#x')]. *)
Definition render_int (upper : bool) (base : Z) (prefix : string) (n : Z) : string :=
  if n <? 0 then "-" ++ prefix ++ render upper base (- n)
  else prefix ++ render upper base n.

(** [str(n)] *)
Definition str (n : Z) : string := render_int false 10 "" n.

(** [hex(n)] *)
Definition hex (n : Z) : string := render_int false 16 "0x" n.

(** [format(n, spec)] for the presentation types of integers, with or
    without the alternate form [#].  Any other specification (a width, a
    fill, a sign, grouping, the types of floats) is outside the embedding
    and reported as an error, whether Python accepts it or not: nothing is
    concluded below from such an error. *)
Definition format_spec (spec : string) (n : Z) : option string :=
  match spec with
  | "" | "d" | "#d" => Some (str n)
  | "b" => Some (render_int false 2 "" n)
  | "#b" => Some (render_int false 2 "0b" n)
  | "o" => Some (render_int false 8 "" n)
  | "#o" => Some (render_int false 8 "0o" n)
  | "x" => Some (render_int false 16 "" n)
  | "#x" => Some (render_int false 16 "0x" n)
  | "X" => Some (render_int true 16 "" n)
  | "#X" => Some (render_int true 16 "0X" n)
  | _ => None
  end.

(** Splits [s] at the first closing brace. *)
Fixpoint until_brace (s : string) : option (string * string) :=
  match s with
  | EmptyString => None
  | String "}" s' => Some (EmptyString, s')
  | String "{" _ => None
  | String c s' =>
      match until_brace s' with
      | Some (f, rest) => Some (String c f, rest)
      | None => None
      end
  end.

(** How the replacement fields seen so far were numbered: [format]
    refuses to switch between the two ways. *)
Inductive numbering := Unnumbered | Automatic | Manual.

(** A replacement field [index[:spec]] applied to the single positional
    argument [n].  An empty index takes the next automatic number, which
    is 0 for the first such field only; a written index is a string of
    decimal digits and has to denote 0.  Conversions ([!r]) and attribute
    or item lookups on the argument are outside the embedding and
    reported as an error. *)
Definition format_field (field : string) (seen : numbering) (n : Z)
  : option (string * numbering) :=
  let '(idx, spec) :=
    match index 0 ":" field with
    | Some i => (substring 0 i field, substring (S i) (length field - S i) field)
    | None => (field, EmptyString)
    end in
  match idx with
  | "" =>
      match seen with
      | Unnumbered => option_map (fun s => (s, Automatic)) (format_spec spec n)
      | Automatic | Manual => None
      end
  | _ =>
      match parse_digits 10 idx 0, seen with
      | Some 0, (Unnumbered | Manual) =>
          option_map (fun s => (s, Manual)) (format_spec spec n)
      | _, _ => None
      end
  end.

Fixpoint format_go (fuel : nat) (fmt : string) (seen : numbering) (n : Z)
  : option string :=
  match fuel with
  | O => None
  | S fuel' =>
      match fmt with
      | EmptyString => Some EmptyString
      | String "{" (String "{" rest) =>
          option_map (String "{") (format_go fuel' rest seen n)
      | String "}" (String "}" rest) =>
          option_map (String "}") (format_go fuel' rest seen n)
      | String "}" _ => None
      | String "{" rest =>
          match until_brace rest with
          | Some (field, rest') =>
              match format_field field seen n with
              | Some (out, seen') =>
                  option_map (append out) (format_go fuel' rest' seen' n)
              | None => None
              end
          | None => None
          end
      | String c rest => option_map (String c) (format_go fuel' rest seen n)
      end
  end.

(** [fmt.format(n)] with one integer argument; [None] stands for any
    raised exception. *)
Definition format (fmt : string) (n : Z) : option string :=
  format_go (S (String.length fmt)) fmt Unnumbered n.

End Py.

(** ** Settings values and the regular-expression interface *)

(** A value of the settings store: a string, or any other JSON value. *)
Inductive value :=
| VStr (s : string)
| VOther.

(** What the commands use of the [re] module: [re.compile], the
    [pattern] attribute of a compiled pattern, [match] and the [group]
    accessor of a match object.  [None] stands for a raised exception in
    [re_compile], for the absence of a match in [re_match], and for a group
    that does not exist or did not take part in the match in the group
    accessor. *)
Class RegexEngine := {
  Pattern : Type;
  re_compile : value -> option Pattern;
  re_pattern : Pattern -> string;
  re_match : Pattern -> string -> option (nat -> option string)
}.

(** ** A backtracking matcher for the pattern syntax used by the plugin

    The syntax covers literals, escapes, character classes, [.], [^], [$],
    [\b], groups, alternation and the greedy quantifiers [?], [*] and [+];
    every pattern that occurs in [convert.py] lies inside it.  Anything
    else that [re] accepts (counted repetition, lazy quantifiers, the
    [(?...)] forms other than [(?:...)]) is refused here, so what is said
    below of configured patterns is said for any engine.  Matching is
    case sensitive, as [re.compile] is called without flags, and [\b],
    [\w] and [\d] follow the ASCII classes. *)

Module Sre.

Inductive regex :=
| RChar (c : ascii)
| RSet (neg : bool) (ranges : list (ascii * ascii))
| RDot
| RWordB (neg : bool)
| RBegin
| REnd
| REmpty
| RSeq (r1 r2 : regex)
| RAlt (r1 r2 : regex)
| RGroup (n : nat) (r : regex)
| RStar (r : regex).

Definition ROpt (r : regex) : regex := RAlt r REmpty.
Definition RPlus (r : regex) : regex := RSeq r (RStar r).

Definition digit_ranges : list (ascii * ascii) := [("0", "9")]%char.
Definition word_ranges : list (ascii * ascii) :=
  [("a", "z"); ("A", "Z"); ("0", "9"); ("_", "_")]%char.
Definition space_ranges : list (ascii * ascii) :=
  [(ascii_of_nat 9, ascii_of_nat 13); (ascii_of_nat 28, ascii_of_nat 32)].

(** *** Parsing a pattern string *)

Definition is_quantifier (c : ascii) : bool := Py.char_in c "?*+{".

Definition is_punct (c : ascii) : bool :=
  negb (Py.is_word c) && Py.in_range 33 126 c.

(** The class or literal denoted by an escape that stands for characters. *)
Definition escape_set (c : ascii) : option (bool * list (ascii * ascii)) :=
  match c with
  | "d"%char => Some (false, digit_ranges)
  | "D"%char => Some (true, digit_ranges)
  | "w"%char => Some (false, word_ranges)
  | "W"%char => Some (true, word_ranges)
  | "s"%char => Some (false, space_ranges)
  | "S"%char => Some (true, space_ranges)
  | "n"%char => Some (false, [(ascii_of_nat 10, ascii_of_nat 10)])
  | "t"%char => Some (false, [(ascii_of_nat 9, ascii_of_nat 9)])
  | "r"%char => Some (false, [(ascii_of_nat 13, ascii_of_nat 13)])
  | _ => if is_punct c then Some (false, [(c, c)]) else None
  end.

(** Items of a bracketed class up to the closing bracket. *)
Fixpoint parse_class (fuel : nat) (s : string) (acc : list (ascii * ascii))
  : option (list (ascii * ascii) * string) :=
  match fuel with
  | O => None
  | S fuel' =>
      match s with
      | EmptyString => None
      | String "]" rest => Some (rev acc, rest)
      | String "\" (String c rest) =>
          match escape_set c with
          | Some (false, rs) => parse_class fuel' rest (rev rs ++ acc)
          | _ => None
          end
      | String "\" EmptyString => None
      | String lo (String "-" (String hi rest)) =>
          if Ascii.eqb hi "]" then parse_class fuel' (String "-" (String hi rest)) ((lo, lo) :: acc)
          else if Ascii.eqb hi "\" then None
          else if Py.code lo <=? Py.code hi then parse_class fuel' rest ((lo, hi) :: acc)
          else None
      | String c rest => parse_class fuel' rest ((c, c) :: acc)
      end
  end.

(** Whether [r] can match the empty string. *)
Fixpoint nullable (r : regex) : bool :=
  match r with
  | RChar _ | RSet _ _ | RDot => false
  | RWordB _ | RBegin | REnd | REmpty | RStar _ => true
  | RSeq r1 r2 => nullable r1 && nullable r2
  | RAlt r1 r2 => nullable r1 || nullable r2
  | RGroup _ r1 => nullable r1
  end.

(** A quantifier, if any, applied to the atom just read.  Lazy and
    counted repetition, and repetition of an atom that can match the
    empty string, are outside the syntax. *)
Definition parse_quant (r : regex) (s : string) : option (regex * string) :=
  let reject_second (q : regex) (rest : string) :=
    match rest with
    | String c _ => if is_quantifier c then None else Some (q, rest)
    | EmptyString => Some (q, rest)
    end in
  match s with
  | String "?" rest => reject_second (ROpt r) rest
  | String "*" rest => if nullable r then None else reject_second (RStar r) rest
  | String "+" rest => if nullable r then None else reject_second (RPlus r) rest
  | String "{" _ => None
  | _ => Some (r, s)
  end.

(** Recursive descent; [g] is the number of capturing groups opened so
    far, so that groups are numbered by their opening parenthesis. *)
Fixpoint parse_alt (fuel : nat) (s : string) (g : nat) : option (regex * string * nat) :=
  match fuel with
  | O => None
  | S fuel' =>
      match parse_seq fuel' s g with
      | Some (r1, String "|" rest, g1) =>
          match parse_alt fuel' rest g1 with
          | Some (r2, rest2, g2) => Some (RAlt r1 r2, rest2, g2)
          | None => None
          end
      | other => other
      end
  end
with parse_seq (fuel : nat) (s : string) (g : nat) : option (regex * string * nat) :=
  match fuel with
  | O => None
  | S fuel' =>
      match s with
      | EmptyString | String ")" _ | String "|" _ => Some (REmpty, s, g)
      | _ =>
          match parse_atom fuel' s g with
          | Some (r, rest, g1) =>
              match parse_quant r rest with
              | Some (rq, rest1) =>
                  match parse_seq fuel' rest1 g1 with
                  | Some (REmpty, rest2, g2) => Some (rq, rest2, g2)
                  | Some (r2, rest2, g2) => Some (RSeq rq r2, rest2, g2)
                  | None => None
                  end
              | None => None
              end
          | None => None
          end
      end
  end
with parse_atom (fuel : nat) (s : string) (g : nat) : option (regex * string * nat) :=
  match fuel with
  | O => None
  | S fuel' =>
      match s with
      | EmptyString => None
      | String "(" (String "?" (String ":" rest)) =>
          match parse_alt fuel' rest g with
          | Some (r, String ")" rest', g') => Some (r, rest', g')
          | _ => None
          end
      | String "(" (String "?" _) => None
      | String "(" rest =>
          match parse_alt fuel' rest (S g) with
          | Some (r, String ")" rest', g') => Some (RGroup (S g) r, rest', g')
          | _ => None
          end
      | String "[" (String "^" rest) =>
          match parse_class fuel' rest [] with
          | Some ((_ :: _) as rs, rest') => Some (RSet true rs, rest', g)
          | _ => None
          end
      | String "[" rest =>
          match parse_class fuel' rest [] with
          | Some ((_ :: _) as rs, rest') => Some (RSet false rs, rest', g)
          | _ => None
          end
      | String "\" (String "b" rest) => Some (RWordB false, rest, g)
      | String "\" (String "B" rest) => Some (RWordB true, rest, g)
      | String "\" (String c rest) =>
          match escape_set c with
          | Some (false, [(lo, hi)]) =>
              if Ascii.eqb lo hi then Some (RChar lo, rest, g)
              else Some (RSet false [(lo, hi)], rest, g)
          | Some (neg, rs) => Some (RSet neg rs, rest, g)
          | None => None
          end
      | String "\" EmptyString => None
      | String "." rest => Some (RDot, rest, g)
      | String "^" rest => Some (RBegin, rest, g)
      | String "$" rest => Some (REnd, rest, g)
      | String c rest =>
          if is_quantifier c || Ascii.eqb c ")" then None else Some (RChar c, rest, g)
      end
  end.

Definition parse (s : string) : option regex :=
  match parse_alt (3 * String.length s + 3) s O with
  | Some (r, EmptyString, _) => Some r
  | _ => None
  end.

(** *** Matching *)

Record mstate := { pos : nat; caps : list (nat * string) }.

Definition advance (st : mstate) : mstate :=
  {| pos := S (pos st); caps := caps st |}.

Definition set_cap (n : nat) (s : string) (st : mstate) : mstate :=
  {| pos := pos st; caps := (n, s) :: caps st |}.

Fixpoint in_ranges (c : ascii) (rs : list (ascii * ascii)) : bool :=
  match rs with
  | [] => false
  | (lo, hi) :: rs' => Py.in_range (Py.code lo) (Py.code hi) c || in_ranges c rs'
  end.

Section Matcher.
(** The subject string of the match. *)
Variable subj : string.

Definition word_at (i : nat) : bool :=
  match String.get i subj with
  | Some c => Py.is_word c
  | None => false
  end.

(** There is a word boundary at [i] when exactly one of the
    characters around [i] is a word character. *)
Definition boundary (i : nat) : bool :=
  xorb (match i with O => false | S j => word_at j end) (word_at i).

Definition step_if (p : ascii -> bool) (k : mstate -> option mstate) (st : mstate)
  : option mstate :=
  match String.get (pos st) subj with
  | Some c => if p c then k (advance st) else None
  | None => None
  end.

(** Greedy repetition of [body]: one more iteration is tried first,
    and only one that consumes input is kept; [k] is what follows the
    repetition. *)
Fixpoint star (body : (mstate -> option mstate) -> mstate -> option mstate)
    (k : mstate -> option mstate) (fuel : nat) (st : mstate) {struct fuel}
  : option mstate :=
  match fuel with
  | O => k st
  | S fuel' =>
      match body (fun st' => if Nat.ltb (pos st) (pos st') then star body k fuel' st'
                             else None) st with
      | Some st' => Some st'
      | None => k st
      end
  end.

(** Continuation-passing backtracking: [k] is what remains to be
    matched; alternatives are tried left to right. *)
Fixpoint run (r : regex) (k : mstate -> option mstate) (st : mstate) {struct r}
  : option mstate :=
  match r with
  | RChar c => step_if (Ascii.eqb c) k st
  | RSet neg rs => step_if (fun c => xorb neg (in_ranges c rs)) k st
  | RDot => step_if (fun c => negb (Py.code c =? 10)) k st
  | RWordB neg => if xorb neg (boundary (pos st)) then k st else None
  | RBegin => if Nat.eqb (pos st) 0 then k st else None
  | REnd =>
      if Nat.eqb (pos st) (String.length subj)
         || (Nat.eqb (S (pos st)) (String.length subj)
             && match String.get (pos st) subj with
                | Some c => Py.code c =? 10
                | None => false
                end)
      then k st else None
  | REmpty => k st
  | RSeq r1 r2 => run r1 (run r2 k) st
  | RAlt r1 r2 =>
      match run r1 k st with
      | Some st' => Some st'
      | None => run r2 k st
      end
  | RGroup n r1 =>
      run r1 (fun st' =>
                k (set_cap n (substring (pos st) (pos st' - pos st) subj) st')) st
  | RStar r1 => star (run r1) k (String.length subj) st
  end.

Definition exec (r : regex) : option mstate :=
  run r (fun st => Some (set_cap 0 (substring 0 (pos st) subj) st))
      {| pos := 0; caps := [] |}.
End Matcher.

Fixpoint lookup (n : nat) (l : list (nat * string)) : option string :=
  match l with
  | [] => None
  | (m, s) :: l' => if Nat.eqb n m then Some s else lookup n l'
  end.

(** A compiled pattern keeps its source string, as [r.pattern] does. *)
Record compiled := { source : string; prog : regex }.

Definition compile (v : value) : option compiled :=
  match v with
  | VStr s => option_map (fun r => {| source := s; prog := r |}) (parse s)
  | VOther => None
  end.

Definition match_ (r : compiled) (s : string) : option (nat -> option string) :=
  option_map (fun st n => lookup n (caps st)) (exec s (prog r)).

End Sre.

#[export] Instance sre_engine : RegexEngine := {|
  Pattern := Sre.compiled;
  re_compile := Sre.compile;
  re_pattern := Sre.source;
  re_match := Sre.match_
|}.

(** ** The editor host

    An in-memory rendering of what the commands use of the host: a text
    buffer, the ordered selection regions, the settings store, word lookup,
    substring extraction and replacement.  Positions are character offsets
    into the buffer. *)

Record Region := { a : Z; b : Z }.

Definition region_begin (r : Region) : Z := Z.min (a r) (b r).
Definition region_end (r : Region) : Z := Z.max (a r) (b r).

(** [sel.empty()] *)
Definition region_empty (r : Region) : bool := a r =? b r.

Record View := {
  buffer : string;
  sel : list Region;
  settings : string -> option value
}.

(** [view.settings().get(name, default)] *)
Definition settings_get (v : View) (name : string) (default : value) : value :=
  match settings v name with
  | Some x => x
  | None => default
  end.

Definition clamp (v : View) (p : Z) : nat :=
  Z.to_nat (Z.max 0 (Z.min p (Z.of_nat (String.length (buffer v))))).

(** [view.substr(region)] *)
Definition view_substr (v : View) (r : Region) : string :=
  let i := clamp v (region_begin r) in
  let j := clamp v (region_end r) in
  substring i (j - i) (buffer v).

(** [view.substr(point)]: the character at [p], or a NUL character when
    [p] lies outside the buffer. *)
Definition view_char (v : View) (p : Z) : ascii :=
  if p <? 0 then zero
  else match String.get (Z.to_nat p) (buffer v) with
       | Some c => c
       | None => zero
       end.

(** Where a buffer position lands after the text between [i] and [j] has
    been replaced with [n] characters. *)
Definition shift_point (i j n p : Z) : Z :=
  if p <=? i then p
  else if j <=? p then p - (j - i) + n
  else i + n.

(** [view.replace(edit, region, text)]: the buffer is rewritten and the
    host moves every selection region along with the text. *)
Definition view_replace (v : View) (r : Region) (t : string) : View :=
  let i := clamp v (region_begin r) in
  let j := clamp v (region_end r) in
  let n := Z.of_nat (String.length t) in
  {| buffer := substring 0 i (buffer v) ++ t
               ++ substring j (String.length (buffer v) - j) (buffer v);
     sel := map (fun s => {| a := shift_point (Z.of_nat i) (Z.of_nat j) n (a s);
                             b := shift_point (Z.of_nat i) (Z.of_nat j) n (b s) |})
                (sel v);
     settings := settings v |}.

(** The host's default [word_separators]. *)
Definition word_separators : string :=
  String (ascii_of_nat 34) "./\()'-:,.;<>~!@#$%^&*|+=[]{}`~?".

Definition is_word_char (c : ascii) : bool :=
  negb (Py.is_space c || Py.char_in c word_separators || Ascii.eqb c zero).

(** Leftmost position reached from [n] while the character before the
    position satisfies [p]. *)
Fixpoint scan_left (p : ascii -> bool) (buf : string) (n : nat) : nat :=
  match n with
  | O => O
  | S n' =>
      match String.get n' buf with
      | Some c => if p c then scan_left p buf n' else n
      | None => n
      end
  end.

(** Rightmost position reached from [n] while the character at the
    position satisfies [p]. *)
Fixpoint scan_right (p : ascii -> bool) (buf : string) (fuel n : nat) : nat :=
  match fuel with
  | O => n
  | S fuel' =>
      match String.get n buf with
      | Some c => if p c then scan_right p buf fuel' (S n) else n
      | None => n
      end
  end.

Definition extend_left (p : ascii -> bool) (v : View) (x : Z) : Z :=
  if x <=? 0 then x else Z.of_nat (scan_left p (buffer v) (Z.to_nat x)).

Definition extend_right (p : ascii -> bool) (v : View) (x : Z) : Z :=
  if x <? 0 then x
  else Z.of_nat (scan_right p (buffer v) (String.length (buffer v)) (Z.to_nat x)).

(** [view.word(region)]: the region grown on both sides over the
    neighbouring word characters. *)
Definition view_word (v : View) (r : Region) : Region :=
  {| a := extend_left is_word_char v (region_begin r);
     b := extend_right is_word_char v (region_end r) |}.

(** ** Python floats: IEEE 754 binary64 *)

Module F64.

Definition prec : Z := 53.
Definition emax : Z := 1024.

Definition float := spec_float.

Definition mul : float -> float -> float := SFmul prec emax.
Definition div : float -> float -> float := SFdiv prec emax.
Definition ltb : float -> float -> bool := SFltb.

(** The float nearest to the integer [n]. *)
Definition of_Z (n : Z) : float := binary_normalize prec emax n 0 false.

Definition one : float := of_Z 1.
Definition ten : float := of_Z 10.

(** The float nearest to [d * 10 ^ e10] for a natural number [d], with
    sign [neg]: the correctly rounded conversion that [float] performs on
    a decimal literal. *)
Definition of_decimal (neg : bool) (d e10 : Z) : float :=
  match d with
  | Zpos p =>
      if 0 <=? e10 then binary_normalize prec emax (if neg then - (d * 10 ^ e10) else d * 10 ^ e10) 0 neg
      else
        let '(q, e, l) := SFdiv_core_binary prec emax d 0 (10 ^ (- e10)) 0 in
        binary_round_aux prec emax neg q e l
  | _ => S754_zero neg
  end.

(** *** [float(s)] *)

Definition to_lower (c : ascii) : ascii :=
  if Py.in_range 65 90 c then ascii_of_nat (nat_of_ascii c + 32) else c.

Fixpoint lower (s : string) : string :=
  match s with
  | EmptyString => EmptyString
  | String c s' => String (to_lower c) (lower s')
  end.

(** The longest prefix of decimal digits, and what follows it. *)
Fixpoint span_digits (s : string) : string * string :=
  match s with
  | String c s' =>
      if Py.is_digit c then let '(d, r) := span_digits s' in (String c d, r)
      else (EmptyString, s)
  | EmptyString => (EmptyString, EmptyString)
  end.

Definition digits_value (s : string) : Z :=
  match Py.parse_digits 10 s 0 with
  | Some n => n
  | None => 0
  end.

(** [float(s)]; [None] stands for the raised [ValueError].  Digit
    separators ([_]) are not part of the embedding. *)
Definition of_string (s : string) : option float :=
  let '(neg, body) := Py.split_sign (Py.strip s) in
  let l := lower body in
  if String.eqb l "inf" || String.eqb l "infinity" then Some (S754_infinity neg)
  else if String.eqb l "nan" then Some S754_nan
  else
    let '(ip, r1) := span_digits body in
    let '(fp, r2) :=
      match r1 with
      | String "." t => span_digits t
      | _ => (EmptyString, r1)
      end in
    let d := digits_value (ip ++ fp) in
    let scale := - Z.of_nat (String.length fp) in
    match ip ++ fp with
    | EmptyString => None
    | _ =>
        match r2 with
        | EmptyString => Some (of_decimal neg d scale)
        | String c t =>
            if Py.is_letter "e" c then
              let '(eneg, t') := Py.split_sign t in
              match span_digits t' with
              | (String _ _ as ed, EmptyString) =>
                  let e := digits_value ed in
                  Some (of_decimal neg d ((if eneg then - e else e) + scale))
              | _ => None
              end
            else None
        end
    end.

(** *** Ten to a whole power, correctly rounded

    For a whole-number exponent the result is the float nearest to the
    power, and [None] when that is an infinity, which is where [pow]
    reports a range error.  Exponents that are not whole numbers do not
    occur with the default pattern and are given no value. *)
Definition whole (y : float) : option Z :=
  match y with
  | S754_zero _ => Some 0
  | S754_finite s m e =>
      if 0 <=? e then Some (cond_Zopp s (Zpos m * 2 ^ e))
      else if Zpos m mod 2 ^ (- e) =? 0 then Some (cond_Zopp s (Zpos m / 2 ^ (- e)))
      else None
  | _ => None
  end.

Definition pow10 (y : float) : option float :=
  match y with
  | S754_nan => Some S754_nan
  | S754_infinity false => Some (S754_infinity false)
  | S754_infinity true => Some (S754_zero false)
  | _ =>
      match whole y with
      | Some n =>
          match of_decimal false 1 n with
          | S754_infinity _ => None
          | p => Some p
          end
      | None => None
      end
  end.

(** *** [round(x, ndigits)] for [0 <= ndigits]

    The exact value of [x] is rounded half-to-even to [ndigits] decimal
    places and the resulting decimal is converted back to a float. *)
Definition round_half_even (n d : Z) : Z :=
  let q := n / d in
  let r := n mod d in
  match 2 * r ?= d with
  | Lt => q
  | Gt => q + 1
  | Eq => if Z.even q then q else q + 1
  end.

Definition round (x : float) (ndigits : Z) : float :=
  match x with
  | S754_finite s m e =>
      let n := if 0 <=? e then Zpos m * 2 ^ e * 10 ^ ndigits
               else round_half_even (Zpos m * 10 ^ ndigits) (2 ^ (- e)) in
      of_decimal s n (- ndigits)
  | _ => x
  end.

(** *** [str(x)]

    The shortest string of decimal digits that converts back to [x],
    laid out as [repr] does. *)

(** [m * 2 ^ e ?= c * 10 ^ k] on exact values. *)
Definition cmp_scaled (m e c k : Z) : comparison :=
  (m * 2 ^ Z.max e 0 * 10 ^ Z.max (- k) 0 ?= c * 10 ^ Z.max k 0 * 2 ^ Z.max (- e) 0).

(** The least [k] with [m * 2 ^ e < 10 ^ k], searched upwards from [k]. *)
Fixpoint decpt_from (fuel : nat) (m e k : Z) : Z :=
  match fuel with
  | O => k
  | S fuel' =>
      match cmp_scaled m e 1 k with
      | Lt => k
      | _ => decpt_from fuel' m e (k + 1)
      end
  end.

Definition decpt (m e : Z) : Z :=
  let guess := (Z.log2 m + e) * 3 / 10 - 2 in
  decpt_from 8 m e guess.

(** [floor (m * 2 ^ e / 10 ^ k)] *)
Definition floor_scaled (m e k : Z) : Z :=
  (m * 2 ^ Z.max e 0 * 10 ^ Z.max (- k) 0) / (10 ^ Z.max k 0 * 2 ^ Z.max (- e) 0).

Definition same (x y : float) : bool :=
  match x, y with
  | S754_finite s1 m1 e1, S754_finite s2 m2 e2 =>
      Bool.eqb s1 s2 && Pos.eqb m1 m2 && (e1 =? e2)
  | _, _ => false
  end.

(** The decimal [c * 10 ^ k] with [n] digits that [repr] picks, if one of
    the two neighbours of [m * 2 ^ e] with [n] digits converts back to it:
    the nearer one, the even one on a tie. *)
Definition candidate (m : positive) (e k : Z) : option Z :=
  let lo := floor_scaled (Zpos m) e k in
  let hi := lo + 1 in
  let x := S754_finite false m e in
  let ok_lo := same (of_decimal false lo k) x in
  let ok_hi := same (of_decimal false hi k) x in
  (* position of the exact value against the midpoint (2 lo + 1) / 2 *)
  let side := cmp_scaled (2 * Zpos m) e (2 * lo + 1) k in
  match ok_lo, ok_hi with
  | true, true =>
      match side with
      | Lt => Some lo
      | Gt => Some hi
      | Eq => Some (if Z.even lo then lo else hi)
      end
  | true, false => Some lo
  | false, true => Some hi
  | false, false => None
  end.

Fixpoint shortest (fuel : nat) (m : positive) (e p : Z) (n : Z) : Z * Z :=
  match fuel with
  | O => (floor_scaled (Zpos m) e (p - n), p - n)
  | S fuel' =>
      match candidate m e (p - n) with
      | Some c => (c, p - n)
      | None => shortest fuel' m e p (n + 1)
      end
  end.

Fixpoint zeros (n : nat) : string :=
  match n with
  | O => EmptyString
  | S n' => String "0" (zeros n')
  end.

(** The digits and the position of the decimal point relative to them. *)
Definition digits (m : positive) (e : Z) : string * Z :=
  let '(c, k) := shortest 17 m e (decpt (Zpos m) e) 1 in
  let ds := Py.str c in
  (Py.rstrip "0" ds, Z.of_nat (String.length ds) + k).

Definition layout (ds : string) (p : Z) : string :=
  let n := Z.of_nat (String.length ds) in
  if (p <=? -4) || (16 <? p) then
    let x := p - 1 in
    let mant := match ds with
                | String d EmptyString => ds
                | String d rest => String d (String "." rest)
                | EmptyString => ds
                end in
    let xs := Py.str (Z.abs x) in
    mant ++ "e" ++ (if x <? 0 then "-" else "+")
         ++ (if Z.abs x <? 10 then "0" ++ xs else xs)
  else if p <=? 0 then "0." ++ zeros (Z.to_nat (- p)) ++ ds
  else if n <=? p then ds ++ zeros (Z.to_nat (p - n)) ++ ".0"
  else substring 0 (Z.to_nat p) ds ++ "."
       ++ substring (Z.to_nat p) (Z.to_nat (n - p)) ds.

Definition str (x : float) : string :=
  match x with
  | S754_nan => "nan"
  | S754_infinity s => if s then "-inf" else "inf"
  | S754_zero s => if s then "-0.0" else "0.0"
  | S754_finite s m e =>
      let '(ds, p) := digits m e in
      (if s then "-" else "") ++ layout ds p
  end.

End F64.

(** ** The C library

    [10 ** y] on floats is the [pow] of the C library that the
    interpreter is linked with, and [None] stands for the [OverflowError]
    raised when [pow] reports a range error.  The value of [pow] where the
    power is not a float itself differs from one library to the next in
    the last bit, so the commands take it from an interface. *)
Class Libm := {
  pow10 : F64.float -> option F64.float
}.

(** A library whose [pow] returns the float nearest to the power, for
    whole exponents.  The commands are run with it on examples; what is
    stated for every library does not depend on it. *)
#[export] Instance rounded_libm : Libm := {|
  pow10 := F64.pow10
|}.

(** ** The commands *)

(** Default binary destination format *)
Definition _CONVERT_DST_BIN_DFLT : string := "{0:b}".
(** Default hexadecimal destination format *)
Definition _CONVERT_DST_HEX_DFLT : string := "{0:#x}".
(** Default exponential destination format *)
Definition _CONVERT_DST_EXP_DFLT : string := "e".
(** Default binary search pattern *)
Definition _CONVERT_SRC_BIN_DFLT : string := "\b(?:0b)?([01]+)\b".
(** Default hexadecimal search pattern *)
Definition _CONVERT_SRC_HEX_DFLT : string := "\b(?:0x)?([0-9a-f]+)h?\b".
(** Default exponential search pattern *)
Definition _CONVERT_SRC_EXP_DFLT : string := "\b(\d+\.\d+)e([-+]?\d+)\b".

(** What one pass through the [try] block of a command's loop comes to:
    the selection is replaced, an exception is caught, or the block did
    not finish within the fuel given to its [while] loops. *)
Inductive outcome :=
| Replaced (sel : Region) (text : string)
| Raised
| OutOfFuel.

(** What a call of [run] comes to: it returns, having left the view and
    possibly a status message; an exception escapes it; or it did not
    finish within the fuel. *)
Inductive result :=
| Finished (view : View) (status : option string)
| Uncaught
| Unfinished.

Notation "'try' x <- e 'in' k" :=
  (match e with Some x => k | None => Raised end)
  (at level 10, x name, e at level 100, k at level 200).

(** [for sel in view.sel(): try: ... except: num_skip += 1].  The regions
    are read from the view one index at a time, so each iteration sees the
    regions as the host has moved them. *)
Fixpoint for_each_sel (body : View -> Region -> outcome)
    (n i : nat) (view : View) (num_skip : Z) : option (View * Z) :=
  match n with
  | O => Some (view, num_skip)
  | S n' =>
      match nth_error (sel view) i with
      | None => Some (view, num_skip)
      | Some s =>
          match body view s with
          | Replaced s' text =>
              for_each_sel body n' (S i) (view_replace view s' text) num_skip
          | Raised => for_each_sel body n' (S i) view (num_skip + 1)
          | OutOfFuel => None
          end
      end
  end.

(** ["Skipped %d invalid ... value(s)!" % num_skip] *)
Definition skipped (num_skip : Z) (what : string) : option string :=
  Some ("Skipped " ++ Py.str num_skip ++ " invalid " ++ what ++ " value(s)!").

(** The loop over all selections and the status message after it. *)
Definition convert_all (what : string) (body : View -> Region -> outcome)
    (view : View) : result :=
  match for_each_sel body (List.length (sel view)) 0 view 0 with
  | Some (view', num_skip) =>
      Finished view' (if 0 <? num_skip then skipped num_skip what else None)
  | None => Unfinished
  end.

(** [dst_format.format(n)] on the value read from the settings. *)
Definition format_value (dst_format : value) (n : Z) : option string :=
  match dst_format with
  | VStr f => Py.format f n
  | VOther => None
  end.

Definition widen (s : Region) : Region := {| a := a s - 1; b := b s + 1 |}.

Definition exp_chars : string := "0123456789.eExX-".
Definition dec_chars : string := "0123456789.".

(** The outward scan of the exponential commands over [chars]. *)
Definition expand_over (chars : string) (view : View) (s : Region) : Region :=
  {| a := extend_left (fun c => Py.char_in c chars) view (a s);
     b := extend_right (fun c => Py.char_in c chars) view (b s) |}.

(** The two [while] loops of DecToExp, each with its own fuel. *)
Fixpoint divide_down (fuel : nat) (base : F64.float) (exp : Z) : option (F64.float * Z) :=
  match fuel with
  | O => None
  | S fuel' =>
      if F64.ltb F64.ten base then divide_down fuel' (F64.div base F64.ten) (exp + 1)
      else Some (base, exp)
  end.

Fixpoint multiply_up (fuel : nat) (base : F64.float) (exp : Z) : option (F64.float * Z) :=
  match fuel with
  | O => None
  | S fuel' =>
      if F64.ltb base F64.one then multiply_up fuel' (F64.mul base F64.ten) (exp - 1)
      else Some (base, exp)
  end.

Definition normalize (fuel : nat) (base : F64.float) : option (F64.float * Z) :=
  match divide_down fuel base 0 with
  | Some (base', exp) => multiply_up fuel base' exp
  | None => None
  end.

Section Commands.
Context {E : RegexEngine} {L : Libm}.

Definition load_pattern (view : View) (name default : string) : option Pattern :=
  match re_compile (settings_get view name (VStr default)) with
  | Some r => Some r
  | None => re_compile (VStr default)
  end.

(** Expansion of an empty selection to the word around it, and by one
    more character on each side when the pattern starts with a quote. *)
Definition expand_quoted (r : Pattern) (view : View) (s : Region) : option Region :=
  if region_empty s then
    let w := view_word view s in
    match String.get 0 (re_pattern r) with
    | Some c => Some (if Ascii.eqb c "'" then widen w else w)
    | None => None
    end
  else Some s.

Definition BinToDec_convert (r : Pattern) (view : View) (s : Region) : outcome :=
  try s <- expand_quoted r view s in
  try m <- re_match r (view_substr view s) in
  try g <- m 1%nat in
  try n <- Py.int g 2 in
  Replaced s (Py.str n).

Definition BinToDecCommand_run (view : View) : result :=
  match load_pattern view "convert_src_bin" _CONVERT_SRC_BIN_DFLT with
  | Some r => convert_all "binary" (BinToDec_convert r) view
  | None => Uncaught
  end.

Definition BinToHex_convert (dst_format : value) (r : Pattern)
    (view : View) (s : Region) : outcome :=
  try s <- expand_quoted r view s in
  try m <- re_match r (view_substr view s) in
  try g <- m 1%nat in
  try n <- Py.int g 2 in
  try text <- format_value dst_format n in
  Replaced s text.

Definition BinToHexCommand_run (view : View) : result :=
  let dst_format := settings_get view "convert_dst_hex" (VStr _CONVERT_DST_HEX_DFLT) in
  match load_pattern view "convert_src_bin" _CONVERT_SRC_BIN_DFLT with
  | Some r => convert_all "binary" (BinToHex_convert dst_format r) view
  | None => Uncaught
  end.

Definition DecToBin_convert (dst_format : value) (view : View) (s : Region) : outcome :=
  let s := if region_empty s then view_word view s else s in
  let dec := Py.strip (view_substr view s) in
  try n <- Py.int dec 10 in
  try text <- format_value dst_format n in
  Replaced s text.

Definition DecToBinCommand_run (view : View) : result :=
  let dst_format := settings_get view "convert_dst_bin" (VStr _CONVERT_DST_BIN_DFLT) in
  convert_all "decimal" (DecToBin_convert dst_format) view.

Definition DecToHex_convert (dst_format : value) (view : View) (s : Region) : outcome :=
  let s := if region_empty s then view_word view s else s in
  try dec <- Py.int (Py.strip (view_substr view s)) 10 in
  try text <- format_value dst_format dec in
  Replaced s text.

Definition DecToHexCommand_run (view : View) : result :=
  let dst_format := settings_get view "convert_dst_hex" (VStr _CONVERT_DST_HEX_DFLT) in
  convert_all "decimal" (DecToHex_convert dst_format) view.

Definition HexToBin_convert (dst_format : value) (r : Pattern)
    (view : View) (s : Region) : outcome :=
  try s <- expand_quoted r view s in
  try m <- re_match r (view_substr view s) in
  try g <- m 1%nat in
  try n <- Py.int g 16 in
  try text <- format_value dst_format n in
  Replaced s text.

Definition HexToBinCommand_run (view : View) : result :=
  let dst_format := settings_get view "convert_dst_bin" (VStr _CONVERT_DST_BIN_DFLT) in
  match load_pattern view "convert_src_hex" _CONVERT_SRC_HEX_DFLT with
  | Some r => convert_all "hexadecimal" (HexToBin_convert dst_format r) view
  | None => Uncaught
  end.

Definition HexToDec_convert (r : Pattern) (view : View) (s : Region) : outcome :=
  try s <- expand_quoted r view s in
  try m <- re_match r (view_substr view s) in
  try g <- m 1%nat in
  try n <- Py.int g 16 in
  Replaced s (Py.str n).

Definition HexToDecCommand_run (view : View) : result :=
  match load_pattern view "convert_src_hex" _CONVERT_SRC_HEX_DFLT with
  | Some r => convert_all "hexadecimal" (HexToDec_convert r) view
  | None => Uncaught
  end.

(** [str(result).rstrip('0').rstrip('.')] *)
Definition strip_float (x : F64.float) : string :=
  Py.rstrip "." (Py.rstrip "0" (F64.str x)).

Definition ExpToDec_convert (r : Pattern) (view : View) (s : Region) : outcome :=
  let s := if region_empty s then expand_over exp_chars view (view_word view s) else s in
  try m <- re_match r (view_substr view s) in
  try g1 <- m 1%nat in
  try mantissa <- F64.of_string g1 in
  try g2 <- m 2%nat in
  try exponent <- F64.of_string g2 in
  try power <- pow10 exponent in
  let result := F64.round (F64.mul mantissa power) 18 in
  Replaced s (strip_float result).

Definition ExpToDecCommand_run (view : View) : result :=
  match load_pattern view "convert_src_exp" _CONVERT_SRC_EXP_DFLT with
  | Some r => convert_all "exponential" (ExpToDec_convert r) view
  | None => Uncaught
  end.

Definition DecToExp_convert (fuel : nat) (dst_pattern : value)
    (view : View) (s : Region) : outcome :=
  let s := if region_empty s then expand_over dec_chars view (view_word view s) else s in
  try base <- F64.of_string (view_substr view s) in
  match normalize fuel base with
  | None => OutOfFuel
  | Some (base, exp) =>
      match dst_pattern with
      | VStr marker => Replaced s (strip_float base ++ marker ++ Py.str exp)
      | VOther => Raised
      end
  end.

Definition DecToExpCommand_run (fuel : nat) (view : View) : result :=
  let dst_pattern := settings_get view "convert_dst_exp" (VStr _CONVERT_DST_EXP_DFLT) in
  convert_all "decimal" (DecToExp_convert fuel dst_pattern) view.

(** The eight commands the plugin exposes. *)
Inductive Command :=
| BinToDec | BinToHex | DecToBin | DecToHex
| HexToBin | HexToDec | ExpToDec | DecToExp.

Definition run (fuel : nat) (c : Command) (view : View) : result :=
  match c with
  | BinToDec => BinToDecCommand_run view
  | BinToHex => BinToHexCommand_run view
  | DecToBin => DecToBinCommand_run view
  | DecToHex => DecToHexCommand_run view
  | HexToBin => HexToBinCommand_run view
  | HexToDec => HexToDecCommand_run view
  | ExpToDec => ExpToDecCommand_run view
  | DecToExp => DecToExpCommand_run fuel view
  end.

End Commands.

(** ** Views and predicates used in the statements *)

(** A settings store with no key set: every command runs on its defaults. *)
Definition no_settings : string -> option value := fun _ => None.

(** The region that covers [t] in a buffer [pre ++ t ++ post]. *)
Definition span (pre t : string) : Region :=
  {| a := Z.of_nat (String.length pre);
     b := Z.of_nat (String.length pre + String.length t) |}.

(** A view with the single selection [t] between [pre] and [post]. *)
Definition selected (st : string -> option value) (pre t post : string) : View :=
  {| buffer := pre ++ t ++ post; sel := [span pre t]; settings := st |}.

(** A view with the two selections [t1] and [t2], in this order. *)
Definition selected2 (st : string -> option value) (pre t1 mid t2 post : string) : View :=
  {| buffer := pre ++ t1 ++ mid ++ t2 ++ post;
     sel := [span pre t1; span (pre ++ t1 ++ mid) t2];
     settings := st |}.

(** Every character of [s] satisfies [p]. *)
Fixpoint all_chars (p : ascii -> bool) (s : string) : bool :=
  match s with
  | EmptyString => true
  | String c s' => p c && all_chars p s'
  end.

Definition nonempty (s : string) : bool :=
  match s with
  | EmptyString => false
  | String _ _ => true
  end.

Definition is_bin_digit (c : ascii) : bool := Py.in_range 48 49 c.

Definition is_lower_hex_digit (c : ascii) : bool :=
  Py.is_digit c || Py.in_range 97 102 c.

(** A character that [int] neither strips nor reads as a sign or as the
    letter of a base prefix. *)
Definition plain (base : Z) (c : ascii) : bool :=
  negb (Py.is_space c || Ascii.eqb c "-" || Ascii.eqb c "+" || Py.prefix_letter base c).


(** The floats on which the second loop of DecToExp cannot make progress:
    zeros, negative numbers and negative infinity. *)
Definition below_one_forever (x : F64.float) : bool :=
  match x with
  | S754_zero _ | S754_infinity true | S754_finite true _ _ => true
  | _ => false
  end.

(** The default patterns as the embedded [re.compile] produces them. *)
Definition compiled_default (p : string) : Sre.compiled :=
  match Sre.compile (VStr p) with
  | Some r => r
  | None => {| Sre.source := p; Sre.prog := Sre.REmpty |}
  end.

Definition bin_default : @Pattern sre_engine :=
  Eval vm_compute in compiled_default _CONVERT_SRC_BIN_DFLT.
Definition hex_default : @Pattern sre_engine :=
  Eval vm_compute in compiled_default _CONVERT_SRC_HEX_DFLT.
Definition exp_default : @Pattern sre_engine :=
  Eval vm_compute in compiled_default _CONVERT_SRC_EXP_DFLT.

(** A body of the selection loop skips the selection [s] of [view]: the
    view is left as it is, the counter goes up by one and the loop carries
    on with the next selection. *)
Definition skips (body : View -> Region -> outcome) (view : View) (s : Region) : Prop :=
  forall n i num_skip,
    nth_error (sel view) i = Some s ->
    for_each_sel body (S n) i view num_skip
    = for_each_sel body n (S i) view (num_skip + 1).

(** A store whose hexadecimal source pattern is an unbalanced parenthesis. *)
Definition broken_settings : string -> option value :=
  fun name => if String.eqb name "convert_src_hex" then Some (VStr "(") else None.

(** The settings of the quoted-binary example of the source's header:
    binaries look like ['B101110']. *)
Definition quoted_settings : string -> option value :=
  fun name =>
    if String.eqb name "convert_src_bin" then Some (VStr "'B([01]+)'")
    else if String.eqb name "convert_dst_hex" then Some (VStr "'B{0:X}'")
    else None.

(** A view with a cursor [p] characters into [t]. *)
Definition cursor_in (st : string -> option value) (pre t post : string) (p : Z) : View :=
  {| buffer := pre ++ t ++ post;
     sel := [{| a := Z.of_nat (String.length pre) + p;
                b := Z.of_nat (String.length pre) + p |}];
     settings := st |}.

(** The mantissas of the floats [10.0] and [1.0]. *)
Definition m_ten : positive := 5629499534213120.

(** The first character of [s] satisfies [p]. *)
Definition starts_with (p : ascii -> bool) (s : string) : bool :=
  match s with
  | String c _ => p c
  | EmptyString => false
  end.

Definition not_word (c : ascii) : bool := negb (Py.is_word c).

(** Nothing, or text that starts with a character that is not a word
    character: what may follow a token for a word boundary to end it. *)
Definition token_ends (tail : string) : bool :=
  match tail with
  | String c _ => not_word c
  | EmptyString => true
  end.

(** [bin(n)] without its prefix: what the template [{0:b}] writes. *)
Definition bits (n : Z) : string := Py.render_int false 2 "" n.

(** The word for the source format in the status message of a command. *)
Definition source_kind (c : Command) : string :=
  match c with
  | BinToDec | BinToHex => "binary"
  | DecToBin | DecToHex | DecToExp => "decimal"
  | HexToBin | HexToDec => "hexadecimal"
  | ExpToDec => "exponential"
  end.

(** The status after a loop that skipped [num_skip] selections. *)
Definition report (num_skip : Z) (what : string) : option string :=
  if 0 <? num_skip then skipped num_skip what else None.

(** A store whose hexadecimal destination template refers to a second
    argument, which [format] is not given. *)
Definition bad_template_settings : string -> option value :=
  fun name => if String.eqb name "convert_dst_hex" then Some (VStr "{1:x}") else None.

(** What DecToExp writes for the text [t] under the default settings when
    its loops end within [fuel] iterations each. *)
Definition DecToExp_text (fuel : nat) (t : string) : option string :=
  match F64.of_string t with
  | Some x =>
      match normalize fuel x with
      | Some (base, exp) => Some (strip_float base ++ _CONVERT_DST_EXP_DFLT ++ Py.str exp)
      | None => None
      end
  | None => None
  end.

(** What ExpToDec writes for the text [t] under the default settings,
    if it does not skip it. *)
Definition ExpToDec_text (t : string) : option string :=
  match re_match exp_default t with
  | Some m =>
      match m 1%nat, m 2%nat with
      | Some g1, Some g2 =>
          match F64.of_string g1, F64.of_string g2 with
          | Some mantissa, Some exponent =>
              match F64.pow10 exponent with
              | Some power => Some (strip_float (F64.round (F64.mul mantissa power) 18))
              | None => None
              end
          | _, _ => None
          end
      | _, _ => None
      end
  | None => None
  end.

(** The signs the default exponential pattern accepts before the
    exponent: none, a minus or a plus. *)
Definition is_sign (s : string) : bool :=
  String.eqb s "" || String.eqb s "-" || String.eqb s "+".

(** A literal [ip.fp] followed by [e], a sign and the exponent digits. *)
Definition exp_literal (ip fp sign ed : string) : string :=
  ip ++ "." ++ fp ++ "e" ++ sign ++ ed.

(** The last character of [pre], if any, and the first character of
    [post], if any, fail [q]: a run of characters that satisfy [q] cannot
    reach beyond what lies between [pre] and [post]. *)
Definition bounded_by (q : ascii -> bool) (pre post : string) : bool :=
  match String.get (Nat.pred (String.length pre)) pre with
  | Some c => negb (q c)
  | None => true
  end
  && match post with
     | String c _ => negb (q c)
     | EmptyString => true
     end.

(** A word character or one of [chars]: what the expansion of the
    exponential commands runs over. *)
Definition word_or (chars : string) (c : ascii) : bool :=
  is_word_char c || Py.char_in c chars.

(** What a command takes for a token: a run of characters of the
    expansion of its cursor, between characters the expansion does not run
    over. *)
Definition is_token (c : Command) (pre t post : string) : bool :=
  match c with
  | ExpToDec =>
      all_chars (fun x => Py.char_in x exp_chars) t && bounded_by (word_or exp_chars) pre post
  | DecToExp =>
      all_chars (fun x => Py.char_in x dec_chars) t && bounded_by (word_or dec_chars) pre post
  | _ => all_chars is_word_char t && bounded_by is_word_char pre post
  end.

(** What a loop body does depends on the selected text alone: it
    replaces every selection with this text by the same new text, or skips
    every one, or runs out of fuel on every one. *)
Definition by_text (body : View -> Region -> outcome) : Prop :=
  forall t : string,
    (exists out, forall view s, region_empty s = false -> view_substr view s = t ->
                                body view s = Replaced s out)
    \/ (forall view s, region_empty s = false -> view_substr view s = t ->
                       body view s = Raised)
    \/ (forall view s, region_empty s = false -> view_substr view s = t ->
                       body view s = OutOfFuel).






(** ** Positional notation

    What a string of digits denotes, written down without reference to
    the conversions of the program: the commands are compared with it. *)

(** The position of [c] in [s], or the length of [s] when it is absent. *)
Fixpoint position (c : ascii) (s : string) : Z :=
  match s with
  | EmptyString => 0
  | String d s' => if Ascii.eqb c d then 0 else 1 + position c s'
  end.

(** The number a lowercase digit stands for; 16 for any other character. *)
Definition digit_number (c : ascii) : Z := position c "0123456789abcdef".

(** The number that [s] denotes in [base]: each digit counts for its
    number times the power of the base that its place gives. *)
Fixpoint numeral (base : Z) (s : string) : Z :=
  match s with
  | EmptyString => 0
  | String c s' => digit_number c * base ^ Z.of_nat (String.length s') + numeral base s'
  end.

Definition is_digit_of (base : Z) (c : ascii) : bool := digit_number c <? base.

(** [s] is the way [n] is written in [base]: digits of the base only,
    lowercase, denoting [n], and no leading zero unless [s] is ["0"]. *)
Definition is_numeral (base n : Z) (s : string) : bool :=
  nonempty s && all_chars (is_digit_of base) s && (numeral base s =? n)
  && (String.eqb s "0" || negb (starts_with (Ascii.eqb "0") s)).

(** ** Rounding to decimal places

    What [round(x, ndigits)] is to return, written down without reference
    to [F64.round]. *)

(** [k] is the integer nearest to [m * 2 ^ e * 10 ^ ndigits], and the even
    one when two integers are equally near. *)
Definition nearest_integer (m e ndigits k : Z) : bool :=
  let num := m * 10 ^ ndigits * 2 ^ Z.max e 0 in
  let den := 2 ^ Z.max (- e) 0 in
  let twice := 2 * Z.abs (num - k * den) in
  (twice <? den) || ((twice =? den) && Z.even k).

(** [r] is [x] rounded to [ndigits] decimal places: the float nearest to
    the decimal [k / 10 ^ ndigits] with the sign of [x], where [k] is the
    integer nearest to the magnitude of [x] times [10 ^ ndigits]; zeros,
    infinities and NaN are left as they are. *)
Definition rounds_to (x : F64.float) (ndigits : Z) (r : F64.float) : Prop :=
  match x with
  | S754_finite s m e =>
      exists k, 0 <= k /\ nearest_integer (Zpos m) e ndigits k = true
                /\ r = F64.of_decimal s k (- ndigits)
  | _ => r = x
  end.

(** Ten to a whole power from 0 to 22 is a float, and [pow] returns it:
    an error of less than one unit in the last place, which is what a C
    library keeps to, leaves no other float. *)
Definition exact_powers (L : Libm) : Prop :=
  forall n : Z, 0 <= n <= 22 -> pow10 (F64.of_Z n) = Some (F64.of_Z (10 ^ n)).

(** The characters up to 127.  The text primitives above classify these
    as Python does; what [re], [strip], [int] and [float] make of other
    characters depends on what they encode, so statements that rest on the
    class of a character are made for ASCII characters. *)
Definition is_ascii (c : ascii) : bool := Py.code c <? 128.

(** An ASCII character that is not a word character: a blank, a sign, a
    quote and the like. *)
Definition ascii_not_word (c : ascii) : bool := is_ascii c && not_word c.

(** The largest number of decimal digits that recent versions of the
    interpreter convert between [int] and [str] without raising. *)
Definition max_str_digits : Z := 4300.

Definition no_brace (c : ascii) : bool := negb (Ascii.eqb c "{" || Ascii.eqb c "}").

(** What ends the index of a replacement field: the closing brace or the
    colon before the format specification. *)
Definition ends_index (c : ascii) : bool := Ascii.eqb c "}" || Ascii.eqb c ":".

(** Destination templates that cannot be applied to the one number a
    command passes to [format]: a value that is not a string, which has no
    [format] method, and a string whose first replacement field, after text
    without braces, asks for a positional argument other than the first. *)
Inductive unusable : value -> Prop :=
| not_a_string : unusable VOther
| index_out_of_range (lit idx tail : string) :
    all_chars no_brace lit = true ->
    all_chars Py.is_digit idx = true ->
    1 <= numeral 10 idx ->
    starts_with ends_index tail = true ->
    unusable (VStr (lit ++ "{" ++ idx ++ tail)).

(** ** Configuration resolver *)

Section Resolver.
Context {E : RegexEngine}.

Lemma load_pattern_configured (view : View) (name default : string) (r : Pattern) :
  re_compile (settings_get view name (VStr default)) = Some r ->
  load_pattern view name default = Some r.
Proof.
  intros H. unfold load_pattern. now rewrite H.
Qed.

Lemma load_pattern_fallback (view : View) (name default : string) :
  re_compile (settings_get view name (VStr default)) = None ->
  load_pattern view name default = re_compile (VStr default).
Proof.
  intros H. unfold load_pattern. now rewrite H.
Qed.

Lemma load_pattern_unset (view : View) (name default : string) :
  settings view name = None ->
  load_pattern view name default = re_compile (VStr default).
Proof.
  intros H. unfold load_pattern, settings_get. rewrite H.
  now destruct (re_compile (VStr default)).
Qed.

(** C6: whenever the default pattern compiles, [load_pattern] returns a
    compiled pattern and never lets an exception out: the compiled
    configured value when that compiles, the compiled default when it
    does not. *)
Theorem load_pattern_never_raises (view : View) (name default : string) (d : Pattern) :
  re_compile (VStr default) = Some d ->
  (forall r, re_compile (settings_get view name (VStr default)) = Some r ->
             load_pattern view name default = Some r)
  /\ (re_compile (settings_get view name (VStr default)) = None ->
      load_pattern view name default = Some d)
  /\ exists r, load_pattern view name default = Some r.
Proof.
  intros Hd. split; [| split].
  - intros r Hr. now apply load_pattern_configured.
  - intros Hn. now rewrite load_pattern_fallback.
  - destruct (re_compile (settings_get view name (VStr default))) as [r |] eqn:Hc.
    + exists r. now apply load_pattern_configured.
    + exists d. now rewrite load_pattern_fallback.
Qed.

End Resolver.

Lemma load_pattern_never_raises_witness :
  re_compile (VStr _CONVERT_SRC_HEX_DFLT) = Some hex_default
  /\ re_compile (settings_get (selected broken_settings "" "ff" "") "convert_src_hex"
                              (VStr _CONVERT_SRC_HEX_DFLT)) = None
  /\ load_pattern (selected broken_settings "" "ff" "") "convert_src_hex"
                  _CONVERT_SRC_HEX_DFLT = Some hex_default.
Proof.
  split; [reflexivity | split; [reflexivity |]].
  apply (load_pattern_never_raises (selected broken_settings "" "ff" "")
           "convert_src_hex" _CONVERT_SRC_HEX_DFLT hex_default);
    reflexivity.
Defined.

(** ** Skipping *)

Section Skipping.
Context {E : RegexEngine} {L : Libm}.

Lemma skips_raised (body : View -> Region -> outcome) (view : View) (s : Region) :
  body view s = Raised -> skips body view s.
Proof.
  intros H n i k Hi. simpl. now rewrite Hi, H.
Qed.

Lemma expand_quoted_nonempty (r : Pattern) (view : View) (s : Region) :
  region_empty s = false -> expand_quoted r view s = Some s.
Proof.
  intros H. unfold expand_quoted. now rewrite H.
Qed.

(** C7: under each command that has a source pattern, a selection made
    by the user whose text the pattern does not match is skipped: the
    view stays as it is, the skip counter goes up by exactly one, and the
    loop goes on with the next selection. *)
Theorem unmatched_selection_skipped (r : Pattern) (view : View) (s : Region) :
  region_empty s = false ->
  re_match r (view_substr view s) = None ->
  skips (BinToDec_convert r) view s
  /\ (forall dst, skips (BinToHex_convert dst r) view s)
  /\ (forall dst, skips (HexToBin_convert dst r) view s)
  /\ skips (HexToDec_convert r) view s
  /\ skips (ExpToDec_convert r) view s.
Proof.
  intros Hs Hm.
  repeat split; intros; apply skips_raised;
    unfold BinToDec_convert, BinToHex_convert, HexToBin_convert,
      HexToDec_convert, ExpToDec_convert;
    rewrite ?expand_quoted_nonempty by assumption;
    rewrite ?Hs, Hm; reflexivity.
Qed.
End Skipping.

Lemma unmatched_selection_skipped_witness :
  region_empty (span "" "ZZ") = false
  /\ re_match hex_default (view_substr (selected no_settings "" "ZZ" "") (span "" "ZZ")) = None
  /\ skips (HexToDec_convert hex_default) (selected no_settings "" "ZZ" "") (span "" "ZZ").
Proof.
  split; [reflexivity | split; [reflexivity |]].
  apply (unmatched_selection_skipped hex_default (selected no_settings "" "ZZ" "")
           (span "" "ZZ")); reflexivity.
Defined.

(** ** Strings and regions *)

Lemma length_append (s t : string) :
  String.length (s ++ t) = (String.length s + String.length t)%nat.
Proof.
  induction s as [| c s IH]; simpl; [reflexivity | now rewrite IH].
Qed.

Lemma append_nil_r (s : string) : s ++ "" = s.
Proof.
  induction s as [| c s IH]; simpl; [reflexivity | now rewrite IH].
Qed.

Lemma append_assoc (s t u : string) : (s ++ t) ++ u = s ++ t ++ u.
Proof.
  induction s as [| c s IH]; simpl; [reflexivity | now rewrite IH].
Qed.

Lemma substring_all (s : string) : substring 0 (String.length s) s = s.
Proof.
  induction s as [| c s IH]; simpl; [reflexivity | now rewrite IH].
Qed.

Lemma substring_prefix (s t : string) : substring 0 (String.length s) (s ++ t) = s.
Proof.
  induction s as [| c s IH]; simpl.
  - now destruct t.
  - now rewrite IH.
Qed.

Lemma substring_skip (s t : string) (n : nat) :
  substring (String.length s) n (s ++ t) = substring 0 n t.
Proof.
  induction s as [| c s IH]; simpl; [reflexivity | exact IH].
Qed.

Lemma substring_middle (pre t post : string) :
  substring (String.length pre) (String.length t) (pre ++ t ++ post) = t.
Proof.
  rewrite substring_skip. apply substring_prefix.
Qed.

Lemma substring_suffix (s t : string) :
  substring (String.length s) (String.length t) (s ++ t) = t.
Proof.
  rewrite substring_skip. apply substring_all.
Qed.

Lemma clamp_inside (view : View) (n : nat) :
  (n <= String.length (buffer view))%nat -> clamp view (Z.of_nat n) = n.
Proof.
  intros H. unfold clamp. lia.
Qed.

Lemma span_begin (pre t : string) :
  region_begin (span pre t) = Z.of_nat (String.length pre).
Proof.
  unfold region_begin, span; simpl. lia.
Qed.

Lemma span_end (pre t : string) :
  region_end (span pre t) = Z.of_nat (String.length pre + String.length t).
Proof.
  unfold region_end, span; simpl. lia.
Qed.

Lemma span_nonempty (pre t : string) :
  nonempty t = true -> region_empty (span pre t) = false.
Proof.
  destruct t; [discriminate |]. intros _.
  unfold region_empty, span; simpl. apply Z.eqb_neq. lia.
Qed.

(** The text of a selection that covers [t]. *)
Lemma view_substr_span (view : View) (pre t post : string) :
  buffer view = pre ++ t ++ post ->
  view_substr view (span pre t) = t.
Proof.
  intros Hb. unfold view_substr. rewrite span_begin, span_end.
  rewrite !clamp_inside by (rewrite Hb, !length_append; lia).
  rewrite Hb.
  replace (String.length pre + String.length t - String.length pre)%nat
    with (String.length t) by lia.
  apply substring_middle.
Qed.

(** Replacing a selection that covers [t]. *)
Lemma view_replace_span (view : View) (pre t post new : string) :
  buffer view = pre ++ t ++ post ->
  buffer (view_replace view (span pre t) new) = pre ++ new ++ post.
Proof.
  intros Hb. unfold view_replace; simpl. rewrite span_begin, span_end.
  rewrite !clamp_inside by (rewrite Hb, !length_append; lia).
  rewrite Hb, substring_prefix. f_equal. f_equal.
  rewrite <- append_assoc, <- length_append.
  replace (String.length ((pre ++ t) ++ post) - String.length (pre ++ t))%nat
    with (String.length post) by (rewrite (length_append (pre ++ t)); lia).
  apply substring_suffix.
Qed.

Lemma shift_point_before (i j n p : Z) : p <= i -> shift_point i j n p = p.
Proof.
  intros H. unfold shift_point. destruct (Z.leb_spec p i); [reflexivity | lia].
Qed.

Lemma shift_point_after (i j n p : Z) :
  i < p -> j <= p -> shift_point i j n p = p - (j - i) + n.
Proof.
  intros H1 H2. unfold shift_point.
  destruct (Z.leb_spec p i); [lia |].
  destruct (Z.leb_spec j p); [reflexivity | lia].
Qed.

Ltac lengths :=
  simpl a; simpl b;
  repeat (progress (rewrite ?length_append; simpl String.length)).

Lemma view_eq (v w : View) :
  buffer v = buffer w -> sel v = sel w -> settings v = settings w -> v = w.
Proof.
  destruct v, w; simpl; intros; subst; reflexivity.
Qed.

Lemma sel_view_replace (view : View) (pre t post new : string) :
  buffer view = pre ++ t ++ post ->
  sel (view_replace view (span pre t) new)
  = map (fun s =>
           let i := Z.of_nat (String.length pre) in
           let j := Z.of_nat (String.length pre + String.length t) in
           let n := Z.of_nat (String.length new) in
           {| a := shift_point i j n (a s); b := shift_point i j n (b s) |})
        (sel view).
Proof.
  intros Hb. unfold view_replace; simpl. rewrite span_begin, span_end.
  rewrite !clamp_inside by (rewrite Hb, !length_append; lia).
  reflexivity.
Qed.

Lemma span_eq (pre t : string) (x y : Z) :
  x = Z.of_nat (String.length pre) ->
  y = Z.of_nat (String.length pre + String.length t) ->
  {| a := x; b := y |} = span pre t.
Proof.
  intros -> ->. reflexivity.
Qed.

(** Replacing the only selection. *)
Lemma replace_selected (st : string -> option value) (pre t post new : string) :
  nonempty t = true ->
  view_replace (selected st pre t post) (span pre t) new = selected st pre new post.
Proof.
  intros Ht. destruct t as [| c t]; [discriminate |].
  apply view_eq.
  - now apply view_replace_span.
  - rewrite (sel_view_replace _ pre (String c t) post) by reflexivity.
    simpl. f_equal. apply span_eq.
    + apply shift_point_before. lia.
    + rewrite shift_point_after; lengths; lia.
  - reflexivity.
Qed.

(** Replacing the first of two selections moves the second one along. *)
Lemma replace_first (st : string -> option value) (pre t1 mid t2 post new : string) :
  nonempty t1 = true ->
  view_replace (selected2 st pre t1 mid t2 post) (span pre t1) new
  = selected2 st pre new mid t2 post.
Proof.
  intros Ht. destruct t1 as [| c t1]; [discriminate |].
  apply view_eq.
  - now apply (view_replace_span _ pre (String c t1) (mid ++ t2 ++ post)).
  - rewrite (sel_view_replace _ pre (String c t1) (mid ++ t2 ++ post)) by reflexivity.
    simpl map. unfold selected2, sel.
    apply (f_equal2 cons); [| apply (f_equal2 cons); [| reflexivity]]; apply span_eq.
    + apply shift_point_before. lengths. lia.
    + rewrite shift_point_after; lengths; lia.
    + rewrite shift_point_after; lengths; lia.
    + rewrite shift_point_after; lengths; lia.
  - reflexivity.
Qed.

(** Replacing the second of two selections leaves the first one in place. *)
Lemma replace_second (st : string -> option value) (pre t1 mid t2 post new : string) :
  nonempty t2 = true ->
  view_replace (selected2 st pre t1 mid t2 post) (span (pre ++ t1 ++ mid) t2) new
  = selected2 st pre t1 mid new post.
Proof.
  intros Ht. destruct t2 as [| c t2]; [discriminate |].
  assert (Hb : buffer (selected2 st pre t1 mid (String c t2) post)
               = (pre ++ t1 ++ mid) ++ String c t2 ++ post)
    by (simpl; now rewrite !append_assoc).
  apply view_eq.
  - rewrite (view_replace_span _ _ _ _ new Hb). simpl. now rewrite !append_assoc.
  - rewrite (sel_view_replace _ _ _ _ new Hb).
    simpl map. unfold selected2, sel.
    apply (f_equal2 cons); [| apply (f_equal2 cons); [| reflexivity]]; apply span_eq.
    + apply shift_point_before. lengths. lia.
    + apply shift_point_before. lengths. lia.
    + apply shift_point_before. lengths. lia.
    + rewrite shift_point_after; lengths; lia.
  - reflexivity.
Qed.

Lemma view_substr_selected (st : string -> option value) (pre t post : string) :
  view_substr (selected st pre t post) (span pre t) = t.
Proof.
  now apply (view_substr_span _ pre t post).
Qed.

Lemma view_substr_first (st : string -> option value) (pre t1 mid t2 post : string) :
  view_substr (selected2 st pre t1 mid t2 post) (span pre t1) = t1.
Proof.
  now apply (view_substr_span _ pre t1 (mid ++ t2 ++ post)).
Qed.

Lemma view_substr_second (st : string -> option value) (pre t1 mid t2 post : string) :
  view_substr (selected2 st pre t1 mid t2 post) (span (pre ++ t1 ++ mid) t2) = t2.
Proof.
  apply (view_substr_span _ (pre ++ t1 ++ mid) t2 post).
  simpl. now rewrite !append_assoc.
Qed.

Lemma convert_all_replaced (what : string) (body : View -> Region -> outcome)
    (st : string -> option value) (pre t post new : string) :
  nonempty t = true ->
  body (selected st pre t post) (span pre t) = Replaced (span pre t) new ->
  convert_all what body (selected st pre t post) = Finished (selected st pre new post) None.
Proof.
  intros Ht Hb. unfold convert_all. simpl. rewrite Hb.
  now rewrite replace_selected.
Qed.

Lemma convert_all_raised (what : string) (body : View -> Region -> outcome)
    (st : string -> option value) (pre t post : string) :
  body (selected st pre t post) (span pre t) = Raised ->
  convert_all what body (selected st pre t post)
  = Finished (selected st pre t post) (skipped 1 what).
Proof.
  intros Hb. unfold convert_all. simpl. now rewrite Hb.
Qed.

Lemma for_each_replaced (body : View -> Region -> outcome) (n i : nat)
    (view : View) (k : Z) (s s' : Region) (text : string) :
  nth_error (sel view) i = Some s ->
  body view s = Replaced s' text ->
  for_each_sel body (S n) i view k
  = for_each_sel body n (S i) (view_replace view s' text) k.
Proof.
  intros Hi Hb. simpl. now rewrite Hi, Hb.
Qed.

Lemma for_each_raised (body : View -> Region -> outcome) (n i : nat)
    (view : View) (k : Z) (s : Region) :
  nth_error (sel view) i = Some s ->
  body view s = Raised ->
  for_each_sel body (S n) i view k = for_each_sel body n (S i) view (k + 1).
Proof.
  intros Hi Hb. simpl. now rewrite Hi, Hb.
Qed.

Section OnText.
Context {E : RegexEngine} {L : Libm}.

(** On a selection made by the user the commands work on its text as it
    is. *)
Lemma BinToDec_convert_text (r : Pattern) (view : View) (s : Region) (t : string) :
  region_empty s = false -> view_substr view s = t ->
  BinToDec_convert r view s
  = (try m <- re_match r t in try g <- m 1%nat in try n <- Py.int g 2 in
     Replaced s (Py.str n)).
Proof.
  intros Hs Ht. unfold BinToDec_convert.
  now rewrite expand_quoted_nonempty, Ht.
Qed.

Lemma BinToHex_convert_text (dst : value) (r : Pattern) (view : View)
    (s : Region) (t : string) :
  region_empty s = false -> view_substr view s = t ->
  BinToHex_convert dst r view s
  = (try m <- re_match r t in try g <- m 1%nat in try n <- Py.int g 2 in
     try text <- format_value dst n in Replaced s text).
Proof.
  intros Hs Ht. unfold BinToHex_convert.
  now rewrite expand_quoted_nonempty, Ht.
Qed.

Lemma HexToBin_convert_text (dst : value) (r : Pattern) (view : View)
    (s : Region) (t : string) :
  region_empty s = false -> view_substr view s = t ->
  HexToBin_convert dst r view s
  = (try m <- re_match r t in try g <- m 1%nat in try n <- Py.int g 16 in
     try text <- format_value dst n in Replaced s text).
Proof.
  intros Hs Ht. unfold HexToBin_convert.
  now rewrite expand_quoted_nonempty, Ht.
Qed.

Lemma HexToDec_convert_text (r : Pattern) (view : View) (s : Region) (t : string) :
  region_empty s = false -> view_substr view s = t ->
  HexToDec_convert r view s
  = (try m <- re_match r t in try g <- m 1%nat in try n <- Py.int g 16 in
     Replaced s (Py.str n)).
Proof.
  intros Hs Ht. unfold HexToDec_convert.
  now rewrite expand_quoted_nonempty, Ht.
Qed.

Lemma ExpToDec_convert_text (r : Pattern) (view : View) (s : Region) (t : string) :
  region_empty s = false -> view_substr view s = t ->
  ExpToDec_convert r view s
  = (try m <- re_match r t in
     try g1 <- m 1%nat in try mantissa <- F64.of_string g1 in
     try g2 <- m 2%nat in try exponent <- F64.of_string g2 in
     try power <- pow10 exponent in
     Replaced s (strip_float (F64.round (F64.mul mantissa power) 18))).
Proof.
  intros Hs Ht. unfold ExpToDec_convert. now rewrite Hs, Ht.
Qed.

Lemma DecToBin_convert_text (dst : value) (view : View) (s : Region) (t : string) :
  region_empty s = false -> view_substr view s = t ->
  DecToBin_convert dst view s
  = (try n <- Py.int (Py.strip t) 10 in try text <- format_value dst n in
     Replaced s text).
Proof.
  intros Hs Ht. unfold DecToBin_convert. now rewrite Hs, Ht.
Qed.

Lemma DecToHex_convert_text (dst : value) (view : View) (s : Region) (t : string) :
  region_empty s = false -> view_substr view s = t ->
  DecToHex_convert dst view s
  = (try n <- Py.int (Py.strip t) 10 in try text <- format_value dst n in
     Replaced s text).
Proof.
  intros Hs Ht. unfold DecToHex_convert. now rewrite Hs, Ht.
Qed.

Lemma DecToExp_convert_text (fuel : nat) (dst : value) (view : View)
    (s : Region) (t : string) :
  region_empty s = false -> view_substr view s = t ->
  DecToExp_convert fuel dst view s
  = (try base <- F64.of_string t in
     match normalize fuel base with
     | None => OutOfFuel
     | Some (base, exp) =>
         match dst with
         | VStr marker => Replaced s (strip_float base ++ marker ++ Py.str exp)
         | VOther => Raised
         end
     end).
Proof.
  intros Hs Ht. unfold DecToExp_convert. now rewrite Hs, Ht.
Qed.
End OnText.

(** ** HexToDec over two selections *)

Lemma hex_default_loaded (view : View) :
  settings view "convert_src_hex" = None ->
  load_pattern view "convert_src_hex" _CONVERT_SRC_HEX_DFLT = Some hex_default.
Proof.
  intros H. now rewrite load_pattern_unset.
Qed.

Lemma HexToDec_ff (view : View) (s : Region) :
  region_empty s = false -> view_substr view s = "ff" ->
  HexToDec_convert hex_default view s = Replaced s "255".
Proof.
  intros Hs Ht. now rewrite (HexToDec_convert_text _ _ _ "ff").
Qed.

Lemma HexToDec_ZZ (view : View) (s : Region) :
  region_empty s = false -> view_substr view s = "ZZ" ->
  HexToDec_convert hex_default view s = Raised.
Proof.
  intros Hs Ht. now rewrite (HexToDec_convert_text _ _ _ "ZZ").
Qed.

(** C1, with the valid selection in the lowercase the default pattern
    asks for: HexToDec over the two selections [ff] and [ZZ], in either
    order, replaces [ff] with [255], leaves [ZZ] as it is and reports one
    skipped value. *)
Theorem HexToDec_valid_and_invalid (pre mid post : string) :
  HexToDecCommand_run (selected2 no_settings pre "ff" mid "ZZ" post)
  = Finished (selected2 no_settings pre "255" mid "ZZ" post)
             (skipped 1 "hexadecimal")
  /\ HexToDecCommand_run (selected2 no_settings pre "ZZ" mid "ff" post)
     = Finished (selected2 no_settings pre "ZZ" mid "255" post)
                (skipped 1 "hexadecimal").
Proof.
  split; unfold HexToDecCommand_run; rewrite hex_default_loaded by reflexivity;
    unfold convert_all; simpl List.length.
  - rewrite (for_each_replaced _ _ _ _ _ (span pre "ff") (span pre "ff") "255");
      [| reflexivity | apply HexToDec_ff; [now apply span_nonempty | apply view_substr_first]].
    rewrite replace_first by reflexivity.
    rewrite (for_each_raised _ _ _ _ _ (span (pre ++ "255" ++ mid) "ZZ"));
      [| reflexivity | apply HexToDec_ZZ; [now apply span_nonempty | apply view_substr_second]].
    reflexivity.
  - rewrite (for_each_raised _ _ _ _ _ (span pre "ZZ"));
      [| reflexivity | apply HexToDec_ZZ; [now apply span_nonempty | apply view_substr_first]].
    rewrite (for_each_replaced _ _ _ _ _ (span (pre ++ "ZZ" ++ mid) "ff")
               (span (pre ++ "ZZ" ++ mid) "ff") "255");
      [| reflexivity | apply HexToDec_ff; [now apply span_nonempty | apply view_substr_second]].
    rewrite replace_second by reflexivity.
    reflexivity.
Qed.

Lemma HexToDec_uppercase_skipped :
  HexToDecCommand_run (selected2 no_settings "" "FF" " " "ZZ" "")
  = Finished (selected2 no_settings "" "FF" " " "ZZ" "") (skipped 2 "hexadecimal")
  /\ HexToDecCommand_run (selected2 no_settings "" "FF" " " "ZZ" "")
     <> Finished (selected2 no_settings "" "255" " " "ZZ" "") (skipped 1 "hexadecimal").
Proof.
  split; [vm_compute; reflexivity |].
  vm_compute. intros H. discriminate H.
Qed.

(** ** The matcher on runs of digits *)

Lemma get_none_iff (s : string) (i : nat) :
  String.get i s = None <-> (String.length s <= i)%nat.
Proof.
  revert i. induction s as [| c s IH]; intros i; simpl.
  - split; [lia | reflexivity].
  - destruct i as [| i]; [split; [discriminate | lia] |].
    rewrite IH. lia.
Qed.

Lemma get_append_right (s t : string) (i : nat) :
  String.get (String.length s + i) (s ++ t) = String.get i t.
Proof.
  induction s as [| c s IH]; simpl; [reflexivity | exact IH].
Qed.

Lemma get_all_chars (p : ascii -> bool) (s : string) (i : nat) (c : ascii) :
  all_chars p s = true -> String.get i s = Some c -> p c = true.
Proof.
  revert i. induction s as [| d s IH]; intros i Hall Hget; simpl in *.
  - discriminate.
  - apply andb_prop in Hall as [Hd Hs].
    destruct i as [| i]; [now inversion Hget; subst | eauto].
Qed.

Lemma get_last (s : string) (c : ascii) :
  exists d, String.get (String.length s) (String c s) = Some d
            /\ (d = c \/ exists i, String.get i s = Some d).
Proof.
  revert c. induction s as [| e s IH]; intros c.
  - exists c. simpl. auto.
  - destruct (IH e) as (d & Hg & Hd). exists d. split; [exact Hg |].
    right. destruct Hd as [-> | [i Hi]].
    + now exists O.
    + now exists (S i).
Qed.

Lemma star_step (body : (Sre.mstate -> option Sre.mstate) -> Sre.mstate -> option Sre.mstate)
    (k : Sre.mstate -> option Sre.mstate) (fuel : nat) (st : Sre.mstate) :
  Sre.star body k (S fuel) st
  = match body (fun st' => if Nat.ltb (Sre.pos st) (Sre.pos st')
                           then Sre.star body k fuel st' else None) st with
    | Some st' => Some st'
    | None => k st
    end.
Proof. reflexivity. Qed.

Lemma run_set (subj : string) (neg : bool) (rs : list (ascii * ascii))
    (k : Sre.mstate -> option Sre.mstate) (st : Sre.mstate) :
  Sre.run subj (Sre.RSet neg rs) k st
  = Sre.step_if subj (fun c => xorb neg (Sre.in_ranges c rs)) k st.
Proof. reflexivity. Qed.

Section StarOverSet.
Variable subj : string.
Variables (neg : bool) (rs : list (ascii * ascii)).
Variable k : Sre.mstate -> option Sre.mstate.

(** When every remaining character is in the class, the repetition
    first tries to run to the end of the subject. *)
Lemma star_set_to_end (fuel : nat) (st res : Sre.mstate) :
  (forall i c, (Sre.pos st <= i)%nat -> String.get i subj = Some c ->
               xorb neg (Sre.in_ranges c rs) = true) ->
  (Sre.pos st <= String.length subj)%nat ->
  (String.length subj - Sre.pos st <= fuel)%nat ->
  k {| Sre.pos := String.length subj; Sre.caps := Sre.caps st |} = Some res ->
  Sre.star (Sre.run subj (Sre.RSet neg rs)) k fuel st = Some res.
Proof.
  revert st. induction fuel as [| fuel IH]; intros st Hall Hle Hfuel Hk.
  - simpl. destruct st as [p cs]; simpl in *.
    replace p with (String.length subj) by lia. exact Hk.
  - rewrite star_step. rewrite run_set at 1. unfold Sre.step_if.
    destruct (String.get (Sre.pos st) subj) as [c |] eqn:Hget.
    + rewrite (Hall (Sre.pos st) c) by (auto with arith).
      assert (Hlt : (Sre.pos st < String.length subj)%nat).
      { destruct (Nat.lt_ge_cases (Sre.pos st) (String.length subj)) as [H | H];
          [exact H |].
        apply get_none_iff in H. congruence. }
      simpl Sre.pos. rewrite (proj2 (Nat.ltb_lt _ _)) by lia.
      rewrite (IH (Sre.advance st)); [reflexivity | | | |]; simpl; try lia.
      * intros i d Hi. apply Hall. lia.
      * exact Hk.
    + apply get_none_iff in Hget.
      destruct st as [p cs]; simpl in *.
      replace p with (String.length subj) by lia. exact Hk.
Qed.
End StarOverSet.

Section RunEquations.
Variable subj : string.
Implicit Types (k : Sre.mstate -> option Sre.mstate) (st : Sre.mstate).

Lemma run_seq r1 r2 k st :
  Sre.run subj (Sre.RSeq r1 r2) k st = Sre.run subj r1 (Sre.run subj r2 k) st.
Proof. reflexivity. Qed.

Lemma run_empty k st : Sre.run subj Sre.REmpty k st = k st.
Proof. reflexivity. Qed.

Lemma run_group n r k st :
  Sre.run subj (Sre.RGroup n r) k st
  = Sre.run subj r
      (fun st' => k (Sre.set_cap n (substring (Sre.pos st) (Sre.pos st' - Sre.pos st) subj) st'))
      st.
Proof. reflexivity. Qed.

Lemma run_alt_first r1 r2 k st res :
  Sre.run subj r1 k st = Some res -> Sre.run subj (Sre.RAlt r1 r2) k st = Some res.
Proof. intros H. simpl. now rewrite H. Qed.

Lemma run_alt_second r1 r2 k st :
  Sre.run subj r1 k st = None ->
  Sre.run subj (Sre.RAlt r1 r2) k st = Sre.run subj r2 k st.
Proof. intros H. simpl. now rewrite H. Qed.

Lemma run_boundary k st :
  Sre.boundary subj (Sre.pos st) = true ->
  Sre.run subj (Sre.RWordB false) k st = k st.
Proof. intros H. simpl. now rewrite H. Qed.

Lemma run_char_hit c k st :
  String.get (Sre.pos st) subj = Some c ->
  Sre.run subj (Sre.RChar c) k st = k (Sre.advance st).
Proof.
  intros H. simpl. unfold Sre.step_if. now rewrite H, Ascii.eqb_refl.
Qed.

Lemma run_char_miss c k st :
  (forall d, String.get (Sre.pos st) subj = Some d -> d <> c) ->
  Sre.run subj (Sre.RChar c) k st = None.
Proof.
  intros H. simpl. unfold Sre.step_if.
  destruct (String.get (Sre.pos st) subj) as [d |]; [| reflexivity].
  destruct (Ascii.eqb_spec c d) as [-> | _]; [| reflexivity].
  now destruct (H d eq_refl).
Qed.

(** One or more characters of a class, all the way to the end of the
    subject. *)
Lemma run_plus_to_end neg rs k st res :
  (Sre.pos st < String.length subj)%nat ->
  (forall i c, (Sre.pos st <= i)%nat -> String.get i subj = Some c ->
               xorb neg (Sre.in_ranges c rs) = true) ->
  k {| Sre.pos := String.length subj; Sre.caps := Sre.caps st |} = Some res ->
  Sre.run subj (Sre.RPlus (Sre.RSet neg rs)) k st = Some res.
Proof.
  intros Hlt Hall Hk. unfold Sre.RPlus. rewrite run_seq, run_set.
  unfold Sre.step_if.
  destruct (String.get (Sre.pos st) subj) as [c |] eqn:Hget.
  - rewrite (Hall _ c (Nat.le_refl _) Hget).
    change (Sre.run subj (Sre.RStar (Sre.RSet neg rs)) k (Sre.advance st))
      with (Sre.star (Sre.run subj (Sre.RSet neg rs)) k (String.length subj)
              (Sre.advance st)).
    apply star_set_to_end; simpl; try lia; [| exact Hk].
    intros i d Hi. apply Hall. lia.
  - apply get_none_iff in Hget. lia.
Qed.
End RunEquations.

Lemma boundary_start (c : ascii) (s : string) :
  Py.is_word c = true -> Sre.boundary (String c s) 0 = true.
Proof.
  intros H. unfold Sre.boundary, Sre.word_at. simpl. now rewrite H.
Qed.

(** At the end of a subject whose last character is a word character. *)
Lemma boundary_end (s : string) :
  (forall c, String.get (Nat.pred (String.length s)) s = Some c -> Py.is_word c = true) ->
  nonempty s = true ->
  Sre.boundary s (String.length s) = true.
Proof.
  intros Hw Hne. destruct s as [| c s]; [discriminate |].
  unfold Sre.boundary, Sre.word_at.
  cbn [String.length Nat.pred] in *.
  destruct (get_last s c) as (d & Hd & _).
  rewrite Hd, (Hw d Hd).
  now rewrite (proj2 (get_none_iff (String c s) (S (String.length s)))).
Qed.

Lemma bin_digit_cases (c : ascii) :
  is_bin_digit c = true -> c = "0"%char \/ c = "1"%char.
Proof.
  destruct c as [[] [] [] [] [] [] [] []]; vm_compute; intros H;
    try discriminate; auto.
Qed.

Lemma bin_digit_word (c : ascii) : is_bin_digit c = true -> Py.is_word c = true.
Proof.
  intros H. now destruct (bin_digit_cases c H) as [-> | ->].
Qed.

Lemma bin_digit_in_class (c : ascii) :
  is_bin_digit c = true ->
  xorb false (Sre.in_ranges c [("0", "0"); ("1", "1")]%char) = true.
Proof.
  intros H. now destruct (bin_digit_cases c H) as [-> | ->].
Qed.

(** The default binary pattern matches a string of binary digits as a
    whole and captures all of it. *)
Lemma bin_default_matches (s : string) :
  nonempty s = true -> all_chars is_bin_digit s = true ->
  exists g, re_match bin_default s = Some g /\ g 1%nat = Some s.
Proof.
  intros Hne Hall.
  set (final := {| Sre.pos := String.length s;
                   Sre.caps := [(0%nat, s); (1%nat, s)] |}).
  assert (Hexec : Sre.exec s (Sre.prog bin_default) = Some final).
  { unfold Sre.exec. cbn [Sre.prog bin_default].
    destruct s as [| c s]; [discriminate |].
    pose proof Hall as Hall'.
    simpl in Hall'. apply andb_prop in Hall' as [Hc Hs].
    rewrite run_seq, run_boundary by (apply boundary_start; now apply bin_digit_word).
    rewrite run_seq, run_alt_second, run_empty.
    - rewrite run_seq, run_group.
      apply run_plus_to_end.
      + simpl. lia.
      + intros i d _ Hd. apply bin_digit_in_class.
        now apply (get_all_chars _ _ _ _ Hall Hd).
      + rewrite run_boundary.
        * cbn [Sre.pos Sre.set_cap Sre.caps].
          rewrite Nat.sub_0_r, !substring_all. reflexivity.
        * cbn [Sre.pos Sre.set_cap]. apply boundary_end; [| reflexivity].
          intros d Hd. apply bin_digit_word.
          now apply (get_all_chars _ _ _ _ Hall Hd).
    - rewrite run_seq.
      destruct (bin_digit_cases c Hc) as [-> | ->].
      + rewrite run_char_hit by reflexivity.
        apply run_char_miss. simpl. intros d Hd ->.
        destruct s as [| e s]; [discriminate |].
        simpl in Hd, Hs. inversion Hd; subst. discriminate.
      + apply run_char_miss. simpl. intros d Hd ->. discriminate. }
  exists (fun n => Sre.lookup n (Sre.caps final)). split.
  - cbn [re_match sre_engine]. unfold Sre.match_. now rewrite Hexec.
  - reflexivity.
Qed.

(** ** Reading and writing integers *)

Lemma lstrip_plain (p : ascii -> bool) (s : string) :
  all_chars (fun c => negb (p c)) s = true -> Py.lstrip_by p s = s.
Proof.
  destruct s as [| c s]; simpl; [reflexivity |].
  intros H. apply andb_prop in H as [Hc _].
  now destruct (p c).
Qed.

Lemma rstrip_plain (p : ascii -> bool) (s : string) :
  all_chars (fun c => negb (p c)) s = true -> Py.rstrip_by p s = s.
Proof.
  induction s as [| c s IH]; simpl; [reflexivity |].
  intros H. apply andb_prop in H as [Hc Hs].
  rewrite (IH Hs). destruct s; [| reflexivity].
  now destruct (p c).
Qed.

Lemma all_chars_impl (p q : ascii -> bool) (s : string) :
  (forall c, p c = true -> q c = true) ->
  all_chars p s = true -> all_chars q s = true.
Proof.
  intros Hpq. induction s as [| c s IH]; simpl; [reflexivity |].
  intros H. apply andb_prop in H as [Hc Hs].
  now rewrite (Hpq c Hc), IH.
Qed.

Lemma plain_not_space (base : Z) (c : ascii) :
  plain base c = true -> negb (Py.is_space c) = true.
Proof.
  unfold plain. destruct (Py.is_space c); [discriminate | reflexivity].
Qed.

Lemma strip_plain (base : Z) (s : string) :
  all_chars (plain base) s = true -> Py.strip s = s.
Proof.
  intros H. unfold Py.strip.
  assert (Hs : all_chars (fun c => negb (Py.is_space c)) s = true)
    by (revert H; apply all_chars_impl, plain_not_space).
  now rewrite lstrip_plain, rstrip_plain.
Qed.

(** On a string of plain characters [int] reads the digits and nothing
    else. *)
Lemma int_plain (base : Z) (s : string) :
  nonempty s = true -> all_chars (plain base) s = true ->
  Py.int s base = Py.parse_digits base s 0.
Proof.
  intros Hne Hall. unfold Py.int. rewrite (strip_plain base s Hall).
  destruct s as [| c s]; [discriminate |].
  simpl in Hall. apply andb_prop in Hall as [Hc Hs].
  unfold plain in Hc. apply negb_true_iff in Hc.
  apply orb_false_elim in Hc as [Hc Hp]. apply orb_false_elim in Hc as [Hc Hplus].
  apply orb_false_elim in Hc as [_ Hminus].
  unfold Py.split_sign. rewrite Hminus, Hplus.
  assert (Hpre : Py.strip_base_prefix base (String c s) = String c s).
  { unfold Py.strip_base_prefix. destruct s as [| x s]; [reflexivity |].
    simpl in Hs. apply andb_prop in Hs as [Hx _].
    unfold plain in Hx. apply negb_true_iff in Hx.
    apply orb_false_elim in Hx as [_ Hx]. rewrite Hx.
    now rewrite andb_false_r. }
  rewrite Hpre.
  destruct (Py.parse_digits base (String c s) 0); reflexivity.
Qed.

Lemma digit_value_char (upper : bool) (d : Z) :
  0 <= d < 36 -> Py.digit_value (Py.digit_char upper d) = Some d.
Proof.
  intros H. rewrite <- (Z2Nat.id d) by lia.
  assert (Hk : (Z.to_nat d < 36)%nat) by lia.
  revert Hk. generalize (Z.to_nat d). intros k Hk.
  do 36 (destruct k as [| k]; [now destruct upper |]). lia.
Qed.

(** Reading back the digits written by [digits_of]. *)
Lemma parse_digits_of (upper : bool) (base : Z) (fuel : nat) :
  2 <= base <= 36 ->
  forall n acc, 0 <= n < base ^ Z.of_nat fuel ->
    Py.parse_digits base (Py.digits_of fuel upper base n acc) 0
    = Py.parse_digits base acc n.
Proof.
  intros Hb. induction fuel as [| fuel IH]; intros n acc Hn.
  - simpl in *. now replace n with 0 by lia.
  - cbn [Py.digits_of].
    assert (Hmod : 0 <= n mod base < base) by (apply Z.mod_pos_bound; lia).
    assert (Hdiv : n = base * (n / base) + n mod base) by (apply Z.div_mod; lia).
    assert (Hstep : forall a,
               Py.parse_digits base (String (Py.digit_char upper (n mod base)) acc) a
               = Py.parse_digits base acc (a * base + n mod base)).
    { intros a. cbn [Py.parse_digits].
      rewrite digit_value_char by lia.
      now rewrite (proj2 (Z.ltb_lt _ _)) by lia. }
    destruct (Z.eqb_spec (n / base) 0) as [Hz | Hz].
    + rewrite Hstep. f_equal. lia.
    + rewrite IH.
      * rewrite Hstep. f_equal. lia.
      * split; [apply Z.div_pos; lia |].
        apply Z.div_lt_upper_bound; [lia |].
        rewrite Nat2Z.inj_succ, Z.pow_succ_r in Hn by lia. lia.
Qed.

Lemma render_bound (base n : Z) :
  2 <= base -> 0 <= n -> n < base ^ Z.of_nat (S (Z.to_nat (Z.log2 n))).
Proof.
  intros Hb Hn.
  rewrite Nat2Z.inj_succ, Z2Nat.id by apply Z.log2_nonneg.
  destruct (Z.eq_dec n 0) as [-> | Hnz].
  - simpl. lia.
  - apply Z.lt_le_trans with (2 ^ Z.succ (Z.log2 n)).
    + apply Z.log2_spec. lia.
    + apply Z.pow_le_mono_l. lia.
Qed.

Lemma parse_render (upper : bool) (base n : Z) :
  2 <= base <= 36 -> 0 <= n ->
  Py.parse_digits base (Py.render upper base n) 0 = Some n.
Proof.
  intros Hb Hn. unfold Py.render.
  rewrite parse_digits_of; [reflexivity | exact Hb |].
  split; [exact Hn | apply render_bound; lia].
Qed.

Lemma digits_of_nonempty (fuel : nat) (upper : bool) (base n : Z) (acc : string) :
  nonempty acc = true -> nonempty (Py.digits_of fuel upper base n acc) = true.
Proof.
  revert n acc. induction fuel as [| fuel IH]; intros n acc H; simpl; [exact H |].
  destruct (n / base =? 0); [reflexivity | now apply IH].
Qed.

Lemma render_nonempty (upper : bool) (base n : Z) :
  nonempty (Py.render upper base n) = true.
Proof.
  unfold Py.render. cbn [Py.digits_of].
  destruct (n / base =? 0); [reflexivity | now apply digits_of_nonempty].
Qed.

Lemma digits_of_all (p : ascii -> bool) (upper : bool) (base : Z) (fuel : nat) :
  0 < base ->
  (forall d, 0 <= d < base -> p (Py.digit_char upper d) = true) ->
  forall n acc, all_chars p acc = true ->
    all_chars p (Py.digits_of fuel upper base n acc) = true.
Proof.
  intros Hb Hp. induction fuel as [| fuel IH]; intros n acc Hacc; simpl; [exact Hacc |].
  assert (Hd : all_chars p (String (Py.digit_char upper (n mod base)) acc) = true).
  { simpl. rewrite Hp by (apply Z.mod_pos_bound; lia). exact Hacc. }
  destruct (n / base =? 0); [exact Hd | now apply IH].
Qed.

Lemma hex_digit_char (d : Z) :
  0 <= d < 16 -> is_lower_hex_digit (Py.digit_char false d) = true.
Proof.
  intros H. rewrite <- (Z2Nat.id d) by lia.
  assert (Hk : (Z.to_nat d < 16)%nat) by lia.
  revert Hk. generalize (Z.to_nat d). intros k Hk.
  do 16 (destruct k as [| k]; [reflexivity |]). lia.
Qed.

Lemma render_hex_digits (n : Z) :
  all_chars is_lower_hex_digit (Py.render false 16 n) = true.
Proof.
  unfold Py.render. apply digits_of_all; [lia | apply hex_digit_char | reflexivity].
Qed.

Lemma parse_digits_total (base : Z) (p : ascii -> bool) (s : string) :
  (forall c, p c = true -> exists d, Py.digit_value c = Some d /\ d < base) ->
  all_chars p s = true ->
  forall acc, exists n, Py.parse_digits base s acc = Some n.
Proof.
  intros Hp. induction s as [| c s IH]; intros Hall acc; simpl.
  - now exists acc.
  - simpl in Hall. apply andb_prop in Hall as [Hc Hs].
    destruct (Hp c Hc) as (d & -> & Hd).
    rewrite (proj2 (Z.ltb_lt _ _) Hd). now apply IH.
Qed.

Lemma format_hex_default (n : Z) :
  format_value (VStr _CONVERT_DST_HEX_DFLT) n = Some (Py.hex n).
Proof.
  unfold format_value, Py.format, _CONVERT_DST_HEX_DFLT. simpl.
  unfold Py.hex. now rewrite append_nil_r.
Qed.

(** ** BinToHex on binary digit strings *)

Lemma bin_digit_plain (c : ascii) : is_bin_digit c = true -> plain 2 c = true.
Proof.
  intros H. now destruct (bin_digit_cases c H) as [-> | ->].
Qed.

Lemma bin_digit_value (c : ascii) :
  is_bin_digit c = true -> exists d, Py.digit_value c = Some d /\ d < 2.
Proof.
  intros H. destruct (bin_digit_cases c H) as [-> | ->];
    [exists 0 | exists 1]; now split.
Qed.

Lemma bin_default_loaded (view : View) :
  settings view "convert_src_bin" = None ->
  load_pattern view "convert_src_bin" _CONVERT_SRC_BIN_DFLT = Some bin_default.
Proof.
  intros H. now rewrite load_pattern_unset.
Qed.

(** ** Positional notation and the conversions *)

Lemma digit_number_value (c : ascii) :
  digit_number c < 16 -> Py.digit_value c = Some (digit_number c).
Proof.
  destruct c as [[] [] [] [] [] [] [] []]; vm_compute; intros H;
    try reflexivity; discriminate H.
Qed.

Lemma digit_number_nonneg (c : ascii) : 0 <= digit_number c.
Proof.
  destruct c as [[] [] [] [] [] [] [] []]; vm_compute; discriminate.
Qed.

Lemma numeral_nonneg (base : Z) (s : string) : 0 <= base -> 0 <= numeral base s.
Proof.
  intros Hb. induction s as [| c s IH]; simpl; [lia |].
  pose proof (digit_number_nonneg c).
  assert (0 <= base ^ Z.of_nat (String.length s)) by (apply Z.pow_nonneg; lia).
  nia.
Qed.

(** Reading digits from the left with an accumulator, as [int] does,
    gives the number that the digits denote. *)
Lemma parse_digits_numeral (base : Z) (s : string) :
  2 <= base <= 16 ->
  all_chars (is_digit_of base) s = true ->
  forall acc,
    Py.parse_digits base s acc
    = Some (acc * base ^ Z.of_nat (String.length s) + numeral base s).
Proof.
  intros Hb. induction s as [| c s IH]; intros Hall acc.
  - simpl. f_equal. lia.
  - cbn [all_chars] in Hall. apply andb_prop in Hall as [Hc Hs].
    unfold is_digit_of in Hc. apply Z.ltb_lt in Hc.
    cbn [Py.parse_digits numeral String.length].
    rewrite digit_number_value by lia.
    rewrite (proj2 (Z.ltb_lt _ _) Hc).
    rewrite (IH Hs). f_equal.
    rewrite Nat2Z.inj_succ, Z.pow_succ_r by lia.
    generalize (base ^ Z.of_nat (String.length s)). intros p. ring.
Qed.

Lemma bin_digit_of (c : ascii) : is_bin_digit c = true -> is_digit_of 2 c = true.
Proof.
  intros H. now destruct (bin_digit_cases c H) as [-> | ->].
Qed.

(** [int(s, 2)] on binary digits gives the number that [s] denotes. *)
Lemma int_bin_numeral (s : string) :
  nonempty s = true -> all_chars is_bin_digit s = true ->
  Py.int s 2 = Some (numeral 2 s).
Proof.
  intros Hne Hall. rewrite int_plain.
  - rewrite parse_digits_numeral; [f_equal; lia | lia |].
    revert Hall. apply all_chars_impl, bin_digit_of.
  - exact Hne.
  - revert Hall. apply all_chars_impl, bin_digit_plain.
Qed.

(** The digits that [digits_of] writes are digits of the base, and the
    first of them is not a zero. *)
Lemma digit_char_of (base d : Z) :
  base <= 16 -> 0 <= d < base -> is_digit_of base (Py.digit_char false d) = true.
Proof.
  intros Hb H. unfold is_digit_of. apply Z.ltb_lt.
  assert (Hd : digit_number (Py.digit_char false d) = d).
  { rewrite <- (Z2Nat.id d) by lia.
    assert (Hk : (Z.to_nat d < 16)%nat) by lia.
    revert Hk. generalize (Z.to_nat d). intros k Hk.
    do 16 (destruct k as [| k]; [reflexivity |]). lia. }
  lia.
Qed.

Lemma digit_char_nonzero (d : Z) :
  0 < d < 16 -> Ascii.eqb "0" (Py.digit_char false d) = false.
Proof.
  intros H. rewrite <- (Z2Nat.id d) by lia.
  assert (Hk : (0 < Z.to_nat d < 16)%nat) by lia.
  revert Hk. generalize (Z.to_nat d). intros k Hk.
  destruct k as [| k]; [lia |].
  do 15 (destruct k as [| k]; [reflexivity |]). lia.
Qed.

Lemma digits_of_head (base : Z) (fuel : nat) :
  2 <= base <= 16 ->
  forall n acc, 0 < n < base ^ Z.of_nat fuel ->
    starts_with (Ascii.eqb "0") (Py.digits_of fuel false base n acc) = false.
Proof.
  intros Hb. induction fuel as [| fuel IH]; intros n acc Hn.
  - simpl in Hn. lia.
  - cbn [Py.digits_of].
    rewrite Nat2Z.inj_succ, Z.pow_succ_r in Hn by lia.
    destruct (n / base =? 0) eqn:Hq.
    + apply Z.eqb_eq in Hq. cbn [starts_with].
      apply digit_char_nonzero.
      assert (Hsmall : n < base).
      { apply Z.div_small_iff in Hq; lia. }
      rewrite Z.mod_small by lia. lia.
    + apply Z.eqb_neq in Hq. apply IH.
      assert (0 <= n / base) by (apply Z.div_pos; lia).
      split; [lia |].
      apply Z.div_lt_upper_bound; lia.
Qed.

(** What the program writes for a natural number in base 2, 10 or 16 is
    the numeral of that number: [render] is pinned down by the
    positional notation. *)
Lemma render_is_numeral (base n : Z) :
  2 <= base <= 16 -> 0 <= n -> is_numeral base n (Py.render false base n) = true.
Proof.
  intros Hb Hn. unfold is_numeral.
  assert (Hall : all_chars (is_digit_of base) (Py.render false base n) = true).
  { unfold Py.render. apply digits_of_all; [lia | | reflexivity].
    intros d Hd. apply digit_char_of; lia. }
  rewrite render_nonempty, Hall. cbn [andb].
  assert (Hval : numeral base (Py.render false base n) = n).
  { pose proof (parse_render false base n ltac:(lia) Hn) as Hp.
    rewrite (parse_digits_numeral base _ ltac:(lia) Hall) in Hp.
    inversion Hp as [Hp']. rewrite Hp'. lia. }
  rewrite Hval, Z.eqb_refl. cbn [andb].
  destruct (Z.eq_dec n 0) as [-> | Hnz].
  - unfold Py.render. cbn [Py.digits_of Z.log2 Z.to_nat].
    rewrite Z.div_0_l by lia. reflexivity.
  - unfold Py.render. rewrite digits_of_head; [apply orb_true_r | lia |].
    split; [lia | apply render_bound; lia].
Qed.

(** ** BinToHex on binary digit strings, against the positional notation *)

(** C5: on a selection made of binary digits, BinToHex with the default
    settings writes [hex(int(s, 2))]: [int(s, 2)] is the number that [s]
    denotes in base 2, and what is written is [0x] followed by the way
    this number is written in base 16, in lowercase and without leading
    zeros. *)
Theorem BinToHex_is_hex (pre s post : string) :
  nonempty s = true ->
  all_chars is_bin_digit s = true ->
  let n := numeral 2 s in
  Py.int s 2 = Some n
  /\ BinToHexCommand_run (selected no_settings pre s post)
     = Finished (selected no_settings pre (Py.hex n) post) None
  /\ Py.hex n = "0x" ++ Py.render false 16 n
  /\ is_numeral 16 n (Py.render false 16 n) = true.
Proof.
  intros Hne Hall n.
  destruct (bin_default_matches s Hne Hall) as (g & Hg & Hg1).
  pose proof (int_bin_numeral s Hne Hall) as Hint. fold n in Hint.
  assert (Hn : 0 <= n) by (apply numeral_nonneg; lia).
  split; [exact Hint |]. split; [| split].
  - unfold BinToHexCommand_run. rewrite bin_default_loaded by reflexivity.
    apply convert_all_replaced; [exact Hne |].
    rewrite (BinToHex_convert_text _ _ _ _ s);
      [| now apply span_nonempty | apply view_substr_selected].
    rewrite Hg, Hg1, Hint.
    change (settings_get (selected no_settings pre s post) "convert_dst_hex"
              (VStr _CONVERT_DST_HEX_DFLT)) with (VStr _CONVERT_DST_HEX_DFLT).
    now rewrite format_hex_default.
  - unfold Py.hex, Py.render_int. now rewrite (proj2 (Z.ltb_ge _ _)) by lia.
  - apply render_is_numeral; lia.
Qed.

Lemma BinToHex_is_hex_witness :
  Py.int "101110" 2 = Some 46
  /\ BinToHexCommand_run (selected no_settings "x = " "101110" ";")
     = Finished (selected no_settings "x = " "0x2e" ";") None.
Proof.
  pose proof (BinToHex_is_hex "x = " "101110" ";" eq_refl eq_refl) as H.
  cbv zeta in H. destruct H as (Hint & Hrun & _).
  split; [exact Hint | exact Hrun].
Defined.

(** ** DecToHex followed by HexToDec *)

Lemma hex_digit_cases (c : ascii) :
  is_lower_hex_digit c = true ->
  Py.is_word c = true /\ plain 16 c = true
  /\ xorb false (Sre.in_ranges c [("0", "9"); ("a", "f")]%char) = true
  /\ c <> "h"%char.
Proof.
  destruct c as [[] [] [] [] [] [] [] []]; vm_compute; intros H;
    try discriminate; repeat split; discriminate.
Qed.


Lemma hex_digit_plain (c : ascii) : is_lower_hex_digit c = true -> plain 16 c = true.
Proof.
  intros H. now apply hex_digit_cases.
Qed.






(** ** Expansion of an empty selection *)

Lemma scan_left_le (p : ascii -> bool) (buf : string) (n : nat) :
  (scan_left p buf n <= n)%nat.
Proof.
  induction n as [| n IH]; simpl; [lia |].
  destruct (String.get n buf) as [c |]; [| lia].
  destruct (p c); lia.
Qed.

Lemma scan_right_ge (p : ascii -> bool) (buf : string) (fuel n : nat) :
  (n <= scan_right p buf fuel n)%nat.
Proof.
  revert n. induction fuel as [| fuel IH]; intros n; simpl; [lia |].
  destruct (String.get n buf) as [c |]; [| lia].
  destruct (p c); [| lia]. specialize (IH (S n)). lia.
Qed.

Lemma extend_left_le (p : ascii -> bool) (view : View) (x : Z) :
  extend_left p view x <= x.
Proof.
  unfold extend_left. destruct (Z.leb_spec x 0); [lia |].
  pose proof (scan_left_le p (buffer view) (Z.to_nat x)). lia.
Qed.

Lemma extend_right_ge (p : ascii -> bool) (view : View) (x : Z) :
  x <= extend_right p view x.
Proof.
  unfold extend_right. destruct (Z.ltb_spec x 0); [lia |].
  pose proof (scan_right_ge p (buffer view) (String.length (buffer view)) (Z.to_nat x)).
  lia.
Qed.

Lemma view_word_ordered (view : View) (s : Region) :
  a (view_word view s) <= b (view_word view s).
Proof.
  unfold view_word; simpl.
  pose proof (extend_left_le is_word_char view (region_begin s)).
  pose proof (extend_right_ge is_word_char view (region_end s)).
  unfold region_begin, region_end in *. lia.
Qed.

Lemma widen_nonempty (s : Region) : a s <= b s -> region_empty (widen s) = false.
Proof.
  intros H. unfold region_empty, widen; simpl. apply Z.eqb_neq. lia.
Qed.

Section Expansion.
Context {E : RegexEngine}.

Lemma expand_quoted_cursor (r : Pattern) (view : View) (s : Region) :
  region_empty s = true ->
  String.get 0 (re_pattern r) = Some "'"%char ->
  expand_quoted r view s = Some (widen (view_word view s))
  /\ expand_quoted r view (widen (view_word view s)) = Some (widen (view_word view s)).
Proof.
  intros Hs Hq. split.
  - unfold expand_quoted. now rewrite Hs, Hq.
  - apply expand_quoted_nonempty, widen_nonempty, view_word_ordered.
Qed.

(** With a pattern that starts with a quote, a cursor is converted as
    if the word around it and one more character on each side had been
    selected. *)
Lemma quoted_cursor_as_selection (r : Pattern) (view : View) (s : Region) :
  region_empty s = true ->
  String.get 0 (re_pattern r) = Some "'"%char ->
  BinToDec_convert r view s = BinToDec_convert r view (widen (view_word view s))
  /\ (forall dst, BinToHex_convert dst r view s
                  = BinToHex_convert dst r view (widen (view_word view s)))
  /\ (forall dst, HexToBin_convert dst r view s
                  = HexToBin_convert dst r view (widen (view_word view s)))
  /\ HexToDec_convert r view s = HexToDec_convert r view (widen (view_word view s)).
Proof.
  intros Hs Hq. destruct (expand_quoted_cursor r view s Hs Hq) as [H1 H2].
  unfold BinToDec_convert, BinToHex_convert, HexToBin_convert, HexToDec_convert.
  rewrite H1, H2. repeat split.
Qed.
End Expansion.

Lemma expand_quoted_plain {E : RegexEngine} (r : Pattern) (view : View) (s : Region)
    (c : ascii) :
  region_empty s = true ->
  String.get 0 (re_pattern r) = Some c ->
  c <> "'"%char ->
  expand_quoted r view s = Some (view_word view s).
Proof.
  intros Hs Hc Hq. unfold expand_quoted. rewrite Hs, Hc.
  now destruct (Ascii.eqb_spec c "'").
Qed.

Lemma quoted_scenario (p : Z) :
  1 <= p <= 8 ->
  BinToHexCommand_run (cursor_in quoted_settings "x := " "'B101110'" ";" p)
  = Finished (cursor_in quoted_settings "x := " "'B2E'" ";" 5) None.
Proof.
  intros Hp.
  assert (H : p = 1 \/ p = 2 \/ p = 3 \/ p = 4 \/ p = 5 \/ p = 6 \/ p = 7 \/ p = 8) by lia.
  repeat (destruct H as [-> | H]; [reflexivity |]).
  subst p. reflexivity.
Qed.

(** C8: a cursor is expanded to the word around it, and by one more
    character on each side when the source pattern starts with a quote, so
    that the base conversions treat it as a selection of the quoted token;
    with the source pattern ['B([01]+)'] and the destination ['B{0:X}'],
    BinToHex on a cursor anywhere inside ['B101110'] replaces the token and
    its quotes with ['B2E']. *)
Theorem cursor_expansion :
  (forall (E : RegexEngine) (r : Pattern) (view : View) (s : Region),
      region_empty s = true ->
      String.get 0 (re_pattern r) = Some "'"%char ->
      expand_quoted r view s = Some (widen (view_word view s))
      /\ BinToDec_convert r view s = BinToDec_convert r view (widen (view_word view s))
      /\ (forall dst, BinToHex_convert dst r view s
                      = BinToHex_convert dst r view (widen (view_word view s)))
      /\ (forall dst, HexToBin_convert dst r view s
                      = HexToBin_convert dst r view (widen (view_word view s)))
      /\ HexToDec_convert r view s = HexToDec_convert r view (widen (view_word view s)))
  /\ (forall (E : RegexEngine) (r : Pattern) (view : View) (s : Region) (c : ascii),
         region_empty s = true ->
         String.get 0 (re_pattern r) = Some c ->
         c <> "'"%char ->
         expand_quoted r view s = Some (view_word view s))
  /\ (forall p : Z,
         1 <= p <= 8 ->
         BinToHexCommand_run (cursor_in quoted_settings "x := " "'B101110'" ";" p)
         = Finished (cursor_in quoted_settings "x := " "'B2E'" ";" 5) None).
Proof.
  split; [| split].
  - intros E r view s Hs Hq. split.
    + now apply expand_quoted_cursor.
    + now apply quoted_cursor_as_selection.
  - intros E r view s c. apply expand_quoted_plain.
  - exact quoted_scenario.
Qed.

Lemma cursor_expansion_witness :
  1 <= 3 <= 8
  /\ BinToHexCommand_run (cursor_in quoted_settings "x := " "'B101110'" ";" 3)
     = Finished (cursor_in quoted_settings "x := " "'B2E'" ";" 5) None.
Proof.
  split; [lia |].
  apply (proj2 (proj2 cursor_expansion) 3). lia.
Defined.

(** ** A hexadecimal literal with prefix and suffix *)

(** C3, with the literal in the lowercase the default pattern asks for:
    HexToDec replaces the selection [0x1ah] with [26] and skips nothing. *)
Theorem HexToDec_lowercase_literal (pre post : string) :
  HexToDecCommand_run (selected no_settings pre "0x1ah" post)
  = Finished (selected no_settings pre "26" post) None.
Proof.
  unfold HexToDecCommand_run. rewrite hex_default_loaded by reflexivity.
  apply convert_all_replaced; [reflexivity |].
  now rewrite (HexToDec_convert_text _ _ _ "0x1ah");
    [| apply span_nonempty | apply view_substr_selected].
Qed.

Lemma HexToDec_mixed_case_skipped :
  HexToDecCommand_run (selected no_settings "" "0x1Ah" "")
  = Finished (selected no_settings "" "0x1Ah" "") (skipped 1 "hexadecimal")
  /\ HexToDecCommand_run (selected no_settings "" "0x1Ah" "")
     <> Finished (selected no_settings "" "26" "") None.
Proof.
  split; [vm_compute; reflexivity |].
  vm_compute. intros H. discriminate H.
Qed.

(** ** The text "0" *)

Lemma exp_default_loaded (view : View) :
  settings view "convert_src_exp" = None ->
  load_pattern view "convert_src_exp" _CONVERT_SRC_EXP_DFLT = Some exp_default.
Proof.
  intros H. now rewrite load_pattern_unset.
Qed.

Ltac single_selection t :=
  first [ apply convert_all_replaced; [reflexivity |]
        | apply convert_all_raised ];
  first [ rewrite (BinToDec_convert_text _ _ _ t)
        | rewrite (BinToHex_convert_text _ _ _ _ t)
        | rewrite (DecToBin_convert_text _ _ _ t)
        | rewrite (DecToHex_convert_text _ _ _ t)
        | rewrite (HexToBin_convert_text _ _ _ _ t)
        | rewrite (HexToDec_convert_text _ _ _ t)
        | rewrite (ExpToDec_convert_text _ _ _ t) ];
  [ reflexivity | now apply span_nonempty | apply view_substr_selected ].

(** C2, for the seven commands that return: on the selection [0] the six
    base conversions write zero in the destination base, and ExpToDec,
    whose default pattern the text does not match, skips it. *)
Theorem zero_converts (fuel : nat) (pre post : string) :
  run fuel BinToDec (selected no_settings pre "0" post)
  = Finished (selected no_settings pre "0" post) None
  /\ run fuel BinToHex (selected no_settings pre "0" post)
     = Finished (selected no_settings pre "0x0" post) None
  /\ run fuel DecToBin (selected no_settings pre "0" post)
     = Finished (selected no_settings pre "0" post) None
  /\ run fuel DecToHex (selected no_settings pre "0" post)
     = Finished (selected no_settings pre "0x0" post) None
  /\ run fuel HexToBin (selected no_settings pre "0" post)
     = Finished (selected no_settings pre "0" post) None
  /\ run fuel HexToDec (selected no_settings pre "0" post)
     = Finished (selected no_settings pre "0" post) None
  /\ run fuel ExpToDec (selected no_settings pre "0" post)
     = Finished (selected no_settings pre "0" post) (skipped 1 "exponential").
Proof.
  unfold run, BinToDecCommand_run, BinToHexCommand_run, DecToBinCommand_run,
    DecToHexCommand_run, HexToBinCommand_run, HexToDecCommand_run,
    ExpToDecCommand_run.
  rewrite !bin_default_loaded, !hex_default_loaded, exp_default_loaded by reflexivity.
  repeat split; single_selection "0".
Qed.

(** ** ExpToDec *)

(** ** [round] rounds *)

Lemma round_half_even_nearest (n d : Z) :
  0 <= n -> 0 < d ->
  let k := F64.round_half_even n d in
  0 <= k
  /\ (2 * Z.abs (n - k * d) < d \/ (2 * Z.abs (n - k * d) = d /\ Z.even k = true)).
Proof.
  intros Hn Hd k. subst k. unfold F64.round_half_even.
  pose proof (Z.div_mod n d ltac:(lia)) as Hdm.
  pose proof (Z.mod_pos_bound n d Hd) as Hr.
  assert (Hq : 0 <= n / d) by (apply Z.div_pos; lia).
  cbv zeta.
  revert Hdm Hr Hq. generalize (n / d) (n mod d). intros q r Hdm Hr Hq.
  destruct (Z.compare_spec (2 * r) d) as [Hc | Hc | Hc].
  - destruct (Z.even q) eqn:He.
    + split; [lia |]. right. split; [| exact He].
      replace (n - q * d) with r by (rewrite Hdm at 1; ring). clear - Hr Hc. lia.
    + split; [lia |]. right. split.
      * replace (n - (q + 1) * d) with (r - d) by (rewrite Hdm at 1; ring). clear - Hr Hc. lia.
      * rewrite Z.even_add, He. reflexivity.
  - split; [lia |]. left.
    replace (n - q * d) with r by (rewrite Hdm at 1; ring). clear - Hr Hc. lia.
  - split; [lia |]. left.
    replace (n - (q + 1) * d) with (r - d) by (rewrite Hdm at 1; ring). clear - Hr Hc. lia.
Qed.

(** [F64.round] meets the description of rounding. *)
Lemma round_rounds (x : F64.float) (ndigits : Z) :
  0 <= ndigits -> rounds_to x ndigits (F64.round x ndigits).
Proof.
  intros Hnd. destruct x as [s | s | | s m e]; cbn [rounds_to F64.round];
    try reflexivity.
  destruct (0 <=? e) eqn:He.
  - apply Z.leb_le in He.
    exists (Zpos m * 2 ^ e * 10 ^ ndigits). split; [| split; [| reflexivity]].
    + assert (0 <= 2 ^ e) by (apply Z.pow_nonneg; lia).
      assert (0 <= 10 ^ ndigits) by (apply Z.pow_nonneg; lia).
      nia.
    + unfold nearest_integer.
      rewrite (Z.max_l e 0) by lia. rewrite (Z.max_r (- e) 0) by lia.
      rewrite Z.pow_0_r.
      replace (Zpos m * 10 ^ ndigits * 2 ^ e - Zpos m * 2 ^ e * 10 ^ ndigits * 1)
        with 0 by ring.
      reflexivity.
  - apply Z.leb_gt in He.
    assert (Hd : 0 < 2 ^ (- e)) by (apply Z.pow_pos_nonneg; lia).
    assert (Hn : 0 <= Zpos m * 10 ^ ndigits).
    { assert (0 <= 10 ^ ndigits) by (apply Z.pow_nonneg; lia). nia. }
    destruct (round_half_even_nearest _ _ Hn Hd) as [Hk Hnear].
    exists (F64.round_half_even (Zpos m * 10 ^ ndigits) (2 ^ (- e))).
    split; [exact Hk | split; [| reflexivity]].
    unfold nearest_integer.
    rewrite (Z.max_r e 0) by lia. rewrite (Z.max_l (- e) 0) by lia.
    rewrite Z.pow_0_r, Z.mul_1_r.
    revert Hnear.
    generalize (F64.round_half_even (Zpos m * 10 ^ ndigits) (2 ^ (- e))).
    generalize (Zpos m * 10 ^ ndigits) (2 ^ (- e)).
    intros n d k [Hlt | [Heq Hev]].
    + apply orb_true_iff. left. now apply Z.ltb_lt.
    + apply orb_true_iff. right. rewrite Hev, andb_true_r. now apply Z.eqb_eq.
Qed.


(** ExpToDec on a selection that the default pattern matches, for any C
    library. *)
Lemma ExpToDec_run_groups {L : Libm} (pre t post : string) (g : nat -> option string)
    (g1 g2 : string) (mantissa exponent power : F64.float) :
  nonempty t = true ->
  re_match exp_default t = Some g ->
  g 1%nat = Some g1 ->
  g 2%nat = Some g2 ->
  F64.of_string g1 = Some mantissa ->
  F64.of_string g2 = Some exponent ->
  pow10 exponent = Some power ->
  ExpToDecCommand_run (selected no_settings pre t post)
  = Finished
      (selected no_settings pre
         (Py.rstrip "." (Py.rstrip "0" (F64.str (F64.round (F64.mul mantissa power) 18))))
         post)
      None.
Proof.
  intros Hne Hg H1 H2 Hm He Hp.
  unfold ExpToDecCommand_run. rewrite exp_default_loaded by reflexivity.
  apply convert_all_replaced; [exact Hne |].
  rewrite (ExpToDec_convert_text _ _ _ t);
    [| now apply span_nonempty | apply view_substr_selected].
  now rewrite Hg, H1, Hm, H2, He, Hp.
Qed.



Lemma ExpToDec_scenario (pre post : string) :
  ExpToDecCommand_run (selected no_settings pre "1.42e3" post)
  = Finished (selected no_settings pre "1420" post) None.
Proof.
  unfold ExpToDecCommand_run. rewrite exp_default_loaded by reflexivity.
  single_selection "1.42e3".
Qed.

(** ** Rounding to binary64 *)







(** *** Shifting right *)

Lemma shr_1_m (r : shr_record) : 0 <= shr_m r -> shr_m (shr_1 r) = shr_m r / 2.
Proof.
  destruct r as [m rb sb]. cbn [shr_m]. intros Hm.
  destruct m as [| p | p]; [reflexivity | | lia].
  destruct p as [p | p |]; cbn [shr_1 shr_m].
  - rewrite Pos2Z.inj_xI. apply Z.div_unique with 1; lia.
  - change (Zpos p~0) with (2 * Zpos p). apply Z.div_unique with 0; lia.
  - reflexivity.
Qed.

Lemma iter_pos_nat {A : Type} (f : A -> A) (p : positive) (x : A) :
  iter_pos f p x = Nat.iter (Pos.to_nat p) f x.
Proof.
  revert x. induction p as [p IH | p IH |]; intros x; cbn [iter_pos].
  - rewrite !IH, Pos2Nat.inj_xI. cbn [Nat.iter].
    rewrite <- Nat.iter_add, <- Nat.iter_succ_r. f_equal. lia.
  - rewrite !IH, Pos2Nat.inj_xO, <- Nat.iter_add. f_equal. lia.
  - reflexivity.
Qed.

Lemma iter_shr_1_m (n : nat) (r : shr_record) :
  0 <= shr_m r ->
  shr_m (Nat.iter n shr_1 r) = shr_m r / 2 ^ Z.of_nat n.
Proof.
  intros Hm. induction n as [| n IH].
  - simpl. now rewrite Z.div_1_r.
  - change (Nat.iter (S n) shr_1 r) with (shr_1 (Nat.iter n shr_1 r)).
    rewrite shr_1_m.
    + rewrite IH, Nat2Z.inj_succ, Z.pow_succ_r, Z.div_div by lia.
      f_equal. lia.
    + rewrite IH. apply Z.div_pos; lia.
Qed.

(** [shr] divides the mantissa by a power of two and moves the exponent
    up by as much. *)
Lemma shr_spec (r : shr_record) (e n : Z) :
  0 <= shr_m r ->
  shr_m (fst (shr r e n)) = shr_m r / 2 ^ Z.max 0 n
  /\ snd (shr r e n) = e + Z.max 0 n.
Proof.
  intros Hm. destruct n as [| p | p]; cbn [shr fst snd].
  - simpl. rewrite Z.div_1_r. lia.
  - rewrite iter_pos_nat, iter_shr_1_m, positive_nat_Z by assumption.
    replace (Z.max 0 (Zpos p)) with (Zpos p) by lia. lia.
  - replace (Z.max 0 (Zneg p)) with 0 by lia. simpl. rewrite Z.div_1_r. lia.
Qed.

Lemma shr_record_of_loc_m (m : Z) (l : location) : shr_m (shr_record_of_loc m l) = m.
Proof.
  destruct l as [| []]; reflexivity.
Qed.

Lemma round_nearest_even_bounds (m : Z) (l : location) :
  m <= round_nearest_even m l <= m + 1.
Proof.
  destruct l as [| []]; cbn [round_nearest_even]; try lia.
  destruct (Z.even m); lia.
Qed.

Local Abbreviation fexp := (SpecFloat.fexp F64.prec F64.emax).

Section Binary64.


(** The two rounding steps of [binary_round_aux] on a natural mantissa. *)
Lemma binary_round_aux_spec (s : bool) (mx ex : Z) (lx : location) :
  0 <= mx ->
  let n1 := Z.max 0 (fexp (Zdigits2 mx + ex) - ex) in
  exists m1,
    mx / 2 ^ n1 <= m1 <= mx / 2 ^ n1 + 1
    /\ let e1 := ex + n1 in
       let n2 := Z.max 0 (fexp (Zdigits2 m1 + e1) - e1) in
       binary_round_aux F64.prec F64.emax s mx ex lx
       = match m1 / 2 ^ n2 with
         | Z0 => S754_zero s
         | Zpos m => if e1 + n2 <=? 971 then S754_finite s m (e1 + n2)
                     else S754_infinity s
         | Zneg _ => S754_nan
         end.
Proof.
  intros Hmx n1. unfold binary_round_aux, shr_fexp.
  destruct (shr_spec (shr_record_of_loc mx lx) ex (fexp (Zdigits2 mx + ex) - ex))
    as [Hm1 He1]; [now rewrite shr_record_of_loc_m |].
  rewrite shr_record_of_loc_m in Hm1. fold n1 in Hm1, He1.
  destruct (shr (shr_record_of_loc mx lx) ex (fexp (Zdigits2 mx + ex) - ex))
    as [mrs1 e1]. cbn [fst snd] in Hm1, He1. subst e1.
  set (m1 := round_nearest_even (shr_m mrs1) (loc_of_shr_record mrs1)).
  exists m1. split.
  - rewrite <- Hm1. apply round_nearest_even_bounds.
  - cbv zeta.
    assert (H0 : 0 <= m1).
    { pose proof (round_nearest_even_bounds (shr_m mrs1) (loc_of_shr_record mrs1)).
      assert (0 <= shr_m mrs1) by (rewrite Hm1; apply Z.div_pos; lia).
      unfold m1. lia. }
    destruct (shr_spec (shr_record_of_loc m1 loc_Exact) (ex + n1)
                (fexp (Zdigits2 m1 + (ex + n1)) - (ex + n1))) as [Hm2 He2];
      [now rewrite shr_record_of_loc_m |].
    rewrite shr_record_of_loc_m in Hm2.
    destruct (shr (shr_record_of_loc m1 loc_Exact) (ex + n1)
                (fexp (Zdigits2 m1 + (ex + n1)) - (ex + n1))) as [mrs2 e2].
    cbn [fst snd] in Hm2, He2. subst e2. rewrite Hm2. reflexivity.
Qed.
End Binary64.


Lemma pow2_pos (n : Z) : 0 <= n -> 0 < 2 ^ n.
Proof. intros. apply Z.pow_pos_nonneg; lia. Qed.





(** ** The two loops of DecToExp *)

Lemma ten_eq : F64.ten = S754_finite false m_ten (-49).
Proof. reflexivity. Qed.



(** *** Multiplying by ten *)

Lemma mul_ten_unfold (s : bool) (m : positive) (e : Z) :
  F64.mul (S754_finite s m e) F64.ten
  = binary_round_aux F64.prec F64.emax s (Zpos m * Zpos m_ten) (e + -49) loc_Exact.
Proof.
  rewrite ten_eq. unfold F64.mul, SFmul. now rewrite xorb_false_r.
Qed.


(** *** Dividing by ten *)




(** *** Comparisons *)



(** *** Termination on positive finite numbers *)



Lemma divide_down_more_fuel (f j : nat) (x : F64.float) (exp : Z) (r : F64.float * Z) :
  divide_down f x exp = Some r -> divide_down (f + j) x exp = Some r.
Proof.
  revert x exp. induction f as [| f IH]; intros x exp; cbn [divide_down Nat.add].
  - discriminate.
  - destruct (F64.ltb F64.ten x); [apply IH | trivial].
Qed.

Lemma multiply_up_more_fuel (f j : nat) (x : F64.float) (exp : Z) (r : F64.float * Z) :
  multiply_up f x exp = Some r -> multiply_up (f + j) x exp = Some r.
Proof.
  revert x exp. induction f as [| f IH]; intros x exp; cbn [multiply_up Nat.add].
  - discriminate.
  - destruct (F64.ltb x F64.one); [apply IH | trivial].
Qed.



Lemma convert_all_unfinished (what : string) (body : View -> Region -> outcome)
    (st : string -> option value) (pre t post : string) :
  body (selected st pre t post) (span pre t) = OutOfFuel ->
  convert_all what body (selected st pre t post) = Unfinished.
Proof.
  intros Hb. unfold convert_all. simpl. now rewrite Hb.
Qed.

(** *** Inputs on which the loops never end *)

Lemma round_keeps_sign (s : bool) (mx ex : Z) (lx : location) :
  0 <= mx ->
  binary_round_aux F64.prec F64.emax s mx ex lx = S754_zero s
  \/ binary_round_aux F64.prec F64.emax s mx ex lx = S754_infinity s
  \/ exists m e, binary_round_aux F64.prec F64.emax s mx ex lx = S754_finite s m e.
Proof.
  intros Hmx.
  destruct (binary_round_aux_spec s mx ex lx Hmx) as (m1 & Hm1 & Hres).
  cbv zeta in Hres. rewrite Hres. clear Hres.
  match goal with |- context [m1 / ?d] => set (q := m1 / d) end.
  assert (Hq : 0 <= q).
  { apply Z.div_pos; [| apply pow2_pos; lia].
    assert (0 <= mx / 2 ^ Z.max 0 (SpecFloat.fexp F64.prec F64.emax (Zdigits2 mx + ex) - ex))
      by (apply Z.div_pos; [lia | apply pow2_pos; lia]).
    lia. }
  destruct q as [| p | p]; [now left | | lia].
  match goal with |- context [if ?c then _ else _] => destruct c end;
    [right; right; eexists; eexists; reflexivity | right; now left].
Qed.

Lemma below_one_forever_step (x : F64.float) :
  below_one_forever x = true ->
  F64.ltb F64.ten x = false /\ F64.ltb x F64.one = true
  /\ below_one_forever (F64.mul x F64.ten) = true.
Proof.
  destruct x as [s | [] | | [] m e]; try discriminate; intros _.
  - now destruct s.
  - repeat split.
  - split; [reflexivity |]. split; [reflexivity |].
    rewrite mul_ten_unfold.
    destruct (round_keeps_sign true (Zpos m * Zpos m_ten) (e + -49) loc_Exact)
      as [H | [H | (m' & e' & H)]]; [lia | | |]; now rewrite H.
Qed.

Lemma multiply_up_never (fuel : nat) :
  forall (x : F64.float) (exp : Z),
    below_one_forever x = true -> multiply_up fuel x exp = None.
Proof.
  induction fuel as [| fuel IH]; intros x exp Hx; cbn [multiply_up]; [reflexivity |].
  destruct (below_one_forever_step x Hx) as (_ & Hlt & Hnext).
  rewrite Hlt. now apply IH.
Qed.

Lemma divide_down_never (fuel : nat) (exp : Z) :
  divide_down fuel (S754_infinity false) exp = None.
Proof.
  revert exp. induction fuel as [| fuel IH]; intros exp; cbn [divide_down];
    [reflexivity |].
  change (F64.ltb F64.ten (S754_infinity false)) with true. cbv iota.
  change (F64.div (S754_infinity false) F64.ten) with (S754_infinity false).
  apply IH.
Qed.

Lemma normalize_never (fuel : nat) (x : F64.float) :
  below_one_forever x = true \/ x = S754_infinity false ->
  normalize fuel x = None.
Proof.
  intros [Hx | ->]; unfold normalize.
  - destruct fuel as [| fuel]; [reflexivity |]. cbn [divide_down].
    destruct (below_one_forever_step x Hx) as (Hten & _ & _). rewrite Hten.
    now apply multiply_up_never.
  - now rewrite divide_down_never.
Qed.


Lemma DecToExp_never_returns (st : string -> option value) (pre t post : string)
    (x : F64.float) (fuel : nat) :
  nonempty t = true ->
  F64.of_string t = Some x ->
  below_one_forever x = true \/ x = S754_infinity false ->
  run fuel DecToExp (selected st pre t post) = Unfinished.
Proof.
  intros Hne Ht Hx.
  unfold run, DecToExpCommand_run. apply convert_all_unfinished.
  rewrite (DecToExp_convert_text _ _ _ _ t);
    [| now apply span_nonempty | apply view_substr_selected].
  now rewrite Ht, (normalize_never fuel x Hx).
Qed.




Lemma zero_not_converted_by_exponential_commands :
  run 0 ExpToDec (selected no_settings "" "0" "")
  = Finished (selected no_settings "" "0" "") (skipped 1 "exponential")
  /\ ~ (exists fuel view status,
           run fuel DecToExp (selected no_settings "" "0" "") = Finished view status).
Proof.
  split; [reflexivity |].
  intros (fuel & view & status & H).
  rewrite (DecToExp_never_returns no_settings "" "0" "" (S754_zero false) fuel)
    in H; [discriminate H | reflexivity | reflexivity | now left].
Qed.

(** ** The matcher: failure and partial runs *)

Section MatcherFacts.
Variable subj : string.
Implicit Types (k : Sre.mstate -> option Sre.mstate) (st : Sre.mstate).

Lemma star_fails body k :
  (forall k', (forall st', k' st' = None) -> forall st, body k' st = None) ->
  (forall st, k st = None) ->
  forall fuel st, Sre.star body k fuel st = None.
Proof.
  intros Hbody Hk. induction fuel as [| fuel IH]; intros st.
  - apply Hk.
  - rewrite star_step. rewrite Hbody; [apply Hk |].
    intros st'. destruct (Nat.ltb (Sre.pos st) (Sre.pos st')); [apply IH | reflexivity].
Qed.

(** When what follows cannot match anywhere, neither can the whole. *)
Lemma run_fails r :
  forall k, (forall st, k st = None) -> forall st, Sre.run subj r k st = None.
Proof.
  induction r as [c | neg rs | | neg | | | | r1 IH1 r2 IH2 | r1 IH1 r2 IH2 | n r1 IH1 | r1 IH1];
    intros k Hk st; cbn [Sre.run].
  - unfold Sre.step_if. destruct (String.get (Sre.pos st) subj) as [d |]; [| reflexivity].
    destruct (Ascii.eqb c d); [apply Hk | reflexivity].
  - unfold Sre.step_if. destruct (String.get (Sre.pos st) subj) as [d |]; [| reflexivity].
    destruct (xorb neg (Sre.in_ranges d rs)); [apply Hk | reflexivity].
  - unfold Sre.step_if. destruct (String.get (Sre.pos st) subj) as [d |]; [| reflexivity].
    destruct (negb (Py.code d =? 10)); [apply Hk | reflexivity].
  - destruct (xorb neg (Sre.boundary subj (Sre.pos st))); [apply Hk | reflexivity].
  - destruct (Nat.eqb (Sre.pos st) 0); [apply Hk | reflexivity].
  - match goal with |- (if ?c then _ else _) = _ => destruct c end;
      [apply Hk | reflexivity].
  - apply Hk.
  - apply IH1. intros st'. now apply IH2.
  - now rewrite IH1, IH2.
  - apply IH1. intros st'. apply Hk.
  - apply star_fails; [| exact Hk]. intros k' Hk' st'. now apply IH1.
Qed.

(** A literal character that does not occur in the subject. *)
Lemma run_char_absent c k st :
  (forall i, String.get i subj <> Some c) ->
  Sre.run subj (Sre.RChar c) k st = None.
Proof.
  intros H. apply run_char_miss. intros d Hd ->. now apply (H (Sre.pos st)).
Qed.

(** The repetition of a class runs up to the first character outside
    the class, and what follows is tried there first. *)
Lemma star_set_upto neg rs k (n fuel : nat) st res :
  (forall i c, (Sre.pos st <= i < n)%nat -> String.get i subj = Some c ->
               xorb neg (Sre.in_ranges c rs) = true) ->
  (forall c, String.get n subj = Some c -> xorb neg (Sre.in_ranges c rs) = false) ->
  (Sre.pos st <= n <= String.length subj)%nat ->
  (n - Sre.pos st <= fuel)%nat ->
  k {| Sre.pos := n; Sre.caps := Sre.caps st |} = Some res ->
  Sre.star (Sre.run subj (Sre.RSet neg rs)) k fuel st = Some res.
Proof.
  revert st. induction fuel as [| fuel IH]; intros st Hin Hout Hle Hfuel Hk.
  - simpl. destruct st as [p cs]; simpl in *.
    replace p with n by lia. exact Hk.
  - rewrite star_step. rewrite run_set at 1. unfold Sre.step_if.
    destruct (Nat.eq_dec (Sre.pos st) n) as [Heq | Hne].
    + destruct st as [p cs]; simpl in *. subst p.
      destruct (String.get n subj) as [c |] eqn:Hget; [| exact Hk].
      now rewrite (Hout c eq_refl).
    + destruct (String.get (Sre.pos st) subj) as [c |] eqn:Hget.
      * rewrite (Hin (Sre.pos st) c) by (auto; lia).
        simpl Sre.pos. rewrite (proj2 (Nat.ltb_lt _ _)) by lia.
        rewrite (IH (Sre.advance st)); [reflexivity | | | | |]; simpl; try lia.
        -- intros i d Hi. apply Hin. lia.
        -- exact Hout.
        -- exact Hk.
      * apply get_none_iff in Hget. lia.
Qed.

Lemma run_plus_upto neg rs k (n : nat) st res :
  (forall i c, (Sre.pos st <= i < n)%nat -> String.get i subj = Some c ->
               xorb neg (Sre.in_ranges c rs) = true) ->
  (forall c, String.get n subj = Some c -> xorb neg (Sre.in_ranges c rs) = false) ->
  (Sre.pos st < n <= String.length subj)%nat ->
  k {| Sre.pos := n; Sre.caps := Sre.caps st |} = Some res ->
  Sre.run subj (Sre.RPlus (Sre.RSet neg rs)) k st = Some res.
Proof.
  intros Hin Hout Hle Hk. unfold Sre.RPlus. rewrite run_seq, run_set.
  unfold Sre.step_if.
  destruct (String.get (Sre.pos st) subj) as [c |] eqn:Hget.
  - rewrite (Hin (Sre.pos st) c) by (auto; lia).
    change (Sre.run subj (Sre.RStar (Sre.RSet neg rs)) k (Sre.advance st))
      with (Sre.star (Sre.run subj (Sre.RSet neg rs)) k (String.length subj)
              (Sre.advance st)).
    apply (star_set_upto neg rs k n); simpl; try lia; try assumption.
    intros i d Hi. apply Hin. lia.
  - apply get_none_iff in Hget. lia.
Qed.

Lemma run_set_hit neg rs k st c :
  String.get (Sre.pos st) subj = Some c ->
  xorb neg (Sre.in_ranges c rs) = true ->
  Sre.run subj (Sre.RSet neg rs) k st = k (Sre.advance st).
Proof.
  intros Hc Hin. rewrite run_set. unfold Sre.step_if. now rewrite Hc, Hin.
Qed.

Lemma run_set_miss neg rs k st :
  (forall c, String.get (Sre.pos st) subj = Some c ->
             xorb neg (Sre.in_ranges c rs) = false) ->
  Sre.run subj (Sre.RSet neg rs) k st = None.
Proof.
  intros H. rewrite run_set. unfold Sre.step_if.
  destruct (String.get (Sre.pos st) subj) as [c |]; [| reflexivity].
  now rewrite (H c eq_refl).
Qed.

Lemma run_not_boundary k st :
  Sre.boundary subj (Sre.pos st) = false ->
  Sre.run subj (Sre.RWordB false) k st = None.
Proof. intros H. simpl. now rewrite H. Qed.

End MatcherFacts.

(** ** Characters of a concatenation *)

Lemma get_append_left (s t : string) (i : nat) :
  (i < String.length s)%nat -> String.get i (s ++ t) = String.get i s.
Proof.
  revert i. induction s as [| c s IH]; intros i Hi; simpl in *; [lia |].
  destruct i as [| i]; [reflexivity | apply IH; lia].
Qed.

Lemma get_append_at (s t : string) (i : nat) :
  (String.length s <= i)%nat ->
  String.get i (s ++ t) = String.get (i - String.length s) t.
Proof.
  intros Hi. replace i with (String.length s + (i - String.length s))%nat at 1 by lia.
  apply get_append_right.
Qed.

Lemma get_first (s : string) :
  String.get 0 s = match s with String c _ => Some c | EmptyString => None end.
Proof. now destruct s. Qed.

Lemma get_in_range (s : string) (i : nat) :
  (i < String.length s)%nat -> exists c, String.get i s = Some c.
Proof.
  intros Hi. destruct (String.get i s) as [c |] eqn:Hg; [now exists c |].
  apply get_none_iff in Hg. lia.
Qed.

(** A word boundary separates a token that ends in a word character from
    what may follow a token. *)
Lemma boundary_after_token (s tail : string) :
  nonempty s = true ->
  (forall c, String.get (Nat.pred (String.length s)) s = Some c -> Py.is_word c = true) ->
  token_ends tail = true ->
  Sre.boundary (s ++ tail) (String.length s) = true.
Proof.
  intros Hne Hw Ht. unfold Sre.boundary, Sre.word_at.
  destruct s as [| c s]; [discriminate |].
  cbn [String.length Nat.pred] in *.
  rewrite get_append_left by (simpl; lia).
  destruct (get_in_range (String c s) (String.length s)) as [d Hd]; [simpl; lia |].
  rewrite Hd, (Hw d Hd).
  change (S (String.length s)) with (String.length (String c s)).
  rewrite get_append_at by lia. rewrite Nat.sub_diag, get_first.
  destruct tail as [| e tail]; [reflexivity |].
  simpl in Ht. unfold not_word in Ht. apply negb_true_iff in Ht. now rewrite Ht.
Qed.

(** ** Tokens under the default patterns *)

(** A captured run of characters of a class that starts at [i] and stops
    at [n]. *)
Lemma run_group_upto (subj : string) (g : nat) (rs : list (ascii * ascii))
    (k : Sre.mstate -> option Sre.mstate) (i n : nat) (cs : list (nat * string))
    (res : Sre.mstate) :
  (forall j c, (i <= j < n)%nat -> String.get j subj = Some c ->
               xorb false (Sre.in_ranges c rs) = true) ->
  (forall c, String.get n subj = Some c -> xorb false (Sre.in_ranges c rs) = false) ->
  (i < n <= String.length subj)%nat ->
  k {| Sre.pos := n; Sre.caps := (g, substring i (n - i) subj) :: cs |} = Some res ->
  Sre.run subj (Sre.RGroup g (Sre.RPlus (Sre.RSet false rs))) k
    {| Sre.pos := i; Sre.caps := cs |} = Some res.
Proof.
  intros Hin Hout Hle Hk. rewrite run_group.
  apply (run_plus_upto subj false rs _ n); cbn [Sre.pos Sre.caps]; try assumption.
Qed.

(** The optional two-character prefix is passed over when the second
    character of the subject is not its letter. *)
Lemma run_no_prefix (subj : string) (x : ascii) (k : Sre.mstate -> option Sre.mstate)
    (cs : list (nat * string)) :
  (forall d, String.get 1 subj = Some d -> d <> x) ->
  Sre.run subj (Sre.RAlt (Sre.RSeq (Sre.RChar "0") (Sre.RChar x)) Sre.REmpty) k
    {| Sre.pos := 0; Sre.caps := cs |}
  = k {| Sre.pos := 0; Sre.caps := cs |}.
Proof.
  intros H. rewrite run_alt_second, run_empty; [reflexivity |].
  rewrite run_seq. cbn [Sre.run]. unfold Sre.step_if at 1. cbn [Sre.pos].
  destruct (String.get 0 subj) as [c |]; [| reflexivity].
  destruct (Ascii.eqb "0" c); [| reflexivity].
  apply run_char_miss. exact H.
Qed.

Lemma not_word_neq (c d : ascii) : not_word c = true -> Py.is_word d = true -> c <> d.
Proof.
  unfold not_word. intros Hc Hd ->. rewrite Hd in Hc. discriminate.
Qed.

(** The character that follows a token [s] in [s ++ tail]. *)
Lemma get_after (s tail : string) (c : ascii) :
  String.get (String.length s) (s ++ tail) = Some c ->
  token_ends tail = true -> not_word c = true.
Proof.
  rewrite get_append_at, Nat.sub_diag, get_first by lia.
  destruct tail as [| d tail]; [discriminate |].
  intros H Ht. inversion H; subst. exact Ht.
Qed.

Lemma get_inside (p : ascii -> bool) (s tail : string) (j : nat) (c : ascii) :
  all_chars p s = true -> (j < String.length s)%nat ->
  String.get j (s ++ tail) = Some c -> p c = true.
Proof.
  intros Hall Hj Hc. rewrite get_append_left in Hc by exact Hj.
  now apply (get_all_chars p s j c).
Qed.

Lemma bin_digit_out (c : ascii) :
  not_word c = true -> xorb false (Sre.in_ranges c [("0", "0"); ("1", "1")]%char) = false.
Proof.
  destruct c as [[] [] [] [] [] [] [] []]; vm_compute; intros H;
    try discriminate; reflexivity.
Qed.

Lemma last_of_all (p : ascii -> bool) (s : string) (c : ascii) :
  all_chars p s = true ->
  String.get (Nat.pred (String.length s)) s = Some c -> p c = true.
Proof.
  intros Hall Hc. exact (get_all_chars p s _ c Hall Hc).
Qed.

(** The default binary pattern matches a run of binary digits, with or
    without the prefix [0b], at the start of a subject in which the run is
    followed by nothing or by a character that is not a word character, and
    captures the run. *)
Lemma bin_default_matches_token (prefixed : bool) (s tail : string) :
  nonempty s = true -> all_chars is_bin_digit s = true -> token_ends tail = true ->
  exists g, re_match bin_default ((if prefixed then "0b" else "") ++ s ++ tail) = Some g
            /\ g 1%nat = Some s.
Proof.
  intros Hne Hall Ht.
  assert (Hlen : (0 < String.length s)%nat) by (destruct s; [discriminate | simpl; lia]).
  assert (Hexec : exists st,
             Sre.exec ((if prefixed then "0b" else "") ++ s ++ tail) (Sre.prog bin_default)
             = Some st /\ Sre.lookup 1 (Sre.caps st) = Some s).
  { unfold Sre.exec. cbn [Sre.prog bin_default].
    destruct prefixed.
    - eexists. split.
      + rewrite run_seq, run_boundary by reflexivity.
        rewrite run_seq. apply run_alt_first.
        rewrite run_seq, run_char_hit by reflexivity.
        rewrite run_char_hit by reflexivity.
        rewrite run_seq. cbn [Sre.advance Sre.pos Sre.caps].
        apply (run_group_upto _ 1 _ _ 2 (2 + String.length s)).
        * intros j c Hj Hc. destruct j as [| [| j]]; try lia.
          cbn in Hc. apply bin_digit_in_class.
          apply (get_inside is_bin_digit s tail j c Hall); [lia | exact Hc].
        * intros c Hc. cbn in Hc. apply bin_digit_out.
          now apply (get_after s tail c).
        * cbn. rewrite length_append. lia.
        * rewrite run_boundary; [reflexivity |].
          cbn [Sre.pos].
          change ("0b" ++ s ++ tail) with (("0b" ++ s) ++ tail).
          change (2 + String.length s)%nat with (String.length ("0b" ++ s)).
          apply boundary_after_token; [reflexivity | | exact Ht].
          intros c Hc. cbn in Hc.
          destruct s as [| e s]; [discriminate |].
          apply bin_digit_word.
          apply (get_all_chars is_bin_digit (String e s) (String.length s) c Hall).
          cbn. cbn in Hc. exact Hc.
      + cbn. f_equal.
        replace (String.length s - 0)%nat with (String.length s) by lia.
        apply substring_prefix.
    - eexists. split.
      + cbn [append].
        rewrite run_seq, run_boundary.
        2:{ destruct s as [| c s]; [discriminate |]. cbn [append].
            apply boundary_start, bin_digit_word.
            cbn in Hall. now apply andb_prop in Hall as [Hc _]. }
        rewrite run_seq, run_no_prefix.
        2:{ intros d Hd.
            destruct (Nat.lt_ge_cases 1 (String.length s)) as [H1 | H1].
            - apply not_eq_sym, not_eq_sym.
              assert (Hb : is_bin_digit d = true)
                by (apply (get_inside is_bin_digit s tail 1 d Hall H1 Hd)).
              destruct (bin_digit_cases d Hb) as [-> | ->]; discriminate.
            - assert (Hl : String.length s = 1%nat) by lia.
              rewrite <- Hl in Hd.
              apply (not_word_neq d "b"); [| reflexivity].
              now apply (get_after s tail d). }
        rewrite run_seq.
        apply (run_group_upto _ 1 _ _ 0 (String.length s)).
        * intros j c Hj Hc. apply bin_digit_in_class.
          apply (get_inside is_bin_digit s tail j c Hall); [lia | exact Hc].
        * intros c Hc. apply bin_digit_out. now apply (get_after s tail c).
        * rewrite length_append. lia.
        * rewrite run_boundary; [reflexivity |].
          cbn [Sre.pos]. apply boundary_after_token; [exact Hne | | exact Ht].
          intros c Hc. apply bin_digit_word. now apply (last_of_all is_bin_digit s c).
      + cbn. f_equal. rewrite Nat.sub_0_r. apply substring_prefix. }
  destruct Hexec as (st & Hst & Hcap).
  exists (fun n => Sre.lookup n (Sre.caps st)). split.
  - cbn [re_match sre_engine]. unfold Sre.match_. now rewrite Hst.
  - exact Hcap.
Qed.

(** A captured run [s] of characters of a class between [pfx] and [rest]. *)
Lemma run_token_group (pfx s rest : string) (p : ascii -> bool) (g : nat)
    (rs : list (ascii * ascii)) (k : Sre.mstate -> option Sre.mstate)
    (cs : list (nat * string)) (res : Sre.mstate) :
  nonempty s = true -> all_chars p s = true ->
  (forall c, p c = true -> xorb false (Sre.in_ranges c rs) = true) ->
  (forall c, String.get 0 rest = Some c -> xorb false (Sre.in_ranges c rs) = false) ->
  k {| Sre.pos := String.length pfx + String.length s; Sre.caps := (g, s) :: cs |} = Some res ->
  Sre.run (pfx ++ s ++ rest) (Sre.RGroup g (Sre.RPlus (Sre.RSet false rs))) k
    {| Sre.pos := String.length pfx; Sre.caps := cs |} = Some res.
Proof.
  intros Hne Hall Hin Hout Hk.
  assert (Hlen : (0 < String.length s)%nat) by (destruct s; [discriminate | simpl; lia]).
  apply (run_group_upto _ g rs k _ (String.length pfx + String.length s)).
  - intros j c Hj Hc. apply Hin.
    rewrite get_append_at in Hc by lia.
    apply (get_inside p s rest (j - String.length pfx) c Hall); [lia | exact Hc].
  - intros c Hc. apply Hout.
    rewrite get_append_at in Hc by lia.
    replace (String.length pfx + String.length s - String.length pfx)%nat
      with (String.length s) in Hc by lia.
    rewrite get_append_at, Nat.sub_diag in Hc by lia. exact Hc.
  - rewrite !length_append. lia.
  - replace (String.length pfx + String.length s - String.length pfx)%nat
      with (String.length s) by lia.
    now rewrite substring_middle.
Qed.

Lemma hex_digit_out (c : ascii) :
  not_word c = true \/ c = "h"%char ->
  xorb false (Sre.in_ranges c [("0", "9"); ("a", "f")]%char) = false.
Proof.
  intros [H | ->]; [| reflexivity]. revert H.
  destruct c as [[] [] [] [] [] [] [] []]; vm_compute; intros H;
    try discriminate; reflexivity.
Qed.

Lemma hex_digit_word (c : ascii) : is_lower_hex_digit c = true -> Py.is_word c = true.
Proof. intros H. now apply hex_digit_cases. Qed.

Lemma hex_digit_in_class (c : ascii) :
  is_lower_hex_digit c = true ->
  xorb false (Sre.in_ranges c [("0", "9"); ("a", "f")]%char) = true.
Proof. intros H. now apply hex_digit_cases. Qed.

Lemma hex_digit_not_x (c : ascii) : is_lower_hex_digit c = true -> c <> "x"%char.
Proof. intros H ->. discriminate H. Qed.

Lemma last_append (s t : string) :
  nonempty t = true ->
  String.get (Nat.pred (String.length (s ++ t))) (s ++ t)
  = String.get (Nat.pred (String.length t)) t.
Proof.
  intros Ht. destruct t as [| c t]; [discriminate |].
  rewrite length_append. cbn [String.length].
  replace (Nat.pred (String.length s + S (String.length t)))
    with (String.length s + String.length t)%nat by lia.
  rewrite get_append_right. reflexivity.
Qed.

(** The default hexadecimal pattern matches a run of lowercase
    hexadecimal digits, with or without the prefix [0x] and with or without
    the suffix [h], at the start of a subject in which the token is followed
    by nothing or by a character that is not a word character, and captures
    the run. *)
Lemma hex_default_matches_token (prefixed suffixed : bool) (s tail : string) :
  nonempty s = true -> all_chars is_lower_hex_digit s = true -> token_ends tail = true ->
  exists g,
    re_match hex_default
      ((if prefixed then "0x" else "") ++ s ++ (if suffixed then "h" else "") ++ tail)
    = Some g
    /\ g 1%nat = Some s.
Proof.
  intros Hne Hall Ht.
  set (pfx := if prefixed then "0x" else "").
  set (sfx := if suffixed then "h" else "").
  set (subj := pfx ++ s ++ sfx ++ tail).
  assert (Hlen : (0 < String.length s)%nat) by (destruct s; [discriminate | simpl; lia]).
  assert (Hlast : forall c, String.get (Nat.pred (String.length s)) s = Some c ->
                            Py.is_word c = true).
  { intros c Hc. apply hex_digit_word. now apply (last_of_all is_lower_hex_digit s c). }
  (* what follows the digits: the optional suffix and the closing boundary *)
  assert (Hrest : forall cs,
             exists st,
               Sre.run subj (Sre.RSeq (Sre.RAlt (Sre.RChar "h") Sre.REmpty) (Sre.RWordB false))
                 (fun st => Some (Sre.set_cap 0 (substring 0 (Sre.pos st) subj) st))
                 {| Sre.pos := String.length pfx + String.length s; Sre.caps := cs |}
               = Some st
               /\ Sre.caps st = (0%nat, substring 0 (Sre.pos st) subj) :: cs).
  { intros cs. rewrite run_seq.
    assert (Hat : String.get (String.length pfx + String.length s) subj
                  = String.get 0 (sfx ++ tail)).
    { unfold subj. rewrite get_append_at by lia.
      replace (String.length pfx + String.length s - String.length pfx)%nat
        with (String.length s) by lia.
      now rewrite get_append_at, Nat.sub_diag by lia. }
    destruct suffixed.
    - eexists. split.
      + apply run_alt_first. rewrite run_char_hit by (cbn [Sre.pos]; now rewrite Hat).
        rewrite run_boundary; [reflexivity |].
        cbn [Sre.pos Sre.advance].
        unfold subj. rewrite <- (append_assoc s sfx tail), <- (append_assoc pfx (s ++ sfx) tail).
        replace (S (String.length pfx + String.length s))
          with (String.length (pfx ++ s ++ sfx))
          by (rewrite !length_append; unfold sfx; simpl; lia).
        apply boundary_after_token; [| | exact Ht].
        * destruct pfx; [| reflexivity]. now destruct s.
        * intros c. rewrite <- append_assoc, last_append by reflexivity.
          cbn. intros Hc. now inversion Hc.
      + reflexivity.
    - eexists. split.
      + rewrite run_alt_second, run_empty.
        * rewrite run_boundary; [reflexivity |].
          cbn [Sre.pos]. unfold subj, sfx. cbn [append].
          rewrite <- (append_assoc pfx s tail), <- length_append.
          apply boundary_after_token; [| | exact Ht].
          -- destruct pfx; [| reflexivity]. exact Hne.
          -- intros c. rewrite last_append by exact Hne. apply Hlast.
        * apply run_char_miss. cbn [Sre.pos]. rewrite Hat. unfold sfx. cbn [append].
          rewrite get_first. intros d Hd.
          destruct tail as [| e tail]; [discriminate |].
          inversion Hd; subst. now apply (not_word_neq d "h").
      + reflexivity. }
  assert (Hgroup : forall cs,
             exists st,
               Sre.run subj
                 (Sre.RSeq
                    (Sre.RGroup 1 (Sre.RPlus (Sre.RSet false [("0", "9"); ("a", "f")]%char)))
                    (Sre.RSeq (Sre.RAlt (Sre.RChar "h") Sre.REmpty) (Sre.RWordB false)))
                 (fun st => Some (Sre.set_cap 0 (substring 0 (Sre.pos st) subj) st))
                 {| Sre.pos := String.length pfx; Sre.caps := cs |}
               = Some st
               /\ Sre.lookup 1 (Sre.caps st) = Some s).
  { intros cs. destruct (Hrest ((1%nat, s) :: cs)) as (st & Hst & Hcaps).
    exists st. split.
    - rewrite run_seq.
      apply (run_token_group pfx s (sfx ++ tail) is_lower_hex_digit); try assumption.
      + apply hex_digit_in_class.
      + intros c Hc. apply hex_digit_out. unfold sfx in Hc.
        destruct suffixed; cbn in Hc.
        * right. now inversion Hc.
        * left. rewrite get_first in Hc. destruct tail as [| e tail]; [discriminate |].
          inversion Hc; subst. exact Ht.
    - rewrite Hcaps. reflexivity. }
  assert (Hexec : exists st,
             Sre.exec subj (Sre.prog hex_default) = Some st
             /\ Sre.lookup 1 (Sre.caps st) = Some s).
  { unfold Sre.exec. cbn [Sre.prog hex_default].
    destruct (Hgroup []) as (st & Hst & Hcap). exists st. split; [| exact Hcap].
    rewrite run_seq, run_boundary.
    2:{ cbn [Sre.pos]. unfold subj, pfx. destruct prefixed; [reflexivity |].
        destruct s as [| c s]; [discriminate |]. cbn [append].
        apply boundary_start, hex_digit_word.
        cbn in Hall. now apply andb_prop in Hall as [Hc _]. }
    rewrite run_seq.
    unfold pfx in Hst. destruct prefixed.
    - apply run_alt_first.
      rewrite run_seq, run_char_hit by reflexivity.
      rewrite run_char_hit by reflexivity.
      exact Hst.
    - rewrite run_no_prefix; [exact Hst |].
      intros d Hd. unfold subj, pfx in Hd. cbn [append] in Hd.
      destruct (Nat.lt_ge_cases 1 (String.length s)) as [H1 | H1].
      + apply hex_digit_not_x.
        apply (get_inside is_lower_hex_digit s (sfx ++ tail) 1 d Hall H1 Hd).
      + assert (Hl : String.length s = 1%nat) by lia.
        rewrite <- Hl, get_append_at, Nat.sub_diag in Hd by lia.
        unfold sfx in Hd. destruct suffixed; cbn in Hd.
        * inversion Hd. discriminate.
        * rewrite get_first in Hd. destruct tail as [| e tail]; [discriminate |].
          inversion Hd; subst. now apply (not_word_neq d "x"). }
  destruct Hexec as (st & Hst & Hcap).
  exists (fun n => Sre.lookup n (Sre.caps st)). split.
  - cbn [re_match sre_engine]. unfold Sre.match_. fold pfx sfx subj. now rewrite Hst.
  - exact Hcap.
Qed.

(** ** The base conversions on a single selection *)

Lemma format_bin_default (n : Z) :
  format_value (VStr _CONVERT_DST_BIN_DFLT) n = Some (bits n).
Proof.
  unfold format_value, Py.format, _CONVERT_DST_BIN_DFLT. simpl.
  unfold bits. now rewrite append_nil_r.
Qed.

Lemma BinToDec_run_match (pre t post s : string) (g : nat -> option string) (n : Z) :
  nonempty t = true ->
  re_match bin_default t = Some g -> g 1%nat = Some s -> Py.int s 2 = Some n ->
  BinToDecCommand_run (selected no_settings pre t post)
  = Finished (selected no_settings pre (Py.str n) post) None.
Proof.
  intros Hne Hg Hs Hn. unfold BinToDecCommand_run.
  rewrite bin_default_loaded by reflexivity.
  apply convert_all_replaced; [exact Hne |].
  rewrite (BinToDec_convert_text _ _ _ t);
    [| now apply span_nonempty | apply view_substr_selected].
  now rewrite Hg, Hs, Hn.
Qed.

Lemma BinToHex_run_match (pre t post s : string) (g : nat -> option string) (n : Z) :
  nonempty t = true ->
  re_match bin_default t = Some g -> g 1%nat = Some s -> Py.int s 2 = Some n ->
  BinToHexCommand_run (selected no_settings pre t post)
  = Finished (selected no_settings pre (Py.hex n) post) None.
Proof.
  intros Hne Hg Hs Hn. unfold BinToHexCommand_run.
  rewrite bin_default_loaded by reflexivity.
  apply convert_all_replaced; [exact Hne |].
  rewrite (BinToHex_convert_text _ _ _ _ t);
    [| now apply span_nonempty | apply view_substr_selected].
  rewrite Hg, Hs, Hn.
  change (settings_get (selected no_settings pre t post) "convert_dst_hex"
            (VStr _CONVERT_DST_HEX_DFLT)) with (VStr _CONVERT_DST_HEX_DFLT).
  now rewrite format_hex_default.
Qed.

Lemma HexToDec_run_match (pre t post s : string) (g : nat -> option string) (n : Z) :
  nonempty t = true ->
  re_match hex_default t = Some g -> g 1%nat = Some s -> Py.int s 16 = Some n ->
  HexToDecCommand_run (selected no_settings pre t post)
  = Finished (selected no_settings pre (Py.str n) post) None.
Proof.
  intros Hne Hg Hs Hn. unfold HexToDecCommand_run.
  rewrite hex_default_loaded by reflexivity.
  apply convert_all_replaced; [exact Hne |].
  rewrite (HexToDec_convert_text _ _ _ t);
    [| now apply span_nonempty | apply view_substr_selected].
  now rewrite Hg, Hs, Hn.
Qed.

Lemma HexToBin_run_match (pre t post s : string) (g : nat -> option string) (n : Z) :
  nonempty t = true ->
  re_match hex_default t = Some g -> g 1%nat = Some s -> Py.int s 16 = Some n ->
  HexToBinCommand_run (selected no_settings pre t post)
  = Finished (selected no_settings pre (bits n) post) None.
Proof.
  intros Hne Hg Hs Hn. unfold HexToBinCommand_run.
  rewrite hex_default_loaded by reflexivity.
  apply convert_all_replaced; [exact Hne |].
  rewrite (HexToBin_convert_text _ _ _ _ t);
    [| now apply span_nonempty | apply view_substr_selected].
  rewrite Hg, Hs, Hn.
  change (settings_get (selected no_settings pre t post) "convert_dst_bin"
            (VStr _CONVERT_DST_BIN_DFLT)) with (VStr _CONVERT_DST_BIN_DFLT).
  now rewrite format_bin_default.
Qed.

Lemma DecToBin_run_int (pre d post : string) (n : Z) :
  nonempty d = true -> Py.int (Py.strip d) 10 = Some n ->
  DecToBinCommand_run (selected no_settings pre d post)
  = Finished (selected no_settings pre (bits n) post) None.
Proof.
  intros Hne Hn. unfold DecToBinCommand_run.
  apply convert_all_replaced; [exact Hne |].
  rewrite (DecToBin_convert_text _ _ _ d);
    [| now apply span_nonempty | apply view_substr_selected].
  rewrite Hn.
  change (settings_get (selected no_settings pre d post) "convert_dst_bin"
            (VStr _CONVERT_DST_BIN_DFLT)) with (VStr _CONVERT_DST_BIN_DFLT).
  now rewrite format_bin_default.
Qed.

Lemma DecToHex_run_int (pre d post : string) (n : Z) :
  nonempty d = true -> Py.int (Py.strip d) 10 = Some n ->
  DecToHexCommand_run (selected no_settings pre d post)
  = Finished (selected no_settings pre (Py.hex n) post) None.
Proof.
  intros Hne Hn. unfold DecToHexCommand_run.
  apply convert_all_replaced; [exact Hne |].
  rewrite (DecToHex_convert_text _ _ _ d);
    [| now apply span_nonempty | apply view_substr_selected].
  rewrite Hn.
  change (settings_get (selected no_settings pre d post) "convert_dst_hex"
            (VStr _CONVERT_DST_HEX_DFLT)) with (VStr _CONVERT_DST_HEX_DFLT).
  now rewrite format_hex_default.
Qed.

(** ** Values of digit strings *)

Lemma digit_value_nonneg (c : ascii) (d : Z) : Py.digit_value c = Some d -> 0 <= d.
Proof.
  unfold Py.digit_value.
  destruct (Py.is_digit c) eqn:H1.
  - unfold Py.is_digit, Py.in_range in H1.
    apply andb_prop in H1 as [H1 _]. apply Z.leb_le in H1. intros H. inversion H. lia.
  - destruct (Py.in_range 97 122 c) eqn:H2.
    + unfold Py.in_range in H2.
      apply andb_prop in H2 as [H2 _]. apply Z.leb_le in H2. intros H. inversion H. lia.
    + destruct (Py.in_range 65 90 c) eqn:H3; [| discriminate].
      unfold Py.in_range in H3.
      apply andb_prop in H3 as [H3 _]. apply Z.leb_le in H3. intros H. inversion H. lia.
Qed.

Lemma parse_digits_nonneg (base : Z) (s : string) :
  0 <= base -> forall acc n, 0 <= acc -> Py.parse_digits base s acc = Some n -> 0 <= n.
Proof.
  intros Hb. induction s as [| c s IH]; intros acc n Hacc; simpl.
  - intros H. inversion H. lia.
  - destruct (Py.digit_value c) as [d |] eqn:Hd; [| discriminate].
    destruct (d <? base); [| discriminate].
    apply IH. pose proof (digit_value_nonneg c d Hd). nia.
Qed.

Lemma hex_digit_value (c : ascii) :
  is_lower_hex_digit c = true -> exists d, Py.digit_value c = Some d /\ d < 16.
Proof.
  destruct c as [[] [] [] [] [] [] [] []]; vm_compute; intros H;
    try discriminate; eexists; split; reflexivity.
Qed.

(** The number a run of binary digits denotes. *)
Lemma int_bin (s : string) :
  nonempty s = true -> all_chars is_bin_digit s = true ->
  exists n, Py.int s 2 = Some n /\ 0 <= n.
Proof.
  intros Hne Hall.
  destruct (parse_digits_total 2 is_bin_digit s bin_digit_value Hall 0) as [n Hn].
  exists n. split.
  - rewrite int_plain; [exact Hn | exact Hne |].
    revert Hall. apply all_chars_impl, bin_digit_plain.
  - apply (parse_digits_nonneg 2 s ltac:(lia) 0 n); [lia | exact Hn].
Qed.

Lemma int_hex (s : string) :
  nonempty s = true -> all_chars is_lower_hex_digit s = true ->
  exists n, Py.int s 16 = Some n /\ 0 <= n.
Proof.
  intros Hne Hall.
  destruct (parse_digits_total 16 is_lower_hex_digit s hex_digit_value Hall 0) as [n Hn].
  exists n. split.
  - rewrite int_plain; [exact Hn | exact Hne |].
    revert Hall. apply all_chars_impl, hex_digit_plain.
  - apply (parse_digits_nonneg 16 s ltac:(lia) 0 n); [lia | exact Hn].
Qed.

Lemma bin_digit_char (d : Z) : 0 <= d < 2 -> is_bin_digit (Py.digit_char false d) = true.
Proof.
  intros H. assert (Hd : d = 0 \/ d = 1) by lia. now destruct Hd as [-> | ->].
Qed.

Lemma render_bin_digits (n : Z) :
  all_chars is_bin_digit (Py.render false 2 n) = true.
Proof.
  unfold Py.render. apply digits_of_all; [lia | apply bin_digit_char | reflexivity].
Qed.

Lemma dec_digit_char (d : Z) : 0 <= d < 10 -> plain 10 (Py.digit_char false d) = true.
Proof.
  intros H. rewrite <- (Z2Nat.id d) by lia.
  assert (Hk : (Z.to_nat d < 10)%nat) by lia.
  revert Hk. generalize (Z.to_nat d). intros k Hk.
  do 10 (destruct k as [| k]; [reflexivity |]). lia.
Qed.

Lemma bits_natural (n : Z) : 0 <= n -> bits n = Py.render false 2 n.
Proof.
  intros Hn. unfold bits, Py.render_int. now rewrite (proj2 (Z.ltb_ge _ _)) by lia.
Qed.

Lemma hex_natural (n : Z) : 0 <= n -> Py.hex n = "0x" ++ Py.render false 16 n.
Proof.
  intros Hn. unfold Py.hex, Py.render_int. now rewrite (proj2 (Z.ltb_ge _ _)) by lia.
Qed.

Lemma str_natural (n : Z) : 0 <= n -> Py.str n = Py.render false 10 n.
Proof.
  intros Hn. unfold Py.str, Py.render_int. now rewrite (proj2 (Z.ltb_ge _ _)) by lia.
Qed.

(** Reading back what [bin], [hex] and [str] write for a natural number. *)
Lemma int_render_bin (n : Z) : 0 <= n -> Py.int (Py.render false 2 n) 2 = Some n.
Proof.
  intros Hn. rewrite int_plain.
  - apply parse_render; lia.
  - apply render_nonempty.
  - generalize (render_bin_digits n). apply all_chars_impl, bin_digit_plain.
Qed.

Lemma int_render_hex (n : Z) : 0 <= n -> Py.int (Py.render false 16 n) 16 = Some n.
Proof.
  intros Hn. rewrite int_plain.
  - apply parse_render; lia.
  - apply render_nonempty.
  - generalize (render_hex_digits n). apply all_chars_impl, hex_digit_plain.
Qed.

Lemma render_dec_plain (n : Z) : all_chars (plain 10) (Py.render false 10 n) = true.
Proof.
  unfold Py.render. apply digits_of_all; [lia | apply dec_digit_char | reflexivity].
Qed.

Lemma int_str (n : Z) : 0 <= n -> Py.int (Py.strip (Py.str n)) 10 = Some n.
Proof.
  intros Hn. rewrite str_natural by exact Hn.
  rewrite (strip_plain 10) by apply render_dec_plain.
  rewrite int_plain.
  - apply parse_render; lia.
  - apply render_nonempty.
  - apply render_dec_plain.
Qed.

Lemma str_nonempty (n : Z) : nonempty (Py.str n) = true.
Proof.
  unfold Py.str, Py.render_int. destruct (n <? 0); [reflexivity |].
  cbn [append]. apply render_nonempty.
Qed.


Lemma bin_token_plain (s : string) :
  nonempty s = true -> all_chars is_bin_digit s = true ->
  exists g, re_match bin_default s = Some g /\ g 1%nat = Some s.
Proof.
  intros Hne Hall.
  destruct (bin_default_matches_token false s "" Hne Hall eq_refl) as (g & Hg & H1).
  cbn [append] in Hg. rewrite append_nil_r in Hg. now exists g.
Qed.

Lemma bin_token_prefixed (s : string) :
  nonempty s = true -> all_chars is_bin_digit s = true ->
  exists g, re_match bin_default ("0b" ++ s) = Some g /\ g 1%nat = Some s.
Proof.
  intros Hne Hall.
  destruct (bin_default_matches_token true s "" Hne Hall eq_refl) as (g & Hg & H1).
  rewrite append_nil_r in Hg. now exists g.
Qed.

Lemma hex_token (prefixed suffixed : bool) (s : string) :
  nonempty s = true -> all_chars is_lower_hex_digit s = true ->
  exists g,
    re_match hex_default
      ((if prefixed then "0x" else "") ++ s ++ (if suffixed then "h" else "")) = Some g
    /\ g 1%nat = Some s.
Proof.
  intros Hne Hall.
  destruct (hex_default_matches_token prefixed suffixed s "" Hne Hall eq_refl)
    as (g & Hg & H1).
  rewrite append_nil_r in Hg. now exists g.
Qed.

(** ** The conversions of integers against the positional notation *)

Lemma hex_digit_of (c : ascii) : is_lower_hex_digit c = true -> is_digit_of 16 c = true.
Proof.
  destruct c as [[] [] [] [] [] [] [] []]; vm_compute; intros H;
    try reflexivity; discriminate H.
Qed.

(** [int(s, 16)] on lowercase hexadecimal digits gives the number that
    [s] denotes. *)
Lemma int_hex_numeral (s : string) :
  nonempty s = true -> all_chars is_lower_hex_digit s = true ->
  Py.int s 16 = Some (numeral 16 s).
Proof.
  intros Hne Hall. rewrite int_plain.
  - rewrite parse_digits_numeral; [f_equal; lia | lia |].
    revert Hall. apply all_chars_impl, hex_digit_of.
  - exact Hne.
  - revert Hall. apply all_chars_impl, hex_digit_plain.
Qed.

(** [str(n)] is the way [n] is written in base 10. *)
Lemma str_is_numeral (n : Z) : 0 <= n -> is_numeral 10 n (Py.str n) = true.
Proof.
  intros Hn. rewrite str_natural by exact Hn. apply render_is_numeral; lia.
Qed.

(** ** BinToDec *)

(** X1: on a selection made of binary digits, with or without the prefix
    [0b], BinToDec with the default settings writes [str(int(s, 2))], where
    [int(s, 2)] is the number that [s] denotes in base 2 and [str] writes it
    in base 10; and DecToBin on what it wrote writes the same number in
    base 2, without prefix and without leading zeros.  Numbers of more
    decimal digits than the interpreter converts are left out. *)
Theorem BinToDec_is_int (pre s post : string) :
  nonempty s = true ->
  all_chars is_bin_digit s = true ->
  numeral 2 s < 10 ^ max_str_digits ->
  let n := numeral 2 s in
  Py.int s 2 = Some n
  /\ is_numeral 10 n (Py.str n) = true
  /\ is_numeral 2 n (Py.render false 2 n) = true
  /\ BinToDecCommand_run (selected no_settings pre s post)
     = Finished (selected no_settings pre (Py.str n) post) None
  /\ BinToDecCommand_run (selected no_settings pre ("0b" ++ s) post)
     = Finished (selected no_settings pre (Py.str n) post) None
  /\ DecToBinCommand_run (selected no_settings pre (Py.str n) post)
     = Finished (selected no_settings pre (Py.render false 2 n) post) None.
Proof.
  intros Hne Hall _ n.
  pose proof (int_bin_numeral s Hne Hall) as Hn. fold n in Hn.
  assert (Hpos : 0 <= n) by (apply numeral_nonneg; lia).
  destruct (bin_token_plain s Hne Hall) as (g & Hg & Hg1).
  destruct (bin_token_prefixed s Hne Hall) as (g' & Hg' & Hg1').
  split; [exact Hn |].
  split; [now apply str_is_numeral |].
  split; [apply render_is_numeral; lia |].
  split; [| split].
  - now apply (BinToDec_run_match pre s post s g n).
  - now apply (BinToDec_run_match pre ("0b" ++ s) post s g' n).
  - rewrite <- bits_natural by exact Hpos.
    apply DecToBin_run_int; [apply str_nonempty | now apply int_str].
Qed.

Lemma BinToDec_is_int_witness :
  Py.int "00101" 2 = Some 5
  /\ BinToDecCommand_run (selected no_settings "x = " "00101" ";")
     = Finished (selected no_settings "x = " "5" ";") None
  /\ BinToDecCommand_run (selected no_settings "x = " "0b00101" ";")
     = Finished (selected no_settings "x = " "5" ";") None
  /\ DecToBinCommand_run (selected no_settings "x = " "5" ";")
     = Finished (selected no_settings "x = " "101" ";") None.
Proof.
  pose proof (BinToDec_is_int "x = " "00101" ";" eq_refl eq_refl eq_refl) as H.
  cbv zeta in H. destruct H as (Hint & _ & _ & Hrun & Hpre & Hback).
  exact (conj Hint (conj Hrun (conj Hpre Hback))).
Defined.

(** ** HexToDec and HexToBin *)

(** X2: on a selection made of lowercase hexadecimal digits, with or
    without the prefix [0x] and with or without the suffix [h], HexToDec
    with the default settings writes [str(int(s, 16))], where [int(s, 16)]
    is the number that [s] denotes in base 16 and [str] writes it in base
    10; and DecToHex on what it wrote writes [0x] and the same number in
    base 16.  Numbers of more decimal digits than the interpreter converts
    are left out. *)
Theorem HexToDec_is_int (prefixed suffixed : bool) (pre s post : string) :
  nonempty s = true ->
  all_chars is_lower_hex_digit s = true ->
  numeral 16 s < 10 ^ max_str_digits ->
  let n := numeral 16 s in
  Py.int s 16 = Some n
  /\ is_numeral 10 n (Py.str n) = true
  /\ Py.hex n = "0x" ++ Py.render false 16 n
  /\ is_numeral 16 n (Py.render false 16 n) = true
  /\ HexToDecCommand_run
       (selected no_settings pre
          ((if prefixed then "0x" else "") ++ s ++ (if suffixed then "h" else "")) post)
     = Finished (selected no_settings pre (Py.str n) post) None
  /\ DecToHexCommand_run (selected no_settings pre (Py.str n) post)
     = Finished (selected no_settings pre (Py.hex n) post) None.
Proof.
  intros Hne Hall _ n.
  pose proof (int_hex_numeral s Hne Hall) as Hn. fold n in Hn.
  assert (Hpos : 0 <= n) by (apply numeral_nonneg; lia).
  destruct (hex_token prefixed suffixed s Hne Hall) as (g & Hg & Hg1).
  split; [exact Hn |].
  split; [now apply str_is_numeral |].
  split; [now apply hex_natural |].
  split; [apply render_is_numeral; lia |].
  split.
  - apply (HexToDec_run_match pre _ post s g n); try assumption.
    destruct prefixed; [reflexivity |]. now destruct s.
  - apply DecToHex_run_int; [apply str_nonempty | now apply int_str].
Qed.

Lemma HexToDec_is_int_witness :
  Py.int "1af" 16 = Some 431
  /\ HexToDecCommand_run (selected no_settings "x = " "1afh" ";")
     = Finished (selected no_settings "x = " "431" ";") None
  /\ DecToHexCommand_run (selected no_settings "x = " "431" ";")
     = Finished (selected no_settings "x = " "0x1af" ";") None.
Proof.
  pose proof (HexToDec_is_int false true "x = " "1af" ";" eq_refl eq_refl eq_refl) as H.
  cbv zeta in H. destruct H as (Hint & _ & _ & _ & Hrun & Hback).
  exact (conj Hint (conj Hrun Hback)).
Defined.

(** X3: on a selection made of lowercase hexadecimal digits, with or
    without the prefix [0x] and with or without the suffix [h], HexToBin
    with the default settings writes the number that [s] denotes in base
    16 the way it is written in base 2; and BinToHex on what it wrote
    writes [0x] and the same number in base 16. *)
Theorem HexToBin_is_bin (prefixed suffixed : bool) (pre s post : string) :
  nonempty s = true ->
  all_chars is_lower_hex_digit s = true ->
  let n := numeral 16 s in
  Py.int s 16 = Some n
  /\ is_numeral 2 n (Py.render false 2 n) = true
  /\ Py.hex n = "0x" ++ Py.render false 16 n
  /\ is_numeral 16 n (Py.render false 16 n) = true
  /\ HexToBinCommand_run
       (selected no_settings pre
          ((if prefixed then "0x" else "") ++ s ++ (if suffixed then "h" else "")) post)
     = Finished (selected no_settings pre (Py.render false 2 n) post) None
  /\ BinToHexCommand_run (selected no_settings pre (Py.render false 2 n) post)
     = Finished (selected no_settings pre (Py.hex n) post) None.
Proof.
  intros Hne Hall n.
  pose proof (int_hex_numeral s Hne Hall) as Hn. fold n in Hn.
  assert (Hpos : 0 <= n) by (apply numeral_nonneg; lia).
  destruct (hex_token prefixed suffixed s Hne Hall) as (g & Hg & Hg1).
  split; [exact Hn |].
  split; [apply render_is_numeral; lia |].
  split; [now apply hex_natural |].
  split; [apply render_is_numeral; lia |].
  split.
  - rewrite <- bits_natural by exact Hpos.
    apply (HexToBin_run_match pre _ post s g n); try assumption.
    destruct prefixed; [reflexivity |]. now destruct s.
  - destruct (bin_token_plain (Py.render false 2 n)) as (g' & Hg' & Hg1');
      [apply render_nonempty | apply render_bin_digits |].
    apply (BinToHex_run_match pre (Py.render false 2 n) post (Py.render false 2 n) g' n);
      [apply render_nonempty | exact Hg' | exact Hg1' | now apply int_render_bin].
Qed.

Lemma HexToBin_is_bin_witness :
  Py.int "2e" 16 = Some 46
  /\ HexToBinCommand_run (selected no_settings "x = " "0x2e" ";")
     = Finished (selected no_settings "x = " "101110" ";") None
  /\ BinToHexCommand_run (selected no_settings "x = " "101110" ";")
     = Finished (selected no_settings "x = " "0x2e" ";") None.
Proof.
  pose proof (HexToBin_is_bin true false "x = " "2e" ";" eq_refl eq_refl) as H.
  cbv zeta in H. destruct H as (Hint & _ & _ & _ & Hrun & Hback).
  exact (conj Hint (conj Hrun Hback)).
Defined.

(** ** Selections that start with a character that is not a word character *)

Lemma boundary_nonword_start (t : string) :
  starts_with not_word t = true -> Sre.boundary t 0 = false.
Proof.
  destruct t as [| c t]; [discriminate |]. cbn. unfold not_word.
  intros H. apply negb_true_iff in H. now rewrite H.
Qed.

Lemma defaults_need_word_start (t : string) :
  starts_with not_word t = true ->
  re_match bin_default t = None /\ re_match hex_default t = None
  /\ re_match exp_default t = None.
Proof.
  intros Ht. apply boundary_nonword_start in Ht.
  repeat split; cbn [re_match sre_engine]; unfold Sre.match_, Sre.exec;
    cbn [Sre.prog bin_default hex_default exp_default];
    now rewrite run_seq, run_not_boundary.
Qed.

Lemma starts_nonempty (p : ascii -> bool) (t : string) :
  starts_with p t = true -> nonempty t = true.
Proof. now destruct t. Qed.

Lemma BinToDec_run_no_match (pre t post : string) :
  nonempty t = true -> re_match bin_default t = None ->
  BinToDecCommand_run (selected no_settings pre t post)
  = Finished (selected no_settings pre t post) (skipped 1 "binary").
Proof.
  intros Hne Hm. unfold BinToDecCommand_run. rewrite bin_default_loaded by reflexivity.
  apply convert_all_raised.
  rewrite (BinToDec_convert_text _ _ _ t);
    [| now apply span_nonempty | apply view_substr_selected].
  now rewrite Hm.
Qed.

Lemma BinToHex_run_no_match (pre t post : string) :
  nonempty t = true -> re_match bin_default t = None ->
  BinToHexCommand_run (selected no_settings pre t post)
  = Finished (selected no_settings pre t post) (skipped 1 "binary").
Proof.
  intros Hne Hm. unfold BinToHexCommand_run. rewrite bin_default_loaded by reflexivity.
  apply convert_all_raised.
  rewrite (BinToHex_convert_text _ _ _ _ t);
    [| now apply span_nonempty | apply view_substr_selected].
  now rewrite Hm.
Qed.

Lemma HexToBin_run_no_match (pre t post : string) :
  nonempty t = true -> re_match hex_default t = None ->
  HexToBinCommand_run (selected no_settings pre t post)
  = Finished (selected no_settings pre t post) (skipped 1 "hexadecimal").
Proof.
  intros Hne Hm. unfold HexToBinCommand_run. rewrite hex_default_loaded by reflexivity.
  apply convert_all_raised.
  rewrite (HexToBin_convert_text _ _ _ _ t);
    [| now apply span_nonempty | apply view_substr_selected].
  now rewrite Hm.
Qed.

Lemma HexToDec_run_no_match (pre t post : string) :
  nonempty t = true -> re_match hex_default t = None ->
  HexToDecCommand_run (selected no_settings pre t post)
  = Finished (selected no_settings pre t post) (skipped 1 "hexadecimal").
Proof.
  intros Hne Hm. unfold HexToDecCommand_run. rewrite hex_default_loaded by reflexivity.
  apply convert_all_raised.
  rewrite (HexToDec_convert_text _ _ _ t);
    [| now apply span_nonempty | apply view_substr_selected].
  now rewrite Hm.
Qed.

Lemma ExpToDec_run_no_match (pre t post : string) :
  nonempty t = true -> re_match exp_default t = None ->
  ExpToDecCommand_run (selected no_settings pre t post)
  = Finished (selected no_settings pre t post) (skipped 1 "exponential").
Proof.
  intros Hne Hm. unfold ExpToDecCommand_run. rewrite exp_default_loaded by reflexivity.
  apply convert_all_raised.
  rewrite (ExpToDec_convert_text _ _ _ t);
    [| now apply span_nonempty | apply view_substr_selected].
  now rewrite Hm.
Qed.

Lemma ascii_not_word_start (t : string) :
  starts_with ascii_not_word t = true -> starts_with not_word t = true.
Proof.
  destruct t as [| c t]; [discriminate |]. cbn [starts_with]. unfold ascii_not_word.
  intros H. now apply andb_prop in H.
Qed.

(** X4: the default patterns open with a word boundary and are matched
    at the start of the selection only, so a selection whose first character
    is an ASCII character other than a word character (a blank, a sign, a
    quote) is skipped by each of the five commands that read their input
    through a pattern. *)
Theorem leading_nonword_skipped (pre t post : string) :
  starts_with ascii_not_word t = true ->
  BinToDecCommand_run (selected no_settings pre t post)
  = Finished (selected no_settings pre t post) (skipped 1 "binary")
  /\ BinToHexCommand_run (selected no_settings pre t post)
     = Finished (selected no_settings pre t post) (skipped 1 "binary")
  /\ HexToBinCommand_run (selected no_settings pre t post)
     = Finished (selected no_settings pre t post) (skipped 1 "hexadecimal")
  /\ HexToDecCommand_run (selected no_settings pre t post)
     = Finished (selected no_settings pre t post) (skipped 1 "hexadecimal")
  /\ ExpToDecCommand_run (selected no_settings pre t post)
     = Finished (selected no_settings pre t post) (skipped 1 "exponential").
Proof.
  intros Ht. apply ascii_not_word_start in Ht.
  pose proof (starts_nonempty _ _ Ht) as Hne.
  destruct (defaults_need_word_start t Ht) as (Hb & Hh & He).
  repeat split.
  - now apply BinToDec_run_no_match.
  - now apply BinToHex_run_no_match.
  - now apply HexToBin_run_no_match.
  - now apply HexToDec_run_no_match.
  - now apply ExpToDec_run_no_match.
Qed.

Lemma leading_nonword_skipped_witness :
  BinToDecCommand_run (selected no_settings "" " 101" "")
  = Finished (selected no_settings "" " 101" "") (skipped 1 "binary")
  /\ BinToHexCommand_run (selected no_settings "" " 101" "")
     = Finished (selected no_settings "" " 101" "") (skipped 1 "binary")
  /\ HexToBinCommand_run (selected no_settings "" " 101" "")
     = Finished (selected no_settings "" " 101" "") (skipped 1 "hexadecimal")
  /\ HexToDecCommand_run (selected no_settings "" " 101" "")
     = Finished (selected no_settings "" " 101" "") (skipped 1 "hexadecimal")
  /\ ExpToDecCommand_run (selected no_settings "" " 101" "")
     = Finished (selected no_settings "" " 101" "") (skipped 1 "exponential").
Proof.
  apply (leading_nonword_skipped "" " 101" ""). reflexivity.
Defined.

(** ** DecToBin *)




(** ** Text after the token *)

(** X6: the pattern is matched at the start of the selection and need
    not reach its end, while the replacement covers the whole selection: when
    the selected text is a token followed by more text that starts with an
    ASCII character other than a word character, the number that the token
    denotes replaces all of it and the rest of the selection is lost.
    Numbers of more decimal digits than the interpreter converts are left
    out. *)
Theorem rest_of_selection_dropped (pre s tail post : string) :
  nonempty s = true ->
  starts_with ascii_not_word tail = true ->
  (all_chars is_bin_digit s = true ->
   numeral 2 s < 10 ^ max_str_digits ->
   let n := numeral 2 s in
   is_numeral 10 n (Py.str n) = true
   /\ BinToDecCommand_run (selected no_settings pre (s ++ tail) post)
      = Finished (selected no_settings pre (Py.str n) post) None
   /\ BinToHexCommand_run (selected no_settings pre (s ++ tail) post)
      = Finished (selected no_settings pre ("0x" ++ Py.render false 16 n) post) None
   /\ is_numeral 16 n (Py.render false 16 n) = true)
  /\ (all_chars is_lower_hex_digit s = true ->
      numeral 16 s < 10 ^ max_str_digits ->
      let n := numeral 16 s in
      is_numeral 10 n (Py.str n) = true
      /\ HexToDecCommand_run (selected no_settings pre (s ++ tail) post)
         = Finished (selected no_settings pre (Py.str n) post) None
      /\ HexToBinCommand_run (selected no_settings pre (s ++ tail) post)
         = Finished (selected no_settings pre (Py.render false 2 n) post) None
      /\ is_numeral 2 n (Py.render false 2 n) = true).
Proof.
  intros Hne Htail. apply ascii_not_word_start in Htail.
  assert (Hends : token_ends tail = true) by (destruct tail; [discriminate | exact Htail]).
  assert (Hst : nonempty (s ++ tail) = true) by (now destruct s).
  split; intros Hall _ n.
  - pose proof (int_bin_numeral s Hne Hall) as Hn. fold n in Hn.
    assert (Hpos : 0 <= n) by (apply numeral_nonneg; lia).
    destruct (bin_default_matches_token false s tail Hne Hall Hends) as (g & Hg & Hg1).
    cbn [append] in Hg.
    split; [now apply str_is_numeral |]. split; [| split].
    + now apply (BinToDec_run_match pre _ post s g n).
    + rewrite <- hex_natural by exact Hpos.
      now apply (BinToHex_run_match pre _ post s g n).
    + apply render_is_numeral; lia.
  - pose proof (int_hex_numeral s Hne Hall) as Hn. fold n in Hn.
    assert (Hpos : 0 <= n) by (apply numeral_nonneg; lia).
    destruct (hex_default_matches_token false false s tail Hne Hall Hends) as (g & Hg & Hg1).
    cbn [append] in Hg.
    split; [now apply str_is_numeral |]. split; [| split].
    + now apply (HexToDec_run_match pre _ post s g n).
    + rewrite <- bits_natural by exact Hpos.
      now apply (HexToBin_run_match pre _ post s g n).
    + apply render_is_numeral; lia.
Qed.

Lemma rest_of_selection_dropped_witness :
  BinToDecCommand_run (selected no_settings "" "101 + 11" "")
  = Finished (selected no_settings "" "5" "") None
  /\ BinToHexCommand_run (selected no_settings "" "101 + 11" "")
     = Finished (selected no_settings "" "0x5" "") None
  /\ HexToDecCommand_run (selected no_settings "" "ff, 10" "")
     = Finished (selected no_settings "" "255" "") None
  /\ HexToBinCommand_run (selected no_settings "" "ff, 10" "")
     = Finished (selected no_settings "" "11111111" "") None.
Proof.
  pose proof (proj1 (rest_of_selection_dropped "" "101" " + 11" "" eq_refl eq_refl)
                eq_refl eq_refl) as Hb.
  pose proof (proj2 (rest_of_selection_dropped "" "ff" ", 10" "" eq_refl eq_refl)
                eq_refl eq_refl) as Hh.
  cbv zeta in Hb, Hh.
  destruct Hb as (_ & Hb1 & Hb2 & _). destruct Hh as (_ & Hh1 & Hh2 & _).
  exact (conj Hb1 (conj Hb2 (conj Hh1 Hh2))).
Defined.

(** ** The loop over the selections *)

Lemma view_replace_settings (view : View) (s : Region) (t : string) :
  settings (view_replace view s t) = settings view.
Proof. reflexivity. Qed.

Lemma view_replace_sel_length (view : View) (s : Region) (t : string) :
  List.length (sel (view_replace view s t)) = List.length (sel view).
Proof. unfold view_replace; simpl. apply length_map. Qed.

(** What a loop that returns has done: the skip count went up by at most
    one per iteration, and the settings and the number of selections are as
    they were. *)
Lemma for_each_result (body : View -> Region -> outcome) :
  forall n i view k view' k',
    for_each_sel body n i view k = Some (view', k') ->
    k <= k' <= k + Z.of_nat n
    /\ settings view' = settings view
    /\ List.length (sel view') = List.length (sel view).
Proof.
  induction n as [| n IH]; intros i view k view' k'; cbn [for_each_sel].
  - intros H. inversion H; subst. repeat split; lia.
  - destruct (nth_error (sel view) i) as [s |].
    + destruct (body view s) as [s' text | |] eqn:Hb.
      * intros H. apply IH in H as (Hk & Hs & Hl).
        rewrite Hs, Hl, view_replace_sel_length. repeat split; lia.
      * intros H. apply IH in H as (Hk & Hs & Hl). repeat split; try assumption; lia.
      * discriminate.
    + intros H. inversion H; subst. repeat split; lia.
Qed.

(** A loop whose body has no unbounded loop of its own returns. *)
Lemma for_each_total (body : View -> Region -> outcome) :
  (forall v s, body v s <> OutOfFuel) ->
  forall n i view k, for_each_sel body n i view k <> None.
Proof.
  intros Hbody. induction n as [| n IH]; intros i view k; cbn [for_each_sel].
  - discriminate.
  - destruct (nth_error (sel view) i) as [s |]; [| discriminate].
    destruct (body view s) as [s' text | |] eqn:Hb; [apply IH | apply IH |].
    now destruct (Hbody view s).
Qed.

Lemma convert_all_result (what : string) (body : View -> Region -> outcome)
    (view view' : View) (status : option string) :
  convert_all what body view = Finished view' status ->
  settings view' = settings view
  /\ List.length (sel view') = List.length (sel view)
  /\ exists num_skip,
       0 <= num_skip <= Z.of_nat (List.length (sel view))
       /\ status = report num_skip what.
Proof.
  unfold convert_all.
  destruct (for_each_sel body (List.length (sel view)) 0 view 0) as [[v' k'] |] eqn:Hr;
    [| discriminate].
  intros H. inversion H; subst. clear H.
  apply for_each_result in Hr as (Hk & Hs & Hl).
  split; [exact Hs |]. split; [exact Hl |]. exists k'. split; [lia | reflexivity].
Qed.

Lemma convert_all_caught (what : string) (body : View -> Region -> outcome) (view : View) :
  convert_all what body view <> Uncaught.
Proof.
  unfold convert_all. now destruct (for_each_sel _ _ _ _ _) as [[? ?] |].
Qed.

Lemma convert_all_returns (what : string) (body : View -> Region -> outcome) (view : View) :
  (forall v s, body v s <> OutOfFuel) ->
  convert_all what body view <> Unfinished.
Proof.
  intros Hbody. unfold convert_all.
  pose proof (for_each_total body Hbody (List.length (sel view)) 0 view 0) as H.
  destruct (for_each_sel _ _ _ _ _) as [[? ?] |]; [discriminate | contradiction].
Qed.

Ltac no_fuel :=
  cbv beta zeta delta [BinToDec_convert BinToHex_convert DecToBin_convert
    DecToHex_convert HexToBin_convert HexToDec_convert ExpToDec_convert];
  repeat match goal with
         | |- context [match ?x with _ => _ end] => destruct x
         end;
  discriminate.

Section Bodies.
Context {E : RegexEngine} {L : Libm}.

Lemma BinToDec_no_fuel r v s : BinToDec_convert r v s <> OutOfFuel.
Proof. no_fuel. Qed.
Lemma BinToHex_no_fuel dst r v s : BinToHex_convert dst r v s <> OutOfFuel.
Proof. no_fuel. Qed.
Lemma DecToBin_no_fuel dst v s : DecToBin_convert dst v s <> OutOfFuel.
Proof. no_fuel. Qed.
Lemma DecToHex_no_fuel dst v s : DecToHex_convert dst v s <> OutOfFuel.
Proof. no_fuel. Qed.
Lemma HexToBin_no_fuel dst r v s : HexToBin_convert dst r v s <> OutOfFuel.
Proof. no_fuel. Qed.
Lemma HexToDec_no_fuel r v s : HexToDec_convert r v s <> OutOfFuel.
Proof. no_fuel. Qed.
Lemma ExpToDec_no_fuel r v s : ExpToDec_convert r v s <> OutOfFuel.
Proof. no_fuel. Qed.

Lemma load_pattern_some (view : View) (name default : string) (d : Pattern) :
  re_compile (VStr default) = Some d ->
  exists r, load_pattern view name default = Some r.
Proof.
  intros Hd.
  destruct (re_compile (settings_get view name (VStr default))) as [r |] eqn:Hc.
  - exists r. now apply load_pattern_configured.
  - exists d. now rewrite load_pattern_fallback.
Qed.
End Bodies.

(** X7: whatever the settings hold and whatever is selected, no
    exception escapes a command; every command but DecToExp returns; and a
    command that returns leaves the settings and the number of selections as
    they were and reports nothing, or reports a number of skipped selections
    between one and the number of selections under the name of its source
    format. *)
Theorem commands_never_raise (fuel : nat) (c : Command) (view : View) :
  run fuel c view <> Uncaught
  /\ (run fuel c view = Unfinished -> c = DecToExp)
  /\ forall view' status,
       run fuel c view = Finished view' status ->
       settings view' = settings view
       /\ List.length (sel view') = List.length (sel view)
       /\ exists num_skip,
            0 <= num_skip <= Z.of_nat (List.length (sel view))
            /\ status = report num_skip (source_kind c).
Proof.
  destruct (load_pattern_some view "convert_src_bin" _CONVERT_SRC_BIN_DFLT bin_default eq_refl)
    as [rb Hb].
  destruct (load_pattern_some view "convert_src_hex" _CONVERT_SRC_HEX_DFLT hex_default eq_refl)
    as [rh Hh].
  destruct (load_pattern_some view "convert_src_exp" _CONVERT_SRC_EXP_DFLT exp_default eq_refl)
    as [re He].
  destruct c; cbn [run source_kind];
    unfold BinToDecCommand_run, BinToHexCommand_run, DecToBinCommand_run,
      DecToHexCommand_run, HexToBinCommand_run, HexToDecCommand_run,
      ExpToDecCommand_run, DecToExpCommand_run;
    rewrite ?Hb, ?Hh, ?He;
    (split; [apply convert_all_caught |]);
    (split; [| apply convert_all_result]);
    try reflexivity;
    intros H; exfalso; revert H; apply convert_all_returns; intros v s.
  - apply BinToDec_no_fuel.
  - apply BinToHex_no_fuel.
  - apply DecToBin_no_fuel.
  - apply DecToHex_no_fuel.
  - apply HexToBin_no_fuel.
  - apply HexToDec_no_fuel.
  - apply ExpToDec_no_fuel.
Qed.

(** ** Destination templates that cannot be applied *)

Lemma for_each_all_raised (body : View -> Region -> outcome) :
  (forall v s, body v s = Raised) ->
  forall n i view k,
    for_each_sel body n i view k
    = Some (view, k + Z.of_nat (Nat.min n (List.length (sel view) - i))).
Proof.
  intros Hbody. induction n as [| n IH]; intros i view k; cbn [for_each_sel].
  - simpl. now rewrite Z.add_0_r.
  - destruct (nth_error (sel view) i) as [s |] eqn:Hi.
    + rewrite Hbody, IH.
      assert (i < List.length (sel view))%nat
        by (apply nth_error_Some; congruence).
      do 2 f_equal. lia.
    + apply nth_error_None in Hi.
      replace (List.length (sel view) - i)%nat with 0%nat by lia.
      rewrite Nat.min_0_r. simpl. now rewrite Z.add_0_r.
Qed.

Lemma convert_all_all_raised (what : string) (body : View -> Region -> outcome)
    (view : View) :
  (forall v s, body v s = Raised) ->
  convert_all what body view
  = Finished view (report (Z.of_nat (List.length (sel view))) what).
Proof.
  intros Hbody. unfold convert_all. rewrite for_each_all_raised by exact Hbody.
  rewrite Nat.sub_0_r, Nat.min_id. reflexivity.
Qed.

Ltac always_raised H :=
  cbv beta zeta delta [BinToHex_convert DecToBin_convert DecToHex_convert HexToBin_convert];
  repeat match goal with
         | |- context [format_value _ _] => rewrite H
         | |- context [match ?x with _ => _ end] => destruct x
         end;
  reflexivity.

Section Templates.
Context {E : RegexEngine}.
Variable dst : value.
Hypothesis Hdst : forall n, format_value dst n = None.

Lemma BinToHex_raised r v s : BinToHex_convert dst r v s = Raised.
Proof. always_raised Hdst. Qed.
Lemma HexToBin_raised r v s : HexToBin_convert dst r v s = Raised.
Proof. always_raised Hdst. Qed.
Lemma DecToBin_raised v s : DecToBin_convert dst v s = Raised.
Proof. always_raised Hdst. Qed.
Lemma DecToHex_raised v s : DecToHex_convert dst v s = Raised.
Proof. always_raised Hdst. Qed.
End Templates.

Lemma dec_digit_of (c : ascii) : Py.is_digit c = true -> is_digit_of 10 c = true.
Proof.
  destruct c as [[] [] [] [] [] [] [] []]; vm_compute; intros H;
    try reflexivity; discriminate H.
Qed.

Lemma dec_digit_cases (c : ascii) :
  Py.is_digit c = true ->
  c <> "{"%char /\ c <> "}"%char /\ c <> ":"%char.
Proof.
  destruct c as [[] [] [] [] [] [] [] []]; vm_compute; intros H;
    try discriminate H; repeat split; discriminate.
Qed.

(** The field that starts with the digits [idx] and goes on with [tail]. *)
Lemma until_brace_digits (idx tail : string) :
  all_chars Py.is_digit idx = true ->
  Py.until_brace (idx ++ tail)
  = match Py.until_brace tail with
    | Some (f, rest) => Some (idx ++ f, rest)
    | None => None
    end.
Proof.
  induction idx as [| c idx IH]; intros Hall; cbn [append].
  - now destruct (Py.until_brace tail) as [[f rest] |].
  - cbn [all_chars] in Hall. apply andb_prop in Hall as [Hc Hall].
    destruct (dec_digit_cases c Hc) as (H1 & H2 & _).
    assert (Hstep : Py.until_brace (String c (idx ++ tail))
                    = match Py.until_brace (idx ++ tail) with
                      | Some (f, rest) => Some (String c f, rest)
                      | None => None
                      end).
    { destruct c as [[] [] [] [] [] [] [] []]; try reflexivity; congruence. }
    rewrite Hstep, (IH Hall).
    now destruct (Py.until_brace tail) as [[f rest] |].
Qed.

Lemma index_colon_digits (idx f : string) :
  all_chars Py.is_digit idx = true ->
  index 0 ":" (idx ++ String ":" f) = Some (String.length idx).
Proof.
  induction idx as [| c idx IH]; intros Hall; cbn [append String.length].
  - cbn [index prefix]. destruct (ascii_dec ":" ":") as [_ | Hneq]; [| congruence].
    now destruct f.
  - cbn [all_chars] in Hall. apply andb_prop in Hall as [Hc Hall].
    destruct (dec_digit_cases c Hc) as (_ & _ & H3).
    cbn [index prefix]. destruct (ascii_dec ":" c) as [Heq | _]; [congruence |].
    now rewrite (IH Hall).
Qed.

Lemma index_colon_none (idx : string) :
  all_chars Py.is_digit idx = true -> nonempty idx = true ->
  index 0 ":" idx = None.
Proof.
  induction idx as [| c idx IH]; intros Hall Hne; [discriminate |].
  cbn [all_chars] in Hall. apply andb_prop in Hall as [Hc Hall].
  destruct (dec_digit_cases c Hc) as (_ & _ & H3).
  cbn [index prefix]. destruct (ascii_dec ":" c) as [Heq | _]; [congruence |].
  destruct idx as [| d idx]; [reflexivity |].
  now rewrite (IH Hall).
Qed.

Lemma numeral_nonempty (idx : string) : 1 <= numeral 10 idx -> nonempty idx = true.
Proof. destruct idx; [simpl; lia | reflexivity]. Qed.

(** A field whose index denotes a number other than 0 raises. *)
Lemma format_field_past (idx f : string) (seen : Py.numbering) (n : Z) :
  all_chars Py.is_digit idx = true ->
  1 <= numeral 10 idx ->
  f = EmptyString \/ starts_with (Ascii.eqb ":") f = true ->
  Py.format_field (idx ++ f) seen n = None.
Proof.
  intros Hall Hk Hf. pose proof (numeral_nonempty idx Hk) as Hne.
  assert (Hparse : Py.parse_digits 10 idx 0 = Some (numeral 10 idx)).
  { rewrite parse_digits_numeral; [f_equal; lia | lia |].
    revert Hall. apply all_chars_impl, dec_digit_of. }
  unfold Py.format_field.
  destruct Hf as [-> | Hf].
  - rewrite append_nil_r, index_colon_none by assumption.
    destruct idx as [| c idx]; [discriminate |].
    rewrite Hparse. destruct (numeral 10 (String c idx)) as [| p | p]; try lia.
    reflexivity.
  - destruct f as [| c f]; [discriminate |]. cbn [starts_with] in Hf.
    apply Ascii.eqb_eq in Hf. subst c.
    rewrite index_colon_digits by exact Hall.
    rewrite substring_prefix.
    destruct idx as [| c idx]; [discriminate |].
    rewrite Hparse. destruct (numeral 10 (String c idx)) as [| p | p]; try lia.
    reflexivity.
Qed.

Lemma until_brace_tail (tail f rest : string) :
  starts_with ends_index tail = true ->
  Py.until_brace tail = Some (f, rest) ->
  f = EmptyString \/ starts_with (Ascii.eqb ":") f = true.
Proof.
  destruct tail as [| c tail]; [discriminate |]. cbn [starts_with]. unfold ends_index.
  intros Hc. apply orb_prop in Hc as [Hc | Hc]; apply Ascii.eqb_eq in Hc; subst c.
  - cbn. intros H. inversion H. now left.
  - cbn [Py.until_brace].
    destruct (Py.until_brace tail) as [[f' rest'] |]; [| discriminate].
    intros H. inversion H. now right.
Qed.

Lemma format_go_past (lit idx tail : string) (n : Z) :
  all_chars Py.is_digit idx = true ->
  1 <= numeral 10 idx ->
  starts_with ends_index tail = true ->
  all_chars no_brace lit = true ->
  forall fuel seen, Py.format_go fuel (lit ++ "{" ++ idx ++ tail) seen n = None.
Proof.
  intros Hall Hk Htail. pose proof (numeral_nonempty idx Hk) as Hne.
  induction lit as [| c lit IH]; intros Hlit fuel seen.
  - destruct fuel as [| fuel]; [reflexivity |].
    cbn [append]. destruct idx as [| d idx]; [discriminate |].
    assert (Hd : d <> "{"%char).
    { cbn [all_chars] in Hall. apply andb_prop in Hall as [Hd _].
      now destruct (dec_digit_cases d Hd). }
    assert (Hgo : Py.format_go (S fuel) (String "{" (String d idx ++ tail)) seen n
                  = match Py.until_brace (String d idx ++ tail) with
                    | Some (field, rest') =>
                        match Py.format_field field seen n with
                        | Some (out, seen') =>
                            option_map (append out) (Py.format_go fuel rest' seen' n)
                        | None => None
                        end
                    | None => None
                    end).
    { cbn [append Py.format_go].
      destruct d as [[] [] [] [] [] [] [] []]; try reflexivity; congruence. }
    rewrite Hgo, until_brace_digits by exact Hall.
    destruct (Py.until_brace tail) as [[f rest] |] eqn:Hu; [| reflexivity].
    rewrite format_field_past; [reflexivity | exact Hall | exact Hk |].
    exact (until_brace_tail tail f rest Htail Hu).
  - cbn [all_chars] in Hlit. apply andb_prop in Hlit as [Hc Hlit].
    destruct fuel as [| fuel]; [reflexivity |].
    change (String c lit ++ "{" ++ idx ++ tail)
      with (String c (lit ++ "{" ++ idx ++ tail)).
    assert (Hgo : Py.format_go (S fuel) (String c (lit ++ "{" ++ idx ++ tail)) seen n
                  = option_map (String c)
                      (Py.format_go fuel (lit ++ "{" ++ idx ++ tail) seen n)).
    { unfold no_brace in Hc. apply negb_true_iff, orb_false_elim in Hc as [H1 H2].
      apply Ascii.eqb_neq in H1, H2.
      cbn [Py.format_go].
      destruct c as [[] [] [] [] [] [] [] []]; try reflexivity; congruence. }
    rewrite Hgo, (IH Hlit). reflexivity.
Qed.

(** [format] raises on an unusable template, whatever the number. *)
Lemma unusable_raises (dst : value) :
  unusable dst -> forall n, format_value dst n = None.
Proof.
  intros [| lit idx tail Hlit Hall Hk Htail] n; [reflexivity |].
  unfold format_value, Py.format. now apply format_go_past.
Qed.

(** X8: when the destination template of the settings cannot be applied
    to the number (it is not a string, or its first replacement field asks
    for a second argument), each of the four commands that write through a
    template skips every selection: the view is left as it is and the
    number of selections is reported. *)
Theorem unusable_template_skips_all (view : View) :
  let dst_hex := settings_get view "convert_dst_hex" (VStr _CONVERT_DST_HEX_DFLT) in
  let dst_bin := settings_get view "convert_dst_bin" (VStr _CONVERT_DST_BIN_DFLT) in
  let count := Z.of_nat (List.length (sel view)) in
  (unusable dst_hex ->
   BinToHexCommand_run view = Finished view (report count "binary")
   /\ DecToHexCommand_run view = Finished view (report count "decimal"))
  /\ (unusable dst_bin ->
      HexToBinCommand_run view = Finished view (report count "hexadecimal")
      /\ DecToBinCommand_run view = Finished view (report count "decimal")).
Proof.
  intros dst_hex dst_bin count.
  destruct (load_pattern_some view "convert_src_bin" _CONVERT_SRC_BIN_DFLT bin_default eq_refl)
    as [rb Hb].
  destruct (load_pattern_some view "convert_src_hex" _CONVERT_SRC_HEX_DFLT hex_default eq_refl)
    as [rh Hh].
  split; intros Hbad; pose proof (unusable_raises _ Hbad) as Hdst; split;
    unfold BinToHexCommand_run, DecToHexCommand_run, HexToBinCommand_run,
      DecToBinCommand_run;
    rewrite ?Hb, ?Hh; apply convert_all_all_raised; intros v s.
  - now apply BinToHex_raised.
  - now apply DecToHex_raised.
  - now apply HexToBin_raised.
  - now apply DecToBin_raised.
Qed.

Lemma unusable_template_skips_all_witness :
  BinToHexCommand_run (selected2 bad_template_settings "" "101" " " "11" "")
  = Finished (selected2 bad_template_settings "" "101" " " "11" "")
             (Some "Skipped 2 invalid binary value(s)!")
  /\ DecToHexCommand_run (selected2 bad_template_settings "" "101" " " "11" "")
     = Finished (selected2 bad_template_settings "" "101" " " "11" "")
                (Some "Skipped 2 invalid decimal value(s)!").
Proof.
  apply (proj1 (unusable_template_skips_all
                  (selected2 bad_template_settings "" "101" " " "11" ""))).
  apply (index_out_of_range "" "1" ":x}"); [reflexivity | reflexivity | | reflexivity].
  vm_compute. discriminate.
Defined.

(** ** ExpToDec needs a decimal point *)

Lemma char_in_absent (c : ascii) (t : string) :
  Py.char_in c t = false -> forall i, String.get i t <> Some c.
Proof.
  induction t as [| d t IH]; simpl; intros H i; [discriminate |].
  apply orb_false_elim in H as [Hd Ht].
  destruct i as [| i]; [| now apply IH].
  intros Heq. inversion Heq; subst. now rewrite Ascii.eqb_refl in Hd.
Qed.

Lemma exp_default_needs_point (t : string) :
  Py.char_in "." t = false -> re_match exp_default t = None.
Proof.
  intros Ht. cbn [re_match sre_engine]. unfold Sre.match_, Sre.exec.
  cbn [Sre.prog exp_default].
  rewrite run_seq.
  match goal with |- option_map _ ?r = None => assert (Hr : r = None) end;
    [| now rewrite Hr].
  apply run_fails. intros st.
  rewrite run_seq, run_group, run_seq.
  apply run_fails. intros st'.
  rewrite run_seq. apply run_char_absent. now apply char_in_absent.
Qed.

(** X9: the default exponential pattern asks for digits on both sides
    of a decimal point, so ExpToDec skips every selection whose text has no
    point in it, a number in exponential form with a whole mantissa such as
    [5e3] included. *)
Theorem ExpToDec_needs_point (pre t post : string) :
  nonempty t = true ->
  Py.char_in "." t = false ->
  ExpToDecCommand_run (selected no_settings pre t post)
  = Finished (selected no_settings pre t post) (skipped 1 "exponential").
Proof.
  intros Hne Ht. apply ExpToDec_run_no_match; [exact Hne |].
  now apply exp_default_needs_point.
Qed.

Lemma ExpToDec_needs_point_witness :
  ExpToDecCommand_run (selected no_settings "x = " "5e3" ";")
  = Finished (selected no_settings "x = " "5e3" ";") (skipped 1 "exponential").
Proof.
  apply (ExpToDec_needs_point "x = " "5e3" ";"); reflexivity.
Defined.

(** ** DecToExp on a single selection *)

Lemma normalize_more_fuel (f j : nat) (x : F64.float) (r : F64.float * Z) :
  normalize f x = Some r -> normalize (f + j) x = Some r.
Proof.
  unfold normalize.
  destruct (divide_down f x 0) as [[b e] |] eqn:Hd; [| discriminate].
  rewrite (divide_down_more_fuel f j _ _ _ Hd). apply multiply_up_more_fuel.
Qed.

Lemma DecToExp_run_normal (f fuel : nat) (pre t post : string) (x b : F64.float) (e : Z) :
  nonempty t = true ->
  F64.of_string t = Some x ->
  normalize f x = Some (b, e) ->
  (f <= fuel)%nat ->
  run fuel DecToExp (selected no_settings pre t post)
  = Finished (selected no_settings pre (strip_float b ++ "e" ++ Py.str e) post) None.
Proof.
  intros Hne Ht Hn Hf. unfold run, DecToExpCommand_run.
  apply convert_all_replaced; [exact Hne |].
  rewrite (DecToExp_convert_text _ _ _ _ t);
    [| now apply span_nonempty | apply view_substr_selected].
  rewrite Ht. replace fuel with (f + (fuel - f))%nat by lia.
  now rewrite (normalize_more_fuel f (fuel - f) x _ Hn).
Qed.

Lemma DecToExp_run_text (f fuel : nat) (pre t post out : string) :
  nonempty t = true -> (f <= fuel)%nat ->
  DecToExp_text f t = Some out ->
  run fuel DecToExp (selected no_settings pre t post)
  = Finished (selected no_settings pre out post) None.
Proof.
  intros Hne Hf. unfold DecToExp_text.
  destruct (F64.of_string t) as [x |] eqn:Hx; [| discriminate].
  destruct (normalize f x) as [[b e] |] eqn:Hn; [| discriminate].
  intros H. inversion H; subst. now apply (DecToExp_run_normal f fuel pre t post x b e).
Qed.

Lemma ExpToDec_run_text (pre t post out : string) :
  nonempty t = true ->
  ExpToDec_text t = Some out ->
  ExpToDecCommand_run (selected no_settings pre t post)
  = Finished (selected no_settings pre out post) None.
Proof.
  intros Hne. unfold ExpToDec_text, ExpToDecCommand_run.
  rewrite exp_default_loaded by reflexivity.
  intros H. apply convert_all_replaced; [exact Hne |].
  rewrite (ExpToDec_convert_text _ _ _ t);
    [| now apply span_nonempty | apply view_substr_selected].
  cbn [pow10 rounded_libm].
  destruct (re_match exp_default t) as [m |]; [| discriminate].
  destruct (m 1%nat) as [g1 |]; [| discriminate].
  destruct (m 2%nat) as [g2 |]; [| discriminate].
  destruct (F64.of_string g1) as [x |]; [| discriminate].
  destruct (F64.of_string g2) as [y |]; [| discriminate].
  destruct (F64.pow10 y) as [p |]; [| discriminate].
  now inversion H.
Qed.

Lemma ExpToDec_run_skip (pre t post : string) :
  nonempty t = true ->
  ExpToDec_text t = None ->
  ExpToDecCommand_run (selected no_settings pre t post)
  = Finished (selected no_settings pre t post) (skipped 1 "exponential").
Proof.
  intros Hne. unfold ExpToDec_text, ExpToDecCommand_run.
  rewrite exp_default_loaded by reflexivity.
  intros H. apply convert_all_raised.
  rewrite (ExpToDec_convert_text _ _ _ t);
    [| now apply span_nonempty | apply view_substr_selected].
  cbn [pow10 rounded_libm].
  destruct (re_match exp_default t) as [m |]; [| reflexivity].
  destruct (m 1%nat) as [g1 |]; [| reflexivity].
  destruct (F64.of_string g1) as [x |].
  - destruct (m 2%nat) as [g2 |]; [| reflexivity].
    destruct (F64.of_string g2) as [y |]; [| reflexivity].
    destruct (F64.pow10 y) as [p |]; [discriminate | reflexivity].
  - reflexivity.
Qed.

(** ** Whole mantissas *)

(** X10: for a whole number from 1 to 10 neither loop of DecToExp runs,
    and the mantissa is written without a decimal point, followed by [e0];
    ExpToDec, whose pattern asks for a point, skips what DecToExp wrote. *)
Theorem whole_mantissa_not_read_back (fuel : nat) (pre post : string) (k : Z) :
  1 <= k <= 10 ->
  (1 <= fuel)%nat ->
  run fuel DecToExp (selected no_settings pre (Py.str k) post)
  = Finished (selected no_settings pre (Py.str k ++ "e0") post) None
  /\ run fuel ExpToDec (selected no_settings pre (Py.str k ++ "e0") post)
     = Finished (selected no_settings pre (Py.str k ++ "e0") post)
                (skipped 1 "exponential").
Proof.
  intros Hk Hf.
  assert (H : k = 1 \/ k = 2 \/ k = 3 \/ k = 4 \/ k = 5 \/ k = 6 \/ k = 7 \/ k = 8
              \/ k = 9 \/ k = 10) by lia.
  repeat (destruct H as [-> | H]); try subst k;
    (split;
     [ apply (DecToExp_run_text 1 fuel); [reflexivity | exact Hf | vm_compute; reflexivity]
     | apply ExpToDec_run_no_match; [reflexivity | now apply exp_default_needs_point] ]).
Qed.

Lemma whole_mantissa_not_read_back_witness :
  run 1 DecToExp (selected no_settings "x = " (Py.str 5) ";")
  = Finished (selected no_settings "x = " (Py.str 5 ++ "e0") ";") None
  /\ run 1 ExpToDec (selected no_settings "x = " (Py.str 5 ++ "e0") ";")
     = Finished (selected no_settings "x = " (Py.str 5 ++ "e0") ";")
                (skipped 1 "exponential").
Proof.
  apply (whole_mantissa_not_read_back 1 "x = " ";" 5); lia.
Defined.

(** ** Powers of ten *)

(** X11: the first loop of DecToExp divides while the value is greater
    than ten, so it stops at ten: a power of ten from 10 to 10^22, written as
    a one followed by zeros, comes out with the mantissa [10] and an exponent
    one less than the number of zeros, not with the mantissa [1]; and ExpToDec
    skips what DecToExp wrote, for want of a decimal point. *)
Theorem power_of_ten_keeps_mantissa_ten (fuel j : nat) (pre post : string) :
  (1 <= j <= 22)%nat ->
  (j <= fuel)%nat ->
  run fuel DecToExp (selected no_settings pre (String "1" (F64.zeros j)) post)
  = Finished (selected no_settings pre ("10e" ++ Py.str (Z.of_nat j - 1)) post) None
  /\ run fuel ExpToDec (selected no_settings pre ("10e" ++ Py.str (Z.of_nat j - 1)) post)
     = Finished (selected no_settings pre ("10e" ++ Py.str (Z.of_nat j - 1)) post)
                (skipped 1 "exponential").
Proof.
  intros Hj Hf.
  do 23 (destruct j as [| j];
         [ try lia;
           (split;
            [ eapply DecToExp_run_text; [reflexivity | exact Hf | vm_compute; reflexivity]
            | apply ExpToDec_run_no_match;
              [reflexivity | now apply exp_default_needs_point] ])
         | ]).
  lia.
Qed.

Lemma power_of_ten_keeps_mantissa_ten_witness :
  run 2 DecToExp (selected no_settings "" (String "1" (F64.zeros 2)) "")
  = Finished (selected no_settings "" ("10e" ++ Py.str (Z.of_nat 2 - 1)) "") None
  /\ run 2 ExpToDec (selected no_settings "" ("10e" ++ Py.str (Z.of_nat 2 - 1)) "")
     = Finished (selected no_settings "" ("10e" ++ Py.str (Z.of_nat 2 - 1)) "")
                (skipped 1 "exponential").
Proof.
  apply (power_of_ten_keeps_mantissa_ten 2 2 "" ""); lia.
Defined.

(** ** Results in exponent notation *)

(** X12: [str] writes a float of 1e16 or more in exponent notation, and
    the trailing zeros that ExpToDec strips are then those of the exponent:
    for the exponents 20, 30, ..., 90 the selection [1.0e20] ... [1.0e90] is
    replaced with [1e+2] ... [1e+9], a different number. *)
Theorem exponent_zeros_stripped (pre post : string) (j : Z) :
  2 <= j <= 9 ->
  ExpToDecCommand_run (selected no_settings pre ("1.0e" ++ Py.str (10 * j)) post)
  = Finished (selected no_settings pre ("1e+" ++ Py.str j) post) None.
Proof.
  intros Hj.
  assert (H : j = 2 \/ j = 3 \/ j = 4 \/ j = 5 \/ j = 6 \/ j = 7 \/ j = 8 \/ j = 9) by lia.
  repeat (destruct H as [-> | H]); try subst j;
    (apply ExpToDec_run_text; [reflexivity | vm_compute; reflexivity]).
Qed.

Lemma exponent_zeros_stripped_witness :
  ExpToDecCommand_run (selected no_settings "" ("1.0e" ++ Py.str (10 * 2)) "")
  = Finished (selected no_settings "" ("1e+" ++ Py.str 2) "") None.
Proof.
  apply (exponent_zeros_stripped "" "" 2). lia.
Defined.

(** ** The mantissa DecToExp writes *)








(** ** Literals under the default exponential pattern *)

Section Pieces.
Variable subj : string.
Implicit Types (k : Sre.mstate -> option Sre.mstate).

(** A run [s] of characters of a class between [pfx] and [rest]. *)
Lemma run_plus_piece (pfx s rest : string) (p : ascii -> bool)
    (rs : list (ascii * ascii)) k (pos : nat) (cs : list (nat * string))
    (res : Sre.mstate) :
  subj = pfx ++ s ++ rest -> pos = String.length pfx ->
  nonempty s = true -> all_chars p s = true ->
  (forall c, p c = true -> xorb false (Sre.in_ranges c rs) = true) ->
  (forall c, String.get 0 rest = Some c -> xorb false (Sre.in_ranges c rs) = false) ->
  k {| Sre.pos := pos + String.length s; Sre.caps := cs |} = Some res ->
  Sre.run subj (Sre.RSeq (Sre.RSet false rs) (Sre.RStar (Sre.RSet false rs))) k
    {| Sre.pos := pos; Sre.caps := cs |} = Some res.
Proof.
  intros -> -> Hne Hall Hin Hout Hk.
  assert (Hlen : (0 < String.length s)%nat) by (destruct s; [discriminate | simpl; lia]).
  apply (run_plus_upto _ false rs k (String.length pfx + String.length s));
    cbn [Sre.pos Sre.caps]; [| | rewrite !length_append; lia | exact Hk].
  - intros j c Hj Hc. apply Hin.
    rewrite get_append_at in Hc by lia.
    apply (get_inside p s rest (j - String.length pfx) c Hall); [lia | exact Hc].
  - intros c Hc. apply Hout.
    rewrite get_append_at in Hc by lia.
    replace (String.length pfx + String.length s - String.length pfx)%nat
      with (String.length s) in Hc by lia.
    rewrite get_append_at, Nat.sub_diag in Hc by lia. exact Hc.
Qed.

Lemma run_char_piece (pfx rest : string) (c : ascii) k (pos : nat)
    (cs : list (nat * string)) :
  subj = pfx ++ String c rest -> pos = String.length pfx ->
  Sre.run subj (Sre.RChar c) k {| Sre.pos := pos; Sre.caps := cs |}
  = k {| Sre.pos := S pos; Sre.caps := cs |}.
Proof.
  intros -> ->. rewrite run_char_hit; [reflexivity |].
  cbn [Sre.pos]. now rewrite get_append_at, Nat.sub_diag by lia.
Qed.

Lemma piece_get (pfx rest : string) (pos : nat) :
  subj = pfx ++ rest -> pos = String.length pfx ->
  String.get pos subj = String.get 0 rest.
Proof.
  intros -> ->. now rewrite get_append_at, Nat.sub_diag by lia.
Qed.

Lemma piece_substring (pfx s rest : string) (i n : nat) :
  subj = pfx ++ s ++ rest -> i = String.length pfx -> n = String.length s ->
  substring i n subj = s.
Proof.
  intros -> -> ->. apply substring_middle.
Qed.
End Pieces.

Lemma digit_in_class (c : ascii) :
  Py.is_digit c = true -> xorb false (Sre.in_ranges c [("0", "9")]%char) = true.
Proof.
  destruct c as [[] [] [] [] [] [] [] []]; vm_compute; intros H;
    try discriminate; reflexivity.
Qed.

Lemma digit_is_word (c : ascii) : Py.is_digit c = true -> Py.is_word c = true.
Proof. intros H. unfold Py.is_word. now rewrite H. Qed.

Lemma digit_not_sign (c : ascii) :
  Py.is_digit c = true ->
  xorb false (Sre.in_ranges c [("-", "-"); ("+", "+")]%char) = false.
Proof.
  destruct c as [[] [] [] [] [] [] [] []]; vm_compute; intros H;
    try discriminate; reflexivity.
Qed.

Lemma is_sign_cases (s : string) : is_sign s = true -> s = "" \/ s = "-" \/ s = "+".
Proof.
  unfold is_sign. intros H.
  apply orb_prop in H as [H | H]; [apply orb_prop in H as [H | H] |];
    apply String.eqb_eq in H; auto.
Qed.

Lemma first_of_all (p : ascii -> bool) (s rest : string) (c : ascii) :
  nonempty s = true -> all_chars p s = true ->
  String.get 0 (s ++ rest) = Some c -> p c = true.
Proof.
  destruct s as [| d s]; [discriminate |]. simpl. intros _ H Hc.
  apply andb_prop in H as [Hd _]. now inversion Hc; subst.
Qed.

(** The default exponential pattern matches a literal as a whole: the
    first group holds the mantissa with its point, the second the exponent
    with its sign. *)
Lemma exp_default_matches (ip fp sign ed : string) :
  nonempty ip = true -> all_chars Py.is_digit ip = true ->
  nonempty fp = true -> all_chars Py.is_digit fp = true ->
  is_sign sign = true ->
  nonempty ed = true -> all_chars Py.is_digit ed = true ->
  exists g,
    re_match exp_default (exp_literal ip fp sign ed) = Some g
    /\ g 1%nat = Some (ip ++ "." ++ fp)
    /\ g 2%nat = Some (sign ++ ed).
Proof.
  intros Hip Dip Hfp Dfp Hsign Hed Ded.
  set (t := exp_literal ip fp sign ed).
  set (n1 := String.length ip).
  set (n2 := (n1 + 1 + String.length fp)%nat).
  set (n3 := (n2 + 1 + String.length sign)%nat).
  assert (T1 : t = "" ++ ip ++ "." ++ fp ++ "e" ++ sign ++ ed) by reflexivity.
  assert (T2 : t = ip ++ String "." (fp ++ "e" ++ sign ++ ed)) by reflexivity.
  assert (T3 : t = (ip ++ ".") ++ fp ++ "e" ++ sign ++ ed)
    by (unfold t, exp_literal; now rewrite !append_assoc).
  assert (T4 : t = (ip ++ "." ++ fp) ++ String "e" (sign ++ ed))
    by (unfold t, exp_literal; now rewrite !append_assoc).
  assert (T5 : t = (ip ++ "." ++ fp ++ "e") ++ sign ++ ed)
    by (unfold t, exp_literal; now rewrite !append_assoc).
  assert (T6 : t = (ip ++ "." ++ fp ++ "e" ++ sign) ++ ed ++ "")
    by (unfold t, exp_literal; now rewrite !append_assoc, append_nil_r).
  assert (L3 : String.length (ip ++ ".") = (n1 + 1)%nat)
    by (rewrite length_append; reflexivity).
  assert (L4 : String.length (ip ++ "." ++ fp) = n2)
    by (rewrite !length_append; unfold n2, n1; simpl; lia).
  assert (L5 : String.length (ip ++ "." ++ fp ++ "e") = (n2 + 1)%nat)
    by (rewrite !length_append; unfold n2, n1; simpl; lia).
  assert (L6 : String.length (ip ++ "." ++ fp ++ "e" ++ sign) = n3)
    by (rewrite !length_append; unfold n3, n2, n1; simpl; lia).
  assert (Lt : String.length t = (n3 + String.length ed)%nat)
    by (rewrite T6, length_append, L6, length_append; simpl; lia).
  assert (Hend : Sre.boundary t (n3 + String.length ed) = true).
  { rewrite <- Lt. apply boundary_end; [| now destruct ip].
    intros c Hc. apply digit_is_word. revert Hc.
    rewrite T6, last_append by (now destruct ed).
    rewrite append_nil_r. now apply last_of_all. }
  assert (Hdigits : forall cs k res,
             k {| Sre.pos := n3 + String.length ed; Sre.caps := cs |} = Some res ->
             Sre.run t (Sre.RSeq (Sre.RSet false [("0", "9")]%char)
                                 (Sre.RStar (Sre.RSet false [("0", "9")]%char))) k
               {| Sre.pos := n3; Sre.caps := cs |} = Some res).
  { intros cs k res Hk.
    apply (run_plus_piece t (ip ++ "." ++ fp ++ "e" ++ sign) ed "" Py.is_digit);
      try assumption; [now rewrite L6 | apply digit_in_class | discriminate]. }
  assert (Hsigned : forall cs k res,
             k {| Sre.pos := n3 + String.length ed; Sre.caps := cs |} = Some res ->
             Sre.run t
               (Sre.RSeq
                  (Sre.RAlt (Sre.RSet false [("-", "-"); ("+", "+")]%char) Sre.REmpty)
                  (Sre.RSeq (Sre.RSet false [("0", "9")]%char)
                            (Sre.RStar (Sre.RSet false [("0", "9")]%char)))) k
               {| Sre.pos := n2 + 1; Sre.caps := cs |} = Some res).
  { intros cs k res Hk. rewrite run_seq.
    destruct (is_sign_cases sign Hsign) as [Hs | [Hs | Hs]].
    - rewrite run_alt_second, run_empty.
      + replace (n2 + 1)%nat with n3 by (unfold n3; rewrite Hs; simpl; lia).
        now apply Hdigits.
      + apply run_set_miss. cbn [Sre.pos]. intros c Hc.
        rewrite (piece_get t (ip ++ "." ++ fp ++ "e") (sign ++ ed)) in Hc;
          [| exact T5 | now rewrite L5].
        rewrite Hs in Hc. cbn [append] in Hc.
        apply digit_not_sign. exact (get_all_chars Py.is_digit ed 0 c Ded Hc).
    - apply run_alt_first.
      rewrite (run_set_hit t false _ _ _ "-");
        [| cbn [Sre.pos];
           rewrite (piece_get t (ip ++ "." ++ fp ++ "e") (sign ++ ed));
           [now rewrite Hs | exact T5 | now rewrite L5]
         | reflexivity].
      unfold Sre.advance. cbn [Sre.pos Sre.caps].
      replace (S (n2 + 1)) with n3 by (unfold n3; rewrite Hs; simpl; lia).
      now apply Hdigits.
    - apply run_alt_first.
      rewrite (run_set_hit t false _ _ _ "+");
        [| cbn [Sre.pos];
           rewrite (piece_get t (ip ++ "." ++ fp ++ "e") (sign ++ ed));
           [now rewrite Hs | exact T5 | now rewrite L5]
         | reflexivity].
      unfold Sre.advance. cbn [Sre.pos Sre.caps].
      replace (S (n2 + 1)) with n3 by (unfold n3; rewrite Hs; simpl; lia).
      now apply Hdigits. }
  assert (Hexec : exists st,
             Sre.exec t (Sre.prog exp_default) = Some st
             /\ Sre.lookup 1 (Sre.caps st) = Some (ip ++ "." ++ fp)
             /\ Sre.lookup 2 (Sre.caps st) = Some (sign ++ ed)).
  { unfold Sre.exec. cbn [Sre.prog exp_default].
    eexists. split.
    - rewrite run_seq, run_boundary.
      2:{ cbn [Sre.pos]. unfold t, exp_literal.
          destruct ip as [| c ip]; [discriminate |]. cbn [append].
          apply boundary_start, digit_is_word.
          cbn in Dip. now apply andb_prop in Dip as [Hc _]. }
      rewrite run_seq, run_group, run_seq.
      apply (run_plus_piece t "" ip ("." ++ fp ++ "e" ++ sign ++ ed) Py.is_digit);
        try assumption; try reflexivity; [apply digit_in_class | now intros c [= <-] |].
      rewrite run_seq.
      rewrite (run_char_piece t ip (fp ++ "e" ++ sign ++ ed) ".") by reflexivity.
      apply (run_plus_piece t (ip ++ ".") fp ("e" ++ sign ++ ed) Py.is_digit);
        try assumption; [cbn; lia | apply digit_in_class | now intros c [= <-] |].
      unfold Sre.set_cap. cbn [Sre.pos Sre.caps].
      replace (S (0 + String.length ip) + String.length fp)%nat with n2
        by (unfold n2, n1; lia).
      rewrite run_seq.
      rewrite (run_char_piece t (ip ++ "." ++ fp) (sign ++ ed) "e");
        [| exact T4 | now rewrite L4].
      rewrite run_seq, run_group. cbn [Sre.pos Sre.caps].
      replace (S n2) with (n2 + 1)%nat by lia.
      apply Hsigned. unfold Sre.set_cap. cbn [Sre.pos Sre.caps].
      rewrite run_boundary by exact Hend. reflexivity.
    - cbn [Sre.set_cap Sre.caps Sre.pos Sre.lookup Nat.eqb]. split; f_equal.
      + apply (piece_substring t "" (ip ++ "." ++ fp) ("e" ++ sign ++ ed));
          [unfold t, exp_literal; cbn [append]; now rewrite !append_assoc
          | reflexivity | rewrite L4; lia].
      + apply (piece_substring t (ip ++ "." ++ fp ++ "e") (sign ++ ed) "");
          [now rewrite append_nil_r | now rewrite L5
          | rewrite length_append; unfold n3; lia]. }
  destruct Hexec as (st & Hst & Hc1 & Hc2).
  exists (fun n => Sre.lookup n (Sre.caps st)). split; [| split].
  - cbn [re_match sre_engine]. unfold Sre.match_. fold t. now rewrite Hst.
  - exact Hc1.
  - exact Hc2.
Qed.

(** ** Reading the groups as floats *)

Lemma all_chars_app (p : ascii -> bool) (s t : string) :
  all_chars p (s ++ t) = all_chars p s && all_chars p t.
Proof.
  induction s as [| c s IH]; simpl; [reflexivity |].
  now rewrite IH, andb_assoc.
Qed.

Lemma digit_facts (c : ascii) :
  Py.is_digit c = true ->
  Py.is_space c = false /\ Ascii.eqb c "-" = false /\ Ascii.eqb c "+" = false
  /\ F64.to_lower c = c /\ Ascii.eqb c "i" = false /\ Ascii.eqb c "n" = false
  /\ Ascii.eqb c "." = false.
Proof.
  destruct c as [[] [] [] [] [] [] [] []]; vm_compute; intros H;
    try discriminate; repeat split.
Qed.

Lemma digits_no_space (s : string) :
  all_chars Py.is_digit s = true ->
  all_chars (fun c => negb (Py.is_space c)) s = true.
Proof.
  apply all_chars_impl. intros c Hc.
  destruct (digit_facts c Hc) as (Hs & _). now rewrite Hs.
Qed.

Lemma strip_no_space (s : string) :
  all_chars (fun c => negb (Py.is_space c)) s = true -> Py.strip s = s.
Proof.
  intros H. unfold Py.strip. now rewrite lstrip_plain, rstrip_plain.
Qed.

(** A text that starts with a digit is neither [inf] nor [nan]. *)
Lemma digit_head_not_special (c : ascii) (rest : string) :
  Py.is_digit c = true ->
  (String.eqb (F64.lower (String c rest)) "inf"
   || String.eqb (F64.lower (String c rest)) "infinity") = false
  /\ String.eqb (F64.lower (String c rest)) "nan" = false.
Proof.
  intros Hc. destruct (digit_facts c Hc) as (_ & _ & _ & Hl & Hi & Hn & _).
  cbn [F64.lower String.eqb]. rewrite Hl, Hi, Hn. now split.
Qed.

Lemma span_digits_app (s rest : string) :
  all_chars Py.is_digit s = true ->
  (forall c, String.get 0 rest = Some c -> Py.is_digit c = false) ->
  F64.span_digits (s ++ rest) = (s, rest).
Proof.
  intros Hs Hrest. induction s as [| c s IH]; cbn [append].
  - destruct rest as [| d rest]; [reflexivity |].
    cbn [F64.span_digits]. now rewrite (Hrest d eq_refl).
  - cbn in Hs. apply andb_prop in Hs as [Hc Hs].
    cbn [F64.span_digits]. now rewrite Hc, (IH Hs).
Qed.

Lemma span_digits_all (s : string) :
  all_chars Py.is_digit s = true -> F64.span_digits s = (s, "").
Proof.
  intros Hs. rewrite <- (append_nil_r s) at 1.
  apply span_digits_app; [exact Hs | discriminate].
Qed.

(** [float] on digits, a point and digits. *)
Lemma of_string_mantissa (ip fp : string) :
  nonempty ip = true -> all_chars Py.is_digit ip = true ->
  all_chars Py.is_digit fp = true ->
  F64.of_string (ip ++ "." ++ fp)
  = Some (F64.of_decimal false (F64.digits_value (ip ++ fp)) (- Z.of_nat (String.length fp))).
Proof.
  intros Hne Dip Dfp. unfold F64.of_string.
  rewrite strip_no_space
    by (rewrite !all_chars_app, (digits_no_space ip Dip), (digits_no_space fp Dfp);
        reflexivity).
  destruct ip as [| c ip]; [discriminate |].
  pose proof Dip as Dip'. cbn in Dip'. apply andb_prop in Dip' as [Hc _].
  destruct (digit_facts c Hc) as (_ & Hm & Hp & _).
  cbn [append Py.split_sign]. rewrite Hm, Hp. cbv beta iota zeta.
  destruct (digit_head_not_special c (ip ++ String "." fp) Hc) as [H1 H2].
  rewrite H1, H2. cbv beta iota.
  change (String c (ip ++ String "." fp)) with (String c ip ++ String "." fp).
  rewrite (span_digits_app (String c ip) (String "." fp) Dip) by (now intros d [= <-]).
  rewrite (span_digits_all fp Dfp).
  reflexivity.
Qed.

(** [float] on digits after an optional sign. *)
Lemma of_string_exponent (sign ed : string) :
  is_sign sign = true -> nonempty ed = true -> all_chars Py.is_digit ed = true ->
  F64.of_string (sign ++ ed)
  = Some (F64.of_decimal (String.eqb sign "-") (F64.digits_value ed) 0).
Proof.
  intros Hs Hne Ded. unfold F64.of_string.
  assert (Hstrip : Py.strip (sign ++ ed) = sign ++ ed).
  { apply strip_no_space. rewrite all_chars_app, (digits_no_space ed Ded).
    destruct (is_sign_cases sign Hs) as [-> | [-> | ->]]; reflexivity. }
  rewrite Hstrip.
  destruct ed as [| c ed]; [discriminate |].
  pose proof Ded as Ded'. cbn in Ded'. apply andb_prop in Ded' as [Hc _].
  destruct (digit_facts c Hc) as (_ & Hm & Hp & _ & _ & _ & Hdot).
  destruct (digit_head_not_special c ed Hc) as [H1 H2].
  assert (Hbody : Py.split_sign (sign ++ String c ed) = (String.eqb sign "-", String c ed)).
  { destruct (is_sign_cases sign Hs) as [-> | [-> | ->]]; cbn; [| reflexivity..].
    now rewrite Hm, Hp. }
  rewrite Hbody. cbv beta iota zeta. rewrite H1, H2. cbv beta iota.
  rewrite (span_digits_all (String c ed) Ded).
  cbn [append]. rewrite append_nil_r. reflexivity.
Qed.

(** The digits that [float] reads denote their number. *)
Lemma digits_value_numeral (s : string) :
  all_chars Py.is_digit s = true -> F64.digits_value s = numeral 10 s.
Proof.
  intros Hall. unfold F64.digits_value.
  rewrite parse_digits_numeral; [lia | lia |].
  revert Hall. apply all_chars_impl, dec_digit_of.
Qed.

(** The float of a whole number written in digits. *)
Lemma of_decimal_whole (n : Z) : 0 <= n -> F64.of_decimal false n 0 = F64.of_Z n.
Proof.
  intros Hn. unfold F64.of_decimal, F64.of_Z.
  destruct n as [| p | p]; [reflexivity | | lia].
  cbn [Z.leb Z.compare]. now rewrite Z.pow_0_r, Z.mul_1_r.
Qed.

(** ExpToDec on a selection that the default pattern matches, when the
    power raises. *)
Lemma ExpToDec_run_raises {L : Libm} (pre t post : string) (g : nat -> option string)
    (g1 g2 : string) (mantissa exponent : F64.float) :
  nonempty t = true ->
  re_match exp_default t = Some g ->
  g 1%nat = Some g1 ->
  g 2%nat = Some g2 ->
  F64.of_string g1 = Some mantissa ->
  F64.of_string g2 = Some exponent ->
  pow10 exponent = None ->
  ExpToDecCommand_run (selected no_settings pre t post)
  = Finished (selected no_settings pre t post) (skipped 1 "exponential").
Proof.
  intros Hne Hg H1 H2 Hm He Hp.
  unfold ExpToDecCommand_run. rewrite exp_default_loaded by reflexivity.
  apply convert_all_raised.
  rewrite (ExpToDec_convert_text _ _ _ t);
    [| now apply span_nonempty | apply view_substr_selected].
  now rewrite Hg, H1, Hm, H2, He, Hp.
Qed.

(** X14: on a literal made of digits, a point, digits, [e], an optional
    sign and digits, the default pattern matches and both groups are read
    as the floats nearest to the numbers that their digits denote.
    Whatever C library computes the power: when it raises, the literal is
    skipped; otherwise ExpToDec writes the product rounded to 18 decimal
    places, which is the float nearest to the decimal with 18 places that
    is nearest to the product.  With a library that returns the powers of
    ten that are floats, the power is ten to the exponent itself for the
    unsigned exponents up to 22. *)
Theorem ExpToDec_reads_literal {L : Libm} (pre ip fp sign ed post : string) :
  nonempty ip = true -> all_chars Py.is_digit ip = true ->
  nonempty fp = true -> all_chars Py.is_digit fp = true ->
  is_sign sign = true ->
  nonempty ed = true -> all_chars Py.is_digit ed = true ->
  let mantissa :=
    F64.of_decimal false (numeral 10 (ip ++ fp)) (- Z.of_nat (String.length fp)) in
  let exponent := F64.of_decimal (String.eqb sign "-") (numeral 10 ed) 0 in
  let literal := exp_literal ip fp sign ed in
  (pow10 exponent = None ->
   ExpToDecCommand_run (selected no_settings pre literal post)
   = Finished (selected no_settings pre literal post) (skipped 1 "exponential"))
  /\ (forall power : F64.float,
        pow10 exponent = Some power ->
        let result := F64.round (F64.mul mantissa power) 18 in
        rounds_to (F64.mul mantissa power) 18 result
        /\ ExpToDecCommand_run (selected no_settings pre literal post)
           = Finished (selected no_settings pre (strip_float result) post) None)
  /\ (exact_powers L ->
      String.eqb sign "-" = false ->
      numeral 10 ed <= 22 ->
      pow10 exponent = Some (F64.of_Z (10 ^ numeral 10 ed))).
Proof.
  intros Hip Dip Hfp Dfp Hsign Hed Ded mantissa exponent literal.
  destruct (exp_default_matches ip fp sign ed Hip Dip Hfp Dfp Hsign Hed Ded)
    as (g & Hg & Hg1 & Hg2).
  assert (Hne : nonempty literal = true)
    by (unfold literal, exp_literal; now destruct ip).
  assert (Hm : F64.of_string (ip ++ "." ++ fp) = Some mantissa).
  { rewrite (of_string_mantissa ip fp Hip Dip Dfp).
    rewrite digits_value_numeral by (now rewrite all_chars_app, Dip, Dfp).
    reflexivity. }
  assert (He : F64.of_string (sign ++ ed) = Some exponent).
  { rewrite (of_string_exponent sign ed Hsign Hed Ded).
    now rewrite digits_value_numeral by exact Ded. }
  split; [| split].
  - intros Hp.
    exact (ExpToDec_run_raises pre literal post g _ _ mantissa exponent
             Hne Hg Hg1 Hg2 Hm He Hp).
  - intros power Hp result. split; [apply round_rounds; lia |].
    exact (ExpToDec_run_groups pre literal post g _ _ mantissa exponent power
             Hne Hg Hg1 Hg2 Hm He Hp).
  - intros Hexact Hpos Hsmall. unfold exponent. rewrite Hpos.
    assert (0 <= numeral 10 ed) by (apply numeral_nonneg; lia).
    rewrite of_decimal_whole by assumption.
    apply Hexact. lia.
Qed.

Lemma ExpToDec_reads_literal_witness :
  ExpToDecCommand_run (selected no_settings "" "1.23456e-15" "")
  = Finished (selected no_settings "" "1.235e-15" "") None
  /\ ExpToDecCommand_run (selected no_settings "" "1.0e400" "")
     = Finished (selected no_settings "" "1.0e400" "") (skipped 1 "exponential").
Proof.
  pose proof (@ExpToDec_reads_literal rounded_libm "" "1" "23456" "-" "15" ""
                eq_refl eq_refl eq_refl eq_refl eq_refl eq_refl eq_refl) as Hsmall.
  pose proof (@ExpToDec_reads_literal rounded_libm "" "1" "0" "" "400" ""
                eq_refl eq_refl eq_refl eq_refl eq_refl eq_refl eq_refl) as Hbig.
  cbv zeta in Hsmall, Hbig.
  destruct Hsmall as (_ & Hsmall & _). destruct Hbig as (Hbig & _).
  split.
  - change "1.23456e-15" with (exp_literal "1" "23456" "-" "15").
    match type of Hsmall with
    | forall power, ?P = Some power -> _ =>
        eassert (Hp : P = Some _) by (vm_compute; reflexivity)
    end.
    rewrite (proj2 (Hsmall _ Hp)). vm_compute. reflexivity.
  - change "1.0e400" with (exp_literal "1" "0" "" "400").
    apply Hbig. vm_compute. reflexivity.
Defined.

(** ** Scanning outwards *)

Lemma scan_left_spec (p : ascii -> bool) (buf : string) (n : nat) :
  (scan_left p buf n <= n)%nat
  /\ (forall i, (scan_left p buf n <= i < n)%nat ->
                exists c, String.get i buf = Some c /\ p c = true)
  /\ (scan_left p buf n = 0%nat
      \/ forall c, String.get (Nat.pred (scan_left p buf n)) buf = Some c -> p c = false).
Proof.
  induction n as [| n IH]; cbn [scan_left].
  - repeat split; [lia | intros i Hi; lia | now left].
  - destruct (String.get n buf) as [c |] eqn:Hg.
    + destruct (p c) eqn:Hp.
      * destruct IH as (Hle & Hin & Hout). repeat split; [lia | | exact Hout].
        intros i Hi. destruct (Nat.eq_dec i n) as [-> | Hne]; [now exists c |].
        apply Hin. lia.
      * repeat split; [lia | intros i Hi; lia |].
        right. cbn [Nat.pred]. intros d Hd. congruence.
    + repeat split; [lia | intros i Hi; lia |].
      right. cbn [Nat.pred]. intros d Hd. congruence.
Qed.

Lemma scan_left_unique (p : ascii -> bool) (buf : string) (n m : nat) :
  (m <= n)%nat ->
  (forall i, (m <= i < n)%nat -> exists c, String.get i buf = Some c /\ p c = true) ->
  (m = 0%nat \/ forall c, String.get (Nat.pred m) buf = Some c -> p c = false) ->
  scan_left p buf n = m.
Proof.
  intros Hle Hin Hout. induction n as [| n IH]; cbn [scan_left]; [lia |].
  destruct (Nat.eq_dec m (S n)) as [-> | Hne].
  - destruct Hout as [H | H]; [discriminate |]. cbn [Nat.pred] in H.
    destruct (String.get n buf) as [c |]; [| reflexivity].
    now rewrite (H c eq_refl).
  - destruct (Hin n ltac:(lia)) as (c & Hc & Hp). rewrite Hc, Hp.
    apply IH; [lia |]. intros i Hi. apply Hin. lia.
Qed.

Lemma scan_right_spec (p : ascii -> bool) (buf : string) (fuel : nat) :
  forall n,
    (String.length buf - n <= fuel)%nat ->
    (n <= scan_right p buf fuel n)%nat
    /\ (forall i, (n <= i < scan_right p buf fuel n)%nat ->
                  exists c, String.get i buf = Some c /\ p c = true)
    /\ forall c, String.get (scan_right p buf fuel n) buf = Some c -> p c = false.
Proof.
  induction fuel as [| fuel IH]; intros n Hfuel; cbn [scan_right].
  - repeat split; [lia | intros i Hi; lia |].
    intros c Hc. assert (H : String.get n buf = None) by (apply get_none_iff; lia).
    congruence.
  - destruct (String.get n buf) as [c |] eqn:Hg.
    + destruct (p c) eqn:Hp.
      * assert (Hlt : (n < String.length buf)%nat).
        { destruct (Nat.lt_ge_cases n (String.length buf)) as [H | H]; [exact H |].
          apply get_none_iff in H. congruence. }
        destruct (IH (S n) ltac:(lia)) as (Hle & Hin & Hout).
        repeat split; [lia | | exact Hout].
        intros i Hi. destruct (Nat.eq_dec i n) as [-> | Hne]; [now exists c |].
        apply Hin. lia.
      * repeat split; [lia | intros i Hi; lia |]. intros d Hd. congruence.
    + repeat split; [lia | intros i Hi; lia |]. intros d Hd. congruence.
Qed.

Lemma scan_right_unique (p : ascii -> bool) (buf : string) (fuel : nat) :
  forall n m,
    (n <= m)%nat ->
    (forall i, (n <= i < m)%nat -> exists c, String.get i buf = Some c /\ p c = true) ->
    (forall c, String.get m buf = Some c -> p c = false) ->
    (m - n <= fuel)%nat ->
    scan_right p buf fuel n = m.
Proof.
  induction fuel as [| fuel IH]; intros n m Hle Hin Hout Hfuel; cbn [scan_right];
    [lia |].
  destruct (Nat.eq_dec n m) as [-> | Hne].
  - destruct (String.get m buf) as [c |]; [| reflexivity].
    now rewrite (Hout c eq_refl).
  - destruct (Hin n ltac:(lia)) as (c & Hc & Hp). rewrite Hc, Hp.
    apply IH; [lia | | exact Hout | lia]. intros i Hi. apply Hin. lia.
Qed.

(** ** A token between two bounds *)

Section Token.
Variables (q : ascii -> bool) (pre t post : string).
Hypothesis Ht : all_chars q t = true.
Hypothesis Hb : bounded_by q pre post = true.

Let buf := pre ++ t ++ post.

Lemma token_get (i : nat) :
  (String.length pre <= i < String.length pre + String.length t)%nat ->
  exists c, String.get i buf = Some c /\ q c = true.
Proof.
  intros Hi. unfold buf. rewrite get_append_at by lia.
  destruct (get_in_range t (i - String.length pre) ltac:(lia)) as [c Hc].
  exists c. rewrite get_append_left by lia. split; [exact Hc |].
  exact (get_all_chars q t _ c Ht Hc).
Qed.

Lemma token_before :
  String.length pre = 0%nat
  \/ forall c, String.get (Nat.pred (String.length pre)) buf = Some c -> q c = false.
Proof.
  destruct (Nat.eq_dec (String.length pre) 0) as [H0 | Hn0]; [now left | right].
  intros c Hc. unfold buf in Hc. rewrite get_append_left in Hc by lia.
  pose proof Hb as Hb'. unfold bounded_by in Hb'. rewrite Hc in Hb'.
  apply andb_prop in Hb' as [H _]. now apply negb_true_iff in H.
Qed.

Lemma token_after (c : ascii) :
  String.get (String.length pre + String.length t) buf = Some c -> q c = false.
Proof.
  unfold buf. rewrite get_append_at by lia.
  replace (String.length pre + String.length t - String.length pre)%nat
    with (String.length t) by lia.
  rewrite get_append_at, Nat.sub_diag, get_first by lia.
  intros Hc. pose proof Hb as Hb'. unfold bounded_by in Hb'.
  apply andb_prop in Hb' as [_ H]. revert Hc H.
  destruct post as [| d post']; [discriminate |].
  intros Hc H. inversion Hc; subst. now apply negb_true_iff in H.
Qed.

(** From anywhere in the token the scan to the left stops at its start
    and the scan to the right at its end. *)
Lemma scan_left_token (p : nat) :
  (p <= String.length t)%nat ->
  scan_left q buf (String.length pre + p) = String.length pre.
Proof.
  intros Hp. apply scan_left_unique; [lia | | exact token_before].
  intros i Hi. apply token_get. lia.
Qed.

Lemma scan_right_token (p fuel : nat) :
  (p <= String.length t)%nat -> (String.length t - p <= fuel)%nat ->
  scan_right q buf fuel (String.length pre + p)
  = (String.length pre + String.length t)%nat.
Proof.
  intros Hp Hf. apply scan_right_unique; [lia | | exact token_after | lia].
  intros i Hi. apply token_get. lia.
Qed.

(** A scan over a narrower class from inside the token stays inside. *)
Lemma scan_left_inside (r : ascii -> bool) (p : nat) :
  (forall c, r c = true -> q c = true) ->
  (p <= String.length t)%nat ->
  exists p', (p' <= p)%nat /\ scan_left r buf (String.length pre + p)
                              = (String.length pre + p')%nat.
Proof.
  intros Hrq Hp.
  destruct (scan_left_spec r buf (String.length pre + p)) as (Hle & Hin & _).
  set (m := scan_left r buf (String.length pre + p)) in *.
  destruct (Nat.le_gt_cases (String.length pre) m) as [Hge | Hlt].
  - exists (m - String.length pre)%nat. split; lia.
  - exfalso. destruct token_before as [H0 | Hbefore]; [lia |].
    destruct (Hin (Nat.pred (String.length pre)) ltac:(lia)) as (c & Hc & Hr).
    specialize (Hrq c Hr). now rewrite (Hbefore c Hc) in Hrq.
Qed.

Lemma scan_right_inside (r : ascii -> bool) (p fuel : nat) :
  (forall c, r c = true -> q c = true) ->
  (p <= String.length t)%nat ->
  (String.length buf - (String.length pre + p) <= fuel)%nat ->
  exists p', (p <= p' <= String.length t)%nat
             /\ scan_right r buf fuel (String.length pre + p)
                = (String.length pre + p')%nat.
Proof.
  intros Hrq Hp Hf.
  destruct (scan_right_spec r buf fuel (String.length pre + p) Hf) as (Hle & Hin & _).
  set (m := scan_right r buf fuel (String.length pre + p)) in *.
  destruct (Nat.le_gt_cases m (String.length pre + String.length t)) as [Hge | Hlt].
  - exists (m - String.length pre)%nat. split; lia.
  - exfalso.
    destruct (Hin (String.length pre + String.length t)%nat ltac:(lia)) as (c & Hc & Hr).
    specialize (Hrq c Hr). now rewrite (token_after c Hc) in Hrq.
Qed.
End Token.

Lemma bounded_by_weaken (q r : ascii -> bool) (pre post : string) :
  (forall c, r c = true -> q c = true) ->
  bounded_by q pre post = true -> bounded_by r pre post = true.
Proof.
  intros Hrq. unfold bounded_by. intros H. apply andb_prop in H as [H1 H2].
  assert (Hneg : forall c, negb (q c) = true -> negb (r c) = true).
  { intros c Hc. destruct (r c) eqn:Hr; [| reflexivity].
    now rewrite (Hrq c Hr) in Hc. }
  apply andb_true_intro. split.
  - destruct (String.get (Nat.pred (String.length pre)) pre); [now apply Hneg | reflexivity].
  - destruct post; [reflexivity | now apply Hneg].
Qed.

(** ** The region a cursor grows to *)

(** The cursor [p] characters into [t]. *)
Lemma cursor_sel (st : string -> option value) (pre t post : string) (p : Z) :
  sel (cursor_in st pre t post p)
  = [{| a := Z.of_nat (String.length pre) + p; b := Z.of_nat (String.length pre) + p |}].
Proof. reflexivity. Qed.

Section Growth.
Variables (st : string -> option value) (pre t post : string) (p : Z).
Hypothesis Hp : 0 <= p <= Z.of_nat (String.length t).

Let view := cursor_in st pre t post p.
Let x := Z.of_nat (String.length pre) + p.

Lemma extend_left_token (q : ascii -> bool) (k : nat) :
  all_chars q t = true -> bounded_by q pre post = true ->
  (k <= String.length t)%nat ->
  extend_left q view (Z.of_nat (String.length pre + k)) = Z.of_nat (String.length pre).
Proof.
  intros Ht Hb Hk. unfold extend_left.
  destruct (Z.leb_spec (Z.of_nat (String.length pre + k)) 0) as [H0 | H0]; [lia |].
  rewrite Nat2Z.id. cbn [buffer view cursor_in].
  now rewrite (scan_left_token q pre t post Ht Hb k Hk).
Qed.

Lemma extend_right_token (q : ascii -> bool) (k : nat) :
  all_chars q t = true -> bounded_by q pre post = true ->
  (k <= String.length t)%nat ->
  extend_right q view (Z.of_nat (String.length pre + k))
  = Z.of_nat (String.length pre + String.length t).
Proof.
  intros Ht Hb Hk. unfold extend_right.
  destruct (Z.ltb_spec (Z.of_nat (String.length pre + k)) 0) as [H0 | H0]; [lia |].
  rewrite Nat2Z.id. cbn [buffer view cursor_in].
  rewrite (scan_right_token q pre t post Ht Hb k); [reflexivity | exact Hk |].
  rewrite !length_append. lia.
Qed.

Lemma extend_left_inside (q r : ascii -> bool) :
  all_chars q t = true -> bounded_by q pre post = true ->
  (forall c, r c = true -> q c = true) ->
  exists k, (k <= String.length t)%nat
            /\ extend_left r view x = Z.of_nat (String.length pre + k).
Proof.
  intros Ht Hb Hrq. unfold extend_left, x.
  destruct (Z.leb_spec (Z.of_nat (String.length pre) + p) 0) as [H0 | H0].
  - exists 0%nat. split; lia.
  - replace (Z.to_nat (Z.of_nat (String.length pre) + p))
      with (String.length pre + Z.to_nat p)%nat by lia.
    cbn [buffer view cursor_in].
    destruct (scan_left_inside q pre t post Hb r (Z.to_nat p) Hrq ltac:(lia))
      as (k & Hk & Hs).
    exists k. rewrite Hs. split; lia.
Qed.

Lemma extend_right_inside (q r : ascii -> bool) :
  all_chars q t = true -> bounded_by q pre post = true ->
  (forall c, r c = true -> q c = true) ->
  exists k, (k <= String.length t)%nat
            /\ extend_right r view x = Z.of_nat (String.length pre + k).
Proof.
  intros Ht Hb Hrq. unfold extend_right, x.
  destruct (Z.ltb_spec (Z.of_nat (String.length pre) + p) 0) as [H0 | H0]; [lia |].
  replace (Z.to_nat (Z.of_nat (String.length pre) + p))
    with (String.length pre + Z.to_nat p)%nat by lia.
  cbn [buffer view cursor_in].
  destruct (scan_right_inside q pre t post Hb r (Z.to_nat p)
              (String.length (pre ++ t ++ post)) Hrq ltac:(lia) ltac:(lia))
    as (k & Hk & Hs).
  exists k. rewrite Hs. split; lia.
Qed.

(** The word around a cursor in a run of word characters. *)
Lemma view_word_token :
  all_chars is_word_char t = true -> bounded_by is_word_char pre post = true ->
  view_word view {| a := x; b := x |} = span pre t.
Proof.
  intros Ht Hb. unfold view_word, region_begin, region_end. cbn [a b].
  rewrite Z.min_id, Z.max_id. unfold x.
  replace (Z.of_nat (String.length pre) + p)
    with (Z.of_nat (String.length pre + Z.to_nat p)) by lia.
  rewrite extend_left_token, extend_right_token by (assumption || lia).
  reflexivity.
Qed.

(** The word around a cursor, grown over [chars] on both sides. *)
Lemma expand_over_token (chars : string) :
  all_chars (fun c => Py.char_in c chars) t = true ->
  bounded_by (word_or chars) pre post = true ->
  expand_over chars view (view_word view {| a := x; b := x |}) = span pre t.
Proof.
  intros Ht Hb.
  assert (Htq : all_chars (word_or chars) t = true).
  { revert Ht. apply all_chars_impl. intros c Hc. unfold word_or.
    now rewrite Hc, orb_true_r. }
  assert (Hbc : bounded_by (fun c => Py.char_in c chars) pre post = true).
  { revert Hb. apply bounded_by_weaken. intros c Hc. unfold word_or.
    now rewrite Hc, orb_true_r. }
  assert (Hw : forall c, is_word_char c = true -> word_or chars c = true).
  { intros c Hc. unfold word_or. now rewrite Hc. }
  destruct (extend_left_inside (word_or chars) is_word_char Htq Hb Hw) as (k1 & Hk1 & H1).
  destruct (extend_right_inside (word_or chars) is_word_char Htq Hb Hw) as (k2 & Hk2 & H2).
  unfold expand_over, view_word, region_begin, region_end. cbn [a b].
  rewrite Z.min_id, Z.max_id, H1, H2.
  rewrite extend_left_token, extend_right_token by assumption.
  reflexivity.
Qed.
End Growth.

(** ** Where the outward scan stops *)

Lemma view_char_get (view : View) (i : nat) (c : ascii) :
  String.get i (buffer view) = Some c -> view_char view (Z.of_nat i) = c.
Proof.
  intros H. unfold view_char.
  destruct (Z.ltb_spec (Z.of_nat i) 0) as [H0 | H0]; [lia |].
  now rewrite Nat2Z.id, H.
Qed.

Lemma view_char_fails (p : ascii -> bool) (view : View) (i : Z) :
  p zero = false ->
  (0 <= i -> forall c, String.get (Z.to_nat i) (buffer view) = Some c -> p c = false) ->
  p (view_char view i) = false.
Proof.
  intros Hz H. unfold view_char.
  destruct (Z.ltb_spec i 0) as [H0 | H0]; [exact Hz |].
  destruct (String.get (Z.to_nat i) (buffer view)) as [c |] eqn:Hc; [| exact Hz].
  now apply H.
Qed.

(** X15: the outward scan of the exponential commands stops where the
    two [while] loops of the source stop: it only moves outwards, every
    character it passes is one of [chars], and the character before the new
    start and the character at the new end are not. *)
Theorem expand_over_stops (chars : string) (view : View) (s : Region) :
  Py.char_in zero chars = false ->
  0 <= a s -> 0 <= b s ->
  let r := expand_over chars view s in
  a r <= a s /\ b s <= b r
  /\ (forall i, a r <= i < a s -> Py.char_in (view_char view i) chars = true)
  /\ (forall i, b s <= i < b r -> Py.char_in (view_char view i) chars = true)
  /\ Py.char_in (view_char view (a r - 1)) chars = false
  /\ Py.char_in (view_char view (b r)) chars = false.
Proof.
  intros Hz Ha Hb r. subst r. unfold expand_over. cbn [a b].
  set (q := fun c => Py.char_in c chars).
  change (Py.char_in zero chars) with (q zero) in Hz.
  split; [apply extend_left_le |]. split; [apply extend_right_ge |].
  unfold extend_left, extend_right.
  destruct (Z.leb_spec (a s) 0) as [Ha0 | Ha0];
    (destruct (Z.ltb_spec (b s) 0) as [Hb0 | Hb0]; [lia |]).
  - (* the selection starts at the start of the buffer *)
    destruct (scan_right_spec q (buffer view) (String.length (buffer view)) (Z.to_nat (b s))
                ltac:(lia)) as (Hle & Hin & Hout).
    split; [intros i Hi; lia |]. split; [| split].
    + intros i Hi. destruct (Hin (Z.to_nat i) ltac:(lia)) as (c & Hc & Hq).
      rewrite <- (Z2Nat.id i) by lia. now rewrite (view_char_get view _ c Hc).
    + apply (view_char_fails q); [exact Hz | lia].
    + apply (view_char_fails q); [exact Hz |]. intros _ c. rewrite Nat2Z.id. apply Hout.
  - destruct (scan_left_spec q (buffer view) (Z.to_nat (a s))) as (Hle & Hin & Hout).
    destruct (scan_right_spec q (buffer view) (String.length (buffer view)) (Z.to_nat (b s))
                ltac:(lia)) as (Hle' & Hin' & Hout').
    split; [| split; [| split]].
    + intros i Hi. destruct (Hin (Z.to_nat i) ltac:(lia)) as (c & Hc & Hq).
      rewrite <- (Z2Nat.id i) by lia. now rewrite (view_char_get view _ c Hc).
    + intros i Hi. destruct (Hin' (Z.to_nat i) ltac:(lia)) as (c & Hc & Hq).
      rewrite <- (Z2Nat.id i) by lia. now rewrite (view_char_get view _ c Hc).
    + apply (view_char_fails q); [exact Hz |]. intros Hpos c.
      destruct Hout as [H0 | Hout]; [lia |].
      replace (Z.to_nat (Z.of_nat (scan_left q (buffer view) (Z.to_nat (a s))) - 1))
        with (Nat.pred (scan_left q (buffer view) (Z.to_nat (a s)))) by lia.
      apply Hout.
    + apply (view_char_fails q); [exact Hz |]. intros _ c. rewrite Nat2Z.id. apply Hout'.
Qed.

Lemma expand_over_stops_witness :
  let view := cursor_in no_settings "x = " "1.5e-3" ";" 2 in
  let s := {| a := 5; b := 6 |} in
  let r := expand_over exp_chars view s in
  a r <= a s /\ b s <= b r
  /\ (forall i, a r <= i < a s -> Py.char_in (view_char view i) exp_chars = true)
  /\ (forall i, b s <= i < b r -> Py.char_in (view_char view i) exp_chars = true)
  /\ Py.char_in (view_char view (a r - 1)) exp_chars = false
  /\ Py.char_in (view_char view (b r)) exp_chars = false.
Proof.
  apply (expand_over_stops exp_chars (cursor_in no_settings "x = " "1.5e-3" ";" 2)
           {| a := 5; b := 6 |}); [reflexivity | cbn; lia | cbn; lia].
Defined.

(** ** A cursor in a token *)

Lemma cursor_empty (x : Z) : region_empty {| a := x; b := x |} = true.
Proof. unfold region_empty. cbn [a b]. apply Z.eqb_refl. Qed.

Lemma view_substr_cursor (st : string -> option value) (pre t post : string) (p : Z) :
  view_substr (cursor_in st pre t post p) (span pre t) = t.
Proof. now apply (view_substr_span _ pre t post). Qed.

(** A loop body that treats the cursor as it treats the selection of the
    token gives the same text and the same report. *)
Lemma cursor_like_selection (what : string) (body : View -> Region -> outcome)
    (pre t post : string) (p : Z) :
  nonempty t = true ->
  body (cursor_in no_settings pre t post p)
       {| a := Z.of_nat (String.length pre) + p; b := Z.of_nat (String.length pre) + p |}
  = body (selected no_settings pre t post) (span pre t) ->
  (forall s' out, body (selected no_settings pre t post) (span pre t) = Replaced s' out ->
                  s' = span pre t) ->
  forall view1 status,
    convert_all what body (selected no_settings pre t post) = Finished view1 status ->
    exists view2,
      convert_all what body (cursor_in no_settings pre t post p) = Finished view2 status
      /\ buffer view2 = buffer view1.
Proof.
  intros Hne Hsame Hspan view1 status. unfold convert_all.
  cbn [sel selected cursor_in List.length for_each_sel nth_error].
  rewrite Hsame.
  destruct (body (selected no_settings pre t post) (span pre t)) as [s' out | |] eqn:Hb.
  - rewrite (Hspan s' out eq_refl). intros H. inversion H; subst. clear H.
    eexists. split; [reflexivity |].
    rewrite (view_replace_span _ pre t post out) by reflexivity.
    now rewrite (view_replace_span _ pre t post out).
  - intros H. inversion H; subst. eexists. split; reflexivity.
  - discriminate.
Qed.

Section CursorBodies.
Variables (pre t post : string) (p : Z).
Hypothesis Hne : nonempty t = true.
Hypothesis Hp : 0 <= p <= Z.of_nat (String.length t).

Let cview := cursor_in no_settings pre t post p.
Let sview := selected no_settings pre t post.
Let cursor := {| a := Z.of_nat (String.length pre) + p;
                 b := Z.of_nat (String.length pre) + p |}.

Lemma default_not_quoted (r : @Pattern sre_engine) :
  r = bin_default \/ r = hex_default ->
  String.get 0 (re_pattern r) = Some "\"%char.
Proof. now intros [-> | ->]. Qed.

Lemma expand_quoted_word (r : @Pattern sre_engine) :
  r = bin_default \/ r = hex_default ->
  all_chars is_word_char t = true -> bounded_by is_word_char pre post = true ->
  expand_quoted r cview cursor = Some (span pre t)
  /\ expand_quoted r sview (span pre t) = Some (span pre t).
Proof.
  intros Hr Ht Hb. split.
  - rewrite (expand_quoted_plain r cview cursor "\");
      [| apply cursor_empty | now apply default_not_quoted | discriminate].
    f_equal. now apply view_word_token.
  - apply expand_quoted_nonempty. now apply span_nonempty.
Qed.
End CursorBodies.

Ltac replaced_region :=
  intros s' out;
  repeat match goal with
         | |- context [match ?x with _ => _ end] => destruct x
         end;
  intros H; try discriminate H; now inversion H.

(** X16: with the default settings, a cursor anywhere in a token (or at
    one of its ends) is converted as the selection of the token is: the
    command leaves the same text in the buffer and reports the same.  A token
    is a run of word characters between characters that are not, and for the
    two exponential commands a run of the characters their scan runs over,
    between characters that are neither such characters nor word
    characters. *)
Theorem cursor_converts_token (fuel : nat) (c : Command) (pre t post : string) (p : Z) :
  nonempty t = true ->
  0 <= p <= Z.of_nat (String.length t) ->
  is_token c pre t post = true ->
  forall view1 status,
    run fuel c (selected no_settings pre t post) = Finished view1 status ->
    exists view2,
      run fuel c (cursor_in no_settings pre t post p) = Finished view2 status
      /\ buffer view2 = buffer view1.
Proof.
  intros Hne Hp Htok.
  pose proof (span_nonempty pre t Hne) as Hspan.
  pose proof (cursor_empty (Z.of_nat (String.length pre) + p)) as Hcur.
  assert (Hword : forall r : @Pattern sre_engine,
             r = bin_default \/ r = hex_default ->
             all_chars is_word_char t && bounded_by is_word_char pre post = true ->
             expand_quoted r (cursor_in no_settings pre t post p)
               {| a := Z.of_nat (String.length pre) + p;
                  b := Z.of_nat (String.length pre) + p |} = Some (span pre t)
             /\ expand_quoted r (selected no_settings pre t post) (span pre t)
                = Some (span pre t)).
  { intros r Hr H. apply andb_prop in H as [Ht Hb]. now apply expand_quoted_word. }
  destruct c; cbn [run is_token] in *;
    unfold BinToDecCommand_run, BinToHexCommand_run, DecToBinCommand_run,
      DecToHexCommand_run, HexToBinCommand_run, HexToDecCommand_run,
      ExpToDecCommand_run, DecToExpCommand_run;
    rewrite ?bin_default_loaded, ?hex_default_loaded, ?exp_default_loaded by reflexivity;
    apply cursor_like_selection; try exact Hne.
  - (* BinToDec *)
    destruct (Hword bin_default (or_introl eq_refl) Htok) as [H1 H2].
    unfold BinToDec_convert. rewrite H1, H2.
    now rewrite view_substr_cursor, view_substr_selected.
  - rewrite (BinToDec_convert_text _ _ _ t Hspan (view_substr_selected _ _ _ _)).
    replaced_region.
  - (* BinToHex *)
    destruct (Hword bin_default (or_introl eq_refl) Htok) as [H1 H2].
    unfold BinToHex_convert. rewrite H1, H2.
    now rewrite view_substr_cursor, view_substr_selected.
  - rewrite (BinToHex_convert_text _ _ _ _ t Hspan (view_substr_selected _ _ _ _)).
    replaced_region.
  - (* DecToBin *)
    apply andb_prop in Htok as [Ht Hb].
    unfold DecToBin_convert. rewrite Hcur, Hspan.
    rewrite (view_word_token no_settings pre t post p Hp Ht Hb).
    now rewrite view_substr_cursor, view_substr_selected.
  - rewrite (DecToBin_convert_text _ _ _ t Hspan (view_substr_selected _ _ _ _)).
    replaced_region.
  - (* DecToHex *)
    apply andb_prop in Htok as [Ht Hb].
    unfold DecToHex_convert. rewrite Hcur, Hspan.
    rewrite (view_word_token no_settings pre t post p Hp Ht Hb).
    now rewrite view_substr_cursor, view_substr_selected.
  - rewrite (DecToHex_convert_text _ _ _ t Hspan (view_substr_selected _ _ _ _)).
    replaced_region.
  - (* HexToBin *)
    destruct (Hword hex_default (or_intror eq_refl) Htok) as [H1 H2].
    unfold HexToBin_convert. rewrite H1, H2.
    now rewrite view_substr_cursor, view_substr_selected.
  - rewrite (HexToBin_convert_text _ _ _ _ t Hspan (view_substr_selected _ _ _ _)).
    replaced_region.
  - (* HexToDec *)
    destruct (Hword hex_default (or_intror eq_refl) Htok) as [H1 H2].
    unfold HexToDec_convert. rewrite H1, H2.
    now rewrite view_substr_cursor, view_substr_selected.
  - rewrite (HexToDec_convert_text _ _ _ t Hspan (view_substr_selected _ _ _ _)).
    replaced_region.
  - (* ExpToDec *)
    apply andb_prop in Htok as [Ht Hb].
    unfold ExpToDec_convert. rewrite Hcur, Hspan.
    rewrite (expand_over_token no_settings pre t post p Hp exp_chars Ht Hb).
    now rewrite view_substr_cursor, view_substr_selected.
  - rewrite (ExpToDec_convert_text _ _ _ t Hspan (view_substr_selected _ _ _ _)).
    replaced_region.
  - (* DecToExp *)
    apply andb_prop in Htok as [Ht Hb].
    unfold DecToExp_convert. rewrite Hcur, Hspan.
    rewrite (expand_over_token no_settings pre t post p Hp dec_chars Ht Hb).
    now rewrite view_substr_cursor, view_substr_selected.
  - rewrite (DecToExp_convert_text _ _ _ _ t Hspan (view_substr_selected _ _ _ _)).
    replaced_region.
Qed.

Lemma cursor_converts_token_witness :
  exists view2,
    run 0 ExpToDec (cursor_in no_settings "x = " "1.42e-3" ";" 3)
    = Finished view2 None
    /\ buffer view2 = buffer (selected no_settings "x = " "0.00142" ";").
Proof.
  apply (cursor_converts_token 0 ExpToDec "x = " "1.42e-3" ";" 3);
    [reflexivity | cbn; lia | reflexivity | reflexivity].
Defined.

(** ** Two selections *)

Lemma append_inv_head (s x y : string) : s ++ x = s ++ y -> x = y.
Proof.
  induction s as [| c s IH]; simpl; [trivial |]. intros H. inversion H. now apply IH.
Qed.

Lemma append_inv_tail (x y r : string) : x ++ r = y ++ r -> x = y.
Proof.
  revert y. induction x as [| c x IH]; intros [| d y] H; cbn [append] in H.
  - reflexivity.
  - apply (f_equal String.length) in H. cbn [String.length] in H.
    rewrite length_append in H. lia.
  - apply (f_equal String.length) in H. cbn [String.length] in H.
    rewrite length_append in H. lia.
  - inversion H. f_equal. now apply IH.
Qed.

Lemma single_replaced (what : string) (body : View -> Region -> outcome)
    (pre t post out : string) :
  by_text body -> nonempty t = true ->
  convert_all what body (selected no_settings pre t post)
  = Finished (selected no_settings pre out post) None ->
  forall view s, region_empty s = false -> view_substr view s = t ->
                 body view s = Replaced s out.
Proof.
  intros Hbody Hne H.
  pose proof (span_nonempty pre t Hne) as Hs.
  pose proof (view_substr_selected no_settings pre t post) as Hsub.
  destruct (Hbody t) as [[out' Hb] | [Hb | Hb]].
  - rewrite (convert_all_replaced what body no_settings pre t post out' Hne
               (Hb _ _ Hs Hsub)) in H.
    inversion H as [Hbuf].
    apply append_inv_head, append_inv_tail in Hbuf. now subst out'.
  - rewrite (convert_all_raised what body no_settings pre t post (Hb _ _ Hs Hsub)) in H.
    discriminate H.
  - rewrite (convert_all_unfinished what body no_settings pre t post (Hb _ _ Hs Hsub)) in H.
    discriminate H.
Qed.

Lemma two_replaced (what : string) (body : View -> Region -> outcome)
    (pre t1 mid t2 post out1 out2 : string) :
  by_text body -> nonempty t1 = true -> nonempty t2 = true ->
  convert_all what body (selected no_settings pre t1 (mid ++ t2 ++ post))
  = Finished (selected no_settings pre out1 (mid ++ t2 ++ post)) None ->
  convert_all what body (selected no_settings (pre ++ out1 ++ mid) t2 post)
  = Finished (selected no_settings (pre ++ out1 ++ mid) out2 post) None ->
  convert_all what body (selected2 no_settings pre t1 mid t2 post)
  = Finished (selected2 no_settings pre out1 mid out2 post) None.
Proof.
  intros Hbody Hn1 Hn2 H1 H2.
  pose proof (single_replaced what body _ _ _ _ Hbody Hn1 H1) as B1.
  pose proof (single_replaced what body _ _ _ _ Hbody Hn2 H2) as B2.
  unfold convert_all. cbn [sel selected2 List.length].
  rewrite (for_each_replaced body _ _ _ _ (span pre t1) (span pre t1) out1);
    [| reflexivity | apply B1; [now apply span_nonempty | apply view_substr_first]].
  rewrite replace_first by exact Hn1.
  rewrite (for_each_replaced body _ _ _ _ (span (pre ++ out1 ++ mid) t2)
             (span (pre ++ out1 ++ mid) t2) out2);
    [| reflexivity | apply B2; [now apply span_nonempty | apply view_substr_second]].
  rewrite replace_second by exact Hn2.
  reflexivity.
Qed.

Section ByText.
Context {E : RegexEngine} {L : Libm}.

Lemma BinToDec_by_text r : by_text (BinToDec_convert r).
Proof.
  intros t.
  destruct (re_match r t) as [m |] eqn:Hm;
    [destruct (m 1%nat) as [g |] eqn:Hg; [destruct (Py.int g 2) as [n |] eqn:Hn |] |].
  - left. exists (Py.str n). intros view s Hs Ht.
    rewrite (BinToDec_convert_text r view s t Hs Ht). now rewrite Hm, Hg, Hn.
  - right. left. intros view s Hs Ht.
    rewrite (BinToDec_convert_text r view s t Hs Ht). now rewrite Hm, Hg, Hn.
  - right. left. intros view s Hs Ht.
    rewrite (BinToDec_convert_text r view s t Hs Ht). now rewrite Hm, Hg.
  - right. left. intros view s Hs Ht.
    rewrite (BinToDec_convert_text r view s t Hs Ht). now rewrite Hm.
Qed.

Lemma HexToDec_by_text r : by_text (HexToDec_convert r).
Proof.
  intros t.
  destruct (re_match r t) as [m |] eqn:Hm;
    [destruct (m 1%nat) as [g |] eqn:Hg; [destruct (Py.int g 16) as [n |] eqn:Hn |] |].
  - left. exists (Py.str n). intros view s Hs Ht.
    rewrite (HexToDec_convert_text r view s t Hs Ht). now rewrite Hm, Hg, Hn.
  - right. left. intros view s Hs Ht.
    rewrite (HexToDec_convert_text r view s t Hs Ht). now rewrite Hm, Hg, Hn.
  - right. left. intros view s Hs Ht.
    rewrite (HexToDec_convert_text r view s t Hs Ht). now rewrite Hm, Hg.
  - right. left. intros view s Hs Ht.
    rewrite (HexToDec_convert_text r view s t Hs Ht). now rewrite Hm.
Qed.

Lemma BinToHex_by_text dst r : by_text (BinToHex_convert dst r).
Proof.
  intros t.
  destruct (re_match r t) as [m |] eqn:Hm;
    [destruct (m 1%nat) as [g |] eqn:Hg;
     [destruct (Py.int g 2) as [n |] eqn:Hn;
      [destruct (format_value dst n) as [text |] eqn:Hf |] |] |].
  - left. exists text. intros view s Hs Ht.
    rewrite (BinToHex_convert_text dst r view s t Hs Ht). now rewrite Hm, Hg, Hn, Hf.
  - right. left. intros view s Hs Ht.
    rewrite (BinToHex_convert_text dst r view s t Hs Ht). now rewrite Hm, Hg, Hn, Hf.
  - right. left. intros view s Hs Ht.
    rewrite (BinToHex_convert_text dst r view s t Hs Ht). now rewrite Hm, Hg, Hn.
  - right. left. intros view s Hs Ht.
    rewrite (BinToHex_convert_text dst r view s t Hs Ht). now rewrite Hm, Hg.
  - right. left. intros view s Hs Ht.
    rewrite (BinToHex_convert_text dst r view s t Hs Ht). now rewrite Hm.
Qed.

Lemma HexToBin_by_text dst r : by_text (HexToBin_convert dst r).
Proof.
  intros t.
  destruct (re_match r t) as [m |] eqn:Hm;
    [destruct (m 1%nat) as [g |] eqn:Hg;
     [destruct (Py.int g 16) as [n |] eqn:Hn;
      [destruct (format_value dst n) as [text |] eqn:Hf |] |] |].
  - left. exists text. intros view s Hs Ht.
    rewrite (HexToBin_convert_text dst r view s t Hs Ht). now rewrite Hm, Hg, Hn, Hf.
  - right. left. intros view s Hs Ht.
    rewrite (HexToBin_convert_text dst r view s t Hs Ht). now rewrite Hm, Hg, Hn, Hf.
  - right. left. intros view s Hs Ht.
    rewrite (HexToBin_convert_text dst r view s t Hs Ht). now rewrite Hm, Hg, Hn.
  - right. left. intros view s Hs Ht.
    rewrite (HexToBin_convert_text dst r view s t Hs Ht). now rewrite Hm, Hg.
  - right. left. intros view s Hs Ht.
    rewrite (HexToBin_convert_text dst r view s t Hs Ht). now rewrite Hm.
Qed.

Lemma DecToBin_by_text dst : by_text (DecToBin_convert dst).
Proof.
  intros t.
  destruct (Py.int (Py.strip t) 10) as [n |] eqn:Hn;
    [destruct (format_value dst n) as [text |] eqn:Hf |].
  - left. exists text. intros view s Hs Ht.
    rewrite (DecToBin_convert_text dst view s t Hs Ht). now rewrite Hn, Hf.
  - right. left. intros view s Hs Ht.
    rewrite (DecToBin_convert_text dst view s t Hs Ht). now rewrite Hn, Hf.
  - right. left. intros view s Hs Ht.
    rewrite (DecToBin_convert_text dst view s t Hs Ht). now rewrite Hn.
Qed.

Lemma DecToHex_by_text dst : by_text (DecToHex_convert dst).
Proof.
  intros t.
  destruct (Py.int (Py.strip t) 10) as [n |] eqn:Hn;
    [destruct (format_value dst n) as [text |] eqn:Hf |].
  - left. exists text. intros view s Hs Ht.
    rewrite (DecToHex_convert_text dst view s t Hs Ht). now rewrite Hn, Hf.
  - right. left. intros view s Hs Ht.
    rewrite (DecToHex_convert_text dst view s t Hs Ht). now rewrite Hn, Hf.
  - right. left. intros view s Hs Ht.
    rewrite (DecToHex_convert_text dst view s t Hs Ht). now rewrite Hn.
Qed.

Lemma ExpToDec_by_text r : by_text (ExpToDec_convert r).
Proof.
  intros t.
  destruct (re_match r t) as [m |] eqn:Hm;
    [destruct (m 1%nat) as [g1 |] eqn:Hg1;
     [destruct (F64.of_string g1) as [x |] eqn:Hx;
      [destruct (m 2%nat) as [g2 |] eqn:Hg2;
       [destruct (F64.of_string g2) as [y |] eqn:Hy;
        [destruct (pow10 y) as [pw |] eqn:Hpw |] |] |] |] |].
  - left. eexists. intros view s Hs Ht.
    rewrite (ExpToDec_convert_text r view s t Hs Ht).
    rewrite Hm, Hg1, Hx, Hg2, Hy, Hpw. reflexivity.
  - right. left. intros view s Hs Ht.
    rewrite (ExpToDec_convert_text r view s t Hs Ht).
    now rewrite Hm, Hg1, Hx, Hg2, Hy, Hpw.
  - right. left. intros view s Hs Ht.
    rewrite (ExpToDec_convert_text r view s t Hs Ht). now rewrite Hm, Hg1, Hx, Hg2, Hy.
  - right. left. intros view s Hs Ht.
    rewrite (ExpToDec_convert_text r view s t Hs Ht). now rewrite Hm, Hg1, Hx, Hg2.
  - right. left. intros view s Hs Ht.
    rewrite (ExpToDec_convert_text r view s t Hs Ht). now rewrite Hm, Hg1, Hx.
  - right. left. intros view s Hs Ht.
    rewrite (ExpToDec_convert_text r view s t Hs Ht). now rewrite Hm, Hg1.
  - right. left. intros view s Hs Ht.
    rewrite (ExpToDec_convert_text r view s t Hs Ht). now rewrite Hm.
Qed.

Lemma DecToExp_by_text fuel dst : by_text (DecToExp_convert fuel dst).
Proof.
  intros t.
  destruct (F64.of_string t) as [x |] eqn:Hx;
    [destruct (normalize fuel x) as [[b e] |] eqn:Hn; [destruct dst as [marker |] |] |].
  - left. eexists. intros view s Hs Ht.
    rewrite (DecToExp_convert_text fuel _ view s t Hs Ht). rewrite Hx, Hn. reflexivity.
  - right. left. intros view s Hs Ht.
    rewrite (DecToExp_convert_text fuel _ view s t Hs Ht). now rewrite Hx, Hn.
  - right. right. intros view s Hs Ht.
    rewrite (DecToExp_convert_text fuel _ view s t Hs Ht). now rewrite Hx, Hn.
  - right. left. intros view s Hs Ht.
    rewrite (DecToExp_convert_text fuel _ view s t Hs Ht). now rewrite Hx.
Qed.
End ByText.

(** X17: selections are converted independently of one another.  When
    a command converts the selection [t1] alone to [out1] and, in the text
    as it then stands, the selection [t2] alone to [out2], it converts the two
    selections together to [out1] and [out2]: the second region is moved along
    with the text when the first replacement changes its length. *)
Theorem selections_convert_independently (fuel : nat) (c : Command)
    (pre t1 mid t2 post out1 out2 : string) :
  nonempty t1 = true -> nonempty t2 = true ->
  run fuel c (selected no_settings pre t1 (mid ++ t2 ++ post))
  = Finished (selected no_settings pre out1 (mid ++ t2 ++ post)) None ->
  run fuel c (selected no_settings (pre ++ out1 ++ mid) t2 post)
  = Finished (selected no_settings (pre ++ out1 ++ mid) out2 post) None ->
  run fuel c (selected2 no_settings pre t1 mid t2 post)
  = Finished (selected2 no_settings pre out1 mid out2 post) None.
Proof.
  intros Hn1 Hn2.
  destruct c; cbn [run];
    unfold BinToDecCommand_run, BinToHexCommand_run, DecToBinCommand_run,
      DecToHexCommand_run, HexToBinCommand_run, HexToDecCommand_run,
      ExpToDecCommand_run, DecToExpCommand_run;
    rewrite ?bin_default_loaded, ?hex_default_loaded, ?exp_default_loaded by reflexivity;
    apply two_replaced; try assumption.
  - apply BinToDec_by_text.
  - apply BinToHex_by_text.
  - apply DecToBin_by_text.
  - apply DecToHex_by_text.
  - apply HexToBin_by_text.
  - apply HexToDec_by_text.
  - apply ExpToDec_by_text.
  - apply DecToExp_by_text.
Qed.

Lemma selections_convert_independently_witness :
  run 0 BinToDec (selected2 no_settings "a = " "101" "; b = " "11" ";")
  = Finished (selected2 no_settings "a = " "5" "; b = " "3" ";") None.
Proof.
  apply (selections_convert_independently 0 BinToDec "a = " "101" "; b = " "11" ";" "5" "3");
    reflexivity.
Defined.

(** ** The example configuration *)













